(** * Submission tooling: metadata collector, uploader, source validator

    A shallow embedding of the three command-line scripts
    [create_git_info.py], [upload_submission.py] and [validate_python.py],
    together with the properties their specification states about them.

    Python values are modelled as follows: [bytes] as [list byte], [str] as
    [string] (the UTF-8 encoded text), parsed JSON as the inductive [json]
    whose objects are finite maps, exceptions as the inductive [exn], and
    the process' effects (standard output, the file system, the HTTP
    requests sent) as an explicit [world] threaded through a state and
    exception monad. *)

From Stdlib Require Import ZArith NArith Lia List Ascii String.
From Stdlib.Strings Require Import Byte.
From stdpp Require Import base option list gmap strings pretty.

Local Open Scope string_scope.
Local Open Scope list_scope.

(** ** Base64 (RFC 4648 section 4), as computed by [base64.b64encode]

    The encoder belongs to Python's standard library, not to the scripts;
    it is written here after the RFC, with the matching strict decoder. *)

Module Base64.

Definition alphabet : string :=
  "ABCDEFGHIJKLMNOPQRSTUVWXYZabcdefghijklmnopqrstuvwxyz0123456789+/".

Definition pad : ascii := "="%char.

(** The character of a 6-bit group. *)
Definition char_of (i : N) : ascii :=
  match String.get (N.to_nat i) alphabet with
  | Some c => c
  | None => pad
  end.

Fixpoint index_from (c : ascii) (s : string) (i : N) : option N :=
  match s with
  | EmptyString => None
  | String d s' => if Ascii.eqb c d then Some i else index_from c s' (N.succ i)
  end.

(** The 6-bit group of a character of the alphabet. *)
Definition index_of (c : ascii) : option N := index_from c alphabet 0.

Definition str4 (a b c d : ascii) (rest : string) : string :=
  String a (String b (String c (String d rest))).

(** [b64encode]: every 3 input bytes form a 24-bit group that is written as
    four 6-bit characters; a final group of 1 or 2 bytes is zero-extended
    to 12 or 18 bits and completed with ['=']. *)
Fixpoint b64encode (bs : list byte) : string :=
  match bs with
  | [] => ""
  | [a] =>
      let n := (Byte.to_N a * 16)%N in
      str4 (char_of (n / 64)) (char_of (n mod 64)) pad pad ""
  | [a; b] =>
      let n := ((Byte.to_N a * 256 + Byte.to_N b) * 4)%N in
      str4 (char_of (n / 4096)) (char_of (n / 64 mod 64))
           (char_of (n mod 64)) pad ""
  | a :: b :: c :: rest =>
      let n := (Byte.to_N a * 65536 + Byte.to_N b * 256 + Byte.to_N c)%N in
      str4 (char_of (n / 262144)) (char_of (n / 4096 mod 64))
           (char_of (n / 64 mod 64)) (char_of (n mod 64))
           (b64encode rest)
  end.

Definition bytes1 (i0 i1 : N) : option (list byte) :=
  a ← Byte.of_N ((i0 * 64 + i1) / 16);
  Some [a].

Definition bytes2 (i0 i1 i2 : N) : option (list byte) :=
  let n := (((i0 * 64 + i1) * 64 + i2) / 4)%N in
  a ← Byte.of_N (n / 256);
  b ← Byte.of_N (n mod 256);
  Some [a; b].

Definition bytes3 (i0 i1 i2 i3 : N) : option (list byte) :=
  let n := (((i0 * 64 + i1) * 64 + i2) * 64 + i3)%N in
  a ← Byte.of_N (n / 65536);
  b ← Byte.of_N (n / 256 mod 256);
  c ← Byte.of_N (n mod 256);
  Some [a; b; c].

(** Strict decoding: the text is read four characters at a time; padding
    is accepted in the last group only, and any character outside the
    alphabet makes the decoding fail. *)
Fixpoint b64decode (s : string) : option (list byte) :=
  match s with
  | EmptyString => Some []
  | String c0 (String c1 (String c2 (String c3 rest))) =>
      i0 ← index_of c0;
      i1 ← index_of c1;
      if Ascii.eqb c3 pad then
        match rest with
        | EmptyString =>
            if Ascii.eqb c2 pad then bytes1 i0 i1
            else i2 ← index_of c2; bytes2 i0 i1 i2
        | String _ _ => None
        end
      else
        i2 ← index_of c2;
        i3 ← index_of c3;
        hd ← bytes3 i0 i1 i2 i3;
        tl ← b64decode rest;
        Some (hd ++ tl)
  | _ => None
  end.

Definition below64 (P : N → bool) : bool :=
  forallb P (map N.of_nat (seq 0 64)).

End Base64.

(** ** Python values and the world a script runs in *)

Local Set Warnings "-register-all".

(** A parsed JSON document, which is also the shape of every Python value
    the scripts compute with: [None], [bool], [int], [float] (kept as its
    literal), [str], [list] and [dict] with string keys. *)
Inductive json :=
| JNull
| JBool (b : bool)
| JInt (n : Z)
| JFloat (lit : string)
| JStr (s : string)
| JArr (l : list json)
| JObj (m : gmap string json).

(** The JSON body of the upload request. *)
Record payload := Payload {
  p_api_key : string;
  p_role : string;
  p_file : string;
  p_filename : string
}.

(** What a script can observe and change: the chunks written to standard
    output, the regular files of the file system with their bytes, the
    HTTP POST requests sent (url and JSON body) and the child processes
    started (their argument vectors). The file system holds regular files
    only: opening a path for writing or appending always succeeds and
    creates the file when it is missing. *)
Record world := World {
  stdout : list string;
  fs : gmap string (list byte);
  posts : list (string * payload);
  procs : list (list string)
}.

Definition nl : string := String "010"%char "".

(** A line of output: the text and the newline [print] ends it with. *)
Definition line (s : string) : string := s +:+ nl.

(** The world after a chunk is written to standard output, after a file
    is replaced, after text is appended to a file, after a request is
    sent, and after a child process is started. *)
Definition emitted (s : string) (w : world) : world :=
  World (stdout w ++ [s]) (fs w) (posts w) (procs w).

Definition written (p s : string) (w : world) : world :=
  World (stdout w) (<[p := list_byte_of_string s]> (fs w)) (posts w) (procs w).

(** The bytes of a file; a missing file has none. *)
Definition content (p : string) (w : world) : list byte :=
  default [] (fs w !! p).

Definition appended (p s : string) (w : world) : world :=
  World (stdout w) (<[p := content p w ++ list_byte_of_string s]> (fs w))
        (posts w) (procs w).

Definition posted (url : string) (pl : payload) (w : world) : world :=
  World (stdout w) (fs w) (posts w ++ [(url, pl)]) (procs w).

Definition ran (argv : list string) (w : world) : world :=
  World (stdout w) (fs w) (posts w) (procs w ++ [argv]).

Section Monad.
Context {E : Type}.

(** Computations that change the world and either return or raise. *)
Definition M (A : Type) : Type := world → (E + A) * world.

Definition ret {A} (a : A) : M A := λ w, (inr a, w).

Definition raise {A} (e : E) : M A := λ w, (inl e, w).

Definition bind {A B} (m : M A) (k : A → M B) : M B :=
  λ w, match m w with
       | (inl e, w') => (inl e, w')
       | (inr a, w') => k a w'
       end.

Definition emit (s : string) : M unit := λ w, (inr (), emitted s w).

(** [print(s)] and [print(s, end=e)]. *)
Definition print (s : string) : M unit := emit (line s).
Definition print_end (s e : string) : M unit := emit (s +:+ e).

Definition path_exists (p : string) : M bool :=
  λ w, (inr (bool_decide (is_Some (fs w !! p))), w).

(** [open(p, 'w')] followed by one write of [s]. *)
Definition write_text (p s : string) : M unit := λ w, (inr (), written p s w).

(** [f.write(s)] on a file opened with [open(p, 'a')]; appending the
    empty text is what opening alone does. *)
Definition append_text (p s : string) : M unit :=
  λ w, (inr (), appended p s w).

Definition when (b : bool) (m : M unit) : M unit := if b then m else ret ().

Fixpoint for_each {A} (l : list A) (body : A → M unit) : M unit :=
  match l with
  | [] => ret ()
  | x :: l' => bind (body x) (λ _, for_each l' body)
  end.
End Monad.

Arguments M : clear implicits.

(** [try: m except e: h e]; the handler re-raises what it does not handle,
    possibly into an enclosing scope with other exceptions. *)
Definition try_except {E E' A} (m : M E A) (h : E → M E' A) : M E' A :=
  λ w, match m w with
       | (inl e, w') => h e w'
       | (inr a, w') => (inr a, w')
       end.

Notation "'let*' x ':=' m 'in' k" := (bind m (λ x, k))
  (at level 10, x pattern, m at level 100, k at level 200,
   format "'[v' 'let*'  x  ':='  m  'in' '/' k ']'").
Notation "m '>>' k" := (bind m (λ _, k))
  (at level 100, k at level 200, right associativity).

(** ** Specifications of computations *)

(** [spec m w Q R]: run from [w], the computation [m] either returns a
    value and a world that satisfy [Q], or raises an exception in a world
    that satisfy [R]. *)
Definition spec {E A} (m : M E A) (w : world)
    (Q : A → world → Prop) (R : E → world → Prop) : Prop :=
  match m w with
  | (inr a, w') => Q a w'
  | (inl e, w') => R e w'
  end.

(** The file [p] holds in [w] what it held in [w0], possibly followed by
    more bytes. *)
Definition extends (p : string) (w0 w : world) : Prop :=
  ∃ bs, content p w = content p w0 ++ bs.

(** Since [w0] the text [s] has been appended to the file [p]. *)
Definition wrote (p s : string) (w0 w : world) : Prop :=
  ∃ pre post,
    content p w = content p w0 ++ pre ++ list_byte_of_string s ++ post.

(** ** Text helpers that follow [str]'s methods on UTF-8 text *)

(** [s * n] *)
Fixpoint str_repeat (s : string) (n : nat) : string :=
  match n with
  | O => ""
  | S n' => s +:+ str_repeat s n'
  end.

(** [s.split('\n')] *)
Fixpoint split_lines_from (cur : string) (s : string) : list string :=
  match s with
  | EmptyString => [String.rev cur]
  | String c s' =>
      if Ascii.eqb c "010"%char then String.rev cur :: split_lines_from "" s'
      else split_lines_from (String c cur) s'
  end.

Definition split_lines (s : string) : list string := split_lines_from "" s.

(** The newline translation of a file read in text mode (universal
    newlines): a carriage return with the line feed that follows it, or
    alone, becomes one line feed. *)
Fixpoint universal_newlines (s : string) : string :=
  match s with
  | EmptyString => ""
  | String c s' =>
      if Ascii.eqb c "013"%char then
        String "010"%char
          match s' with
          | EmptyString => ""
          | String c' s'' =>
              if Ascii.eqb c' "010"%char then universal_newlines s''
              else universal_newlines s'
          end
      else String c (universal_newlines s')
  end.

(** [s.rstrip('/')] *)
Fixpoint rstrip_slash (s : string) : string :=
  match s with
  | EmptyString => ""
  | String c s' =>
      match rstrip_slash s' with
      | EmptyString => if Ascii.eqb c "/"%char then "" else String c ""
      | r => String c r
      end
  end.

(** Truth value of a [str]: non-empty. *)
Definition str_truthy (s : string) : bool :=
  match s with EmptyString => false | _ => true end.

(** Truth value of an optional [str] ([None] or [''] are false). *)
Definition opt_truthy (o : option string) : bool :=
  match o with Some s => str_truthy s | None => false end.

(** ** Metadata collector ([create_git_info.py]) *)

Module GitInfo.

(** The exceptions [subprocess.check_output] can raise: the command exited
    with a non-zero status, the executable was not found, or anything
    else (with its text). *)
Inductive exn :=
| CalledProcessError
| FileNotFoundError
| OtherError (msg : string).

Section Collector.
(** The environment: what running an argument vector yields (its
    standard output as text, or the exception raised), and the two
    library functions used on the result. *)
Variable run : list string → exn + string.
Variable str_strip : string → string.
Variable json_dumps : json → string.

(** [subprocess.check_output(argv, stderr=DEVNULL, text=True)] *)
Definition check_output (argv : list string) : M exn string :=
  λ w, (run argv, ran argv w).

Definition git_cmd (args : list string) : M exn string :=
  try_except
    (let* out := check_output ("git" :: args) in
     ret (str_strip out))
    (λ e, match e with
          | CalledProcessError | FileNotFoundError => ret ""
          | OtherError _ => raise e
          end).

(** [s.split('\n')[0]] *)
Definition first_line (s : string) : string := hd "" (split_lines s).

(** The dictionary literal of [main], in evaluation order. *)
Definition main_info : M exn (list (string * string)) :=
  let* commit := git_cmd ["rev-parse"; "HEAD"] in
  let* commit_short := git_cmd ["rev-parse"; "--short"; "HEAD"] in
  let* message := git_cmd ["log"; "-1"; "--pretty=%B"] in
  let* branch := git_cmd ["rev-parse"; "--abbrev-ref"; "HEAD"] in
  let* tag := git_cmd ["describe"; "--tags"; "--exact-match"] in
  let* remote_url := git_cmd ["remote"; "get-url"; "origin"] in
  let* author := git_cmd ["log"; "-1"; "--pretty=%an"] in
  let* author_email := git_cmd ["log"; "-1"; "--pretty=%ae"] in
  let* commit_timestamp := git_cmd ["log"; "-1"; "--pretty=%aI"] in
  ret [("commit", commit);
       ("commit_short", commit_short);
       ("message", first_line message);
       ("branch", branch);
       ("tag", tag);
       ("remote_url", remote_url);
       ("author", author);
       ("author_email", author_email);
       ("commit_timestamp", commit_timestamp)].

Definition info_json (info : list (string * string)) : json :=
  JObj (list_to_map (prod_map id JStr <$> info)).

Definition main : M exn unit :=
  let* info := main_info in
  write_text "GIT_INFO.json" (json_dumps (info_json info)) >>
  print "GIT_INFO.json created:" >>
  print (json_dumps (info_json info)).

(** The fields of the record with the query each one comes from. *)
Definition queries : list (string * list string) :=
  [("commit", ["rev-parse"; "HEAD"]);
   ("commit_short", ["rev-parse"; "--short"; "HEAD"]);
   ("message", ["log"; "-1"; "--pretty=%B"]);
   ("branch", ["rev-parse"; "--abbrev-ref"; "HEAD"]);
   ("tag", ["describe"; "--tags"; "--exact-match"]);
   ("remote_url", ["remote"; "get-url"; "origin"]);
   ("author", ["log"; "-1"; "--pretty=%an"]);
   ("author_email", ["log"; "-1"; "--pretty=%ae"]);
   ("commit_timestamp", ["log"; "-1"; "--pretty=%aI"])].

(** The tool is absent or the query fails. *)
Definition query_failed (args : list string) : Prop :=
  run ("git" :: args) = inl CalledProcessError
  ∨ run ("git" :: args) = inl FileNotFoundError.

(** The query neither succeeds nor fails in one of the two handled
    ways. *)
Definition query_crashes (args : list string) : Prop :=
  ∃ msg, run ("git" :: args) = inl (OtherError msg).

(** What a field holds when its query succeeds with output [out]. *)
Definition field_of_output (field out : string) : string :=
  if String.eqb field "message" then first_line (str_strip out)
  else str_strip out.

(** The value [git_cmd] computes, as a function of the query alone. *)
Definition git_value (args : list string) : string :=
  match run ("git" :: args) with
  | inr out => str_strip out
  | inl _ => ""
  end.

(** The record [main] assembles when no query crashes. *)
Definition info_of_values : list (string * string) :=
  (λ q, (q.1, if String.eqb q.1 "message"
              then first_line (git_value q.2)
              else git_value q.2)) <$> queries.

End Collector.

End GitInfo.

(** ** Submission uploader ([upload_submission.py]) *)

Module Uploader.

(** An HTTP response as the script looks at it: what [response.json()]
    yields ([None] when the body is not valid JSON and the call raises)
    and [response.text]. *)
Record response := Response {
  resp_json : option json;
  resp_text : string
}.

(** The exceptions of the script. [RequestException] carries [str(e)] and
    [e.response]; [SubmissionError] its title and details; [OtherError]
    stands for every other subclass of [Exception], with [str(e)];
    [SystemExit] is raised by [sys.exit] and is not an [Exception]. *)
Inductive exn :=
| RequestException (msg : string) (resp : option response)
| SubmissionError (title : json) (details : option string)
| OtherError (msg : string)
| SystemExit (code : Z).

(** The outcome of the three statements of the [try] block of
    [upload_submission]: [requests.post], [raise_for_status] and
    [response.json()]. *)
Inductive http_outcome :=
| HttpJson (v : json)
| HttpRequestException (msg : string) (resp : option response)
| HttpOtherError (msg : string).

(** The parsed command line. *)
Record args := Args {
  api_key : string;
  endpoint : string;
  role : string;
  file : string;
  file_list : option string;
  submission_path : option string;
  print_info : bool
}.

Definition result_file : string := "submission_result.json".

Definition bar : string := str_repeat "=" 60.

Section Script.
(** The environment of a run: the network, the process environment
    variables, and the library functions whose results the script only
    passes on ([json.loads] with the text of its error, [json.dumps]
    with [indent=2], [str()] of a value that is not a [str], the [str]
    methods, the [Path] accessors, the text of the error a value
    raises when an operation does not apply to its type, and the decoder
    of the locale, which gives the text of the bytes of a file or the
    message of its [UnicodeDecodeError]). *)
Variable http : string → payload → http_outcome.
Variable getenv : string → option string.
Variable json_loads : string → string + json.
Variable json_dumps : json → string.
Variable py_repr : json → string.
Variable str_upper : string → string.
Variable str_capitalize : string → string.
Variable str_strip : string → string.
Variable path_str : string → string.
Variable path_name : string → string.
Variable path_suffix : string → string.
Variable error_text : string → json → string.
Variable decode_text : list byte → string + string.

(** [str(v)], as an f-string formats a value. *)
Definition py_str (v : json) : string :=
  match v with
  | JStr s => s
  | _ => py_repr v
  end.

(** [str(e)] *)
Definition exn_str (e : exn) : string :=
  match e with
  | RequestException msg _ => msg
  | SubmissionError title _ => py_str title
  | OtherError msg => msg
  | SystemExit code => pretty code
  end.

Definition sys_exit {A} (code : Z) : M exn A := raise (SystemExit code).

(** [try: m except Exception as e: h e] *)
Definition try_except_Exception {A} (m : M exn A) (h : exn → M exn A)
  : M exn A :=
  try_except m (λ e, match e with
                     | SystemExit _ => raise e
                     | _ => h e
                     end).

(** [open(p, 'rb').read()] *)
Definition read_bytes (p : string) : M exn (list byte) :=
  λ w, match fs w !! p with
       | Some bs => (inr bs, w)
       | None =>
           (inl (OtherError ("[Errno 2] No such file or directory: '"
                             +:+ p +:+ "'")), w)
       end.

(** [Path(p).read_text()]: the bytes are decoded, which raises a
    [UnicodeDecodeError] when they are no text of the locale's encoding,
    and the line ends of the text are translated. *)
Definition read_text (p : string) : M exn string :=
  let* bs := read_bytes p in
  match decode_text bs with
  | inr text => ret (universal_newlines text)
  | inl msg => raise (OtherError msg)
  end.

(** The request is sent, then its outcome is returned or raised. *)
Definition requests_post (url : string) (pl : payload) : M exn json :=
  λ w, let w' := posted url pl w in
       match http url pl with
       | HttpJson v => (inr v, w')
       | HttpRequestException msg resp => (inl (RequestException msg resp), w')
       | HttpOtherError msg => (inl (OtherError msg), w')
       end.

(** [json.loads(s)] *)
Definition loads (s : string) : M exn json :=
  match json_loads s with
  | inr v => ret v
  | inl msg => raise (OtherError msg)
  end.

(** [e.response.json()] *)
Definition response_json (r : response) : M exn json :=
  match resp_json r with
  | Some v => ret v
  | None => raise (OtherError "Expecting value")
  end.

(** [v.get(k, d)]: only a [dict] has the method. *)
Definition dict_get (v : json) (k : string) (d : json) : M exn json :=
  match v with
  | JObj m => ret (default d (m !! k))
  | _ => raise (OtherError (error_text "get" v))
  end.

(** [k in v] *)
Definition py_contains (k : string) (v : json) : M exn bool :=
  match v with
  | JObj m => ret (bool_decide (is_Some (m !! k)))
  | JStr s => ret (bool_decide (is_Some (String.index 0 k s)))
  | JArr l =>
      ret (existsb (λ x, match x with
                         | JStr t => String.eqb t k
                         | _ => false
                         end) l)
  | _ => raise (OtherError (error_text "in" v))
  end.

(** [v[k]] for a [str] key *)
Definition py_getitem (v : json) (k : string) : M exn json :=
  match v with
  | JObj m =>
      match m !! k with
      | Some x => ret x
      | None => raise (OtherError ("'" +:+ k +:+ "'"))
      end
  | _ => raise (OtherError (error_text "getitem" v))
  end.

(** [v.upper()] and [v.capitalize()]: only a [str] has the methods. *)
Definition method_upper (v : json) : M exn string :=
  match v with
  | JStr s => ret (str_upper s)
  | _ => raise (OtherError (error_text "upper" v))
  end.

Definition method_capitalize (v : json) : M exn string :=
  match v with
  | JStr s => ret (str_capitalize s)
  | _ => raise (OtherError (error_text "capitalize" v))
  end.

(** [f"{body.get(k, d)}"] *)
Definition get_str (body : json) (k d : string) : M exn string :=
  let* v := dict_get body k (JStr d) in ret (py_str v).

Definition endpoint_hint (msg : string) : string :=
  msg +:+ nl +:+ nl +:+ "Please check the submission_endpoint is correct.".

Definition upload_submission (api_key endpoint role file_path : string)
  : M exn json :=
  let* file_content := read_bytes file_path in
  let encoded_content := Base64.b64encode file_content in
  let payload :=
    Payload api_key role encoded_content (path_name file_path) in
  print ("📤 Uploading " +:+ path_name file_path +:+ " ("
         +:+ pretty (List.length file_content) +:+ " bytes)...") >>
  try_except (requests_post endpoint payload)
    (λ e,
      match e with
      | RequestException msg resp =>
          print ("❌ Upload failed: " +:+ msg) >>
          match resp with
          | Some r =>
              try_except
                (let* error_detail := response_json r in
                 print ("   Server response: " +:+ json_dumps error_detail) >>
                 let* server_error := dict_get error_detail "error" (JStr msg) in
                 raise (SubmissionError server_error (Some msg)))
                (λ e',
                  match e' with
                  | SubmissionError _ _ => raise e'
                  | _ =>
                      print ("   Server response: " +:+ resp_text r) >>
                      raise (SubmissionError (JStr "API endpoint not found.")
                                             (Some (endpoint_hint msg)))
                  end)
          | None =>
              raise (SubmissionError (JStr "API endpoint not found.")
                                     (Some (endpoint_hint msg)))
          end
      | _ => raise e
      end).
(** Lines 131-141 of [main]: a top-level string is decoded, then the
    logical body is taken from under ["body"] (decoded when it is a
    string) or is the result itself. *)
Definition unwrap_body (result : json) : M exn json :=
  let* has_body := py_contains "body" result in
  if has_body : bool then
    let* body := py_getitem result "body" in
    match body with
    | JStr s => loads s
    | _ => ret body
    end
  else ret result.

Definition normalize (result : json) : M exn json :=
  let* result := match result with
                 | JStr s => loads s
                 | _ => ret result
                 end in
  unwrap_body result.

(** The block under [if args.print_info]. *)
Definition print_details (body : json) : M exn unit :=
  print "" >>
  print bar >>
  print "✅ Submission Successful!" >>
  print bar >>
  print "" >>
  let* team_name := get_str body "team_name" "Unknown" in
  print ("  Team: " +:+ team_name) >>
  let* r := dict_get body "role" (JStr "Unknown") in
  let* r := method_upper r in
  print ("  Role: " +:+ r) >>
  print "" >>
  let* n := get_str body "submission_number" "Unknown" in
  print ("  Total Submissions: " +:+ n) >>
  let* n := get_str body "attacker_submissions" "Unknown" in
  print ("  Attacker Submissions: " +:+ n) >>
  let* n := get_str body "defender_submissions" "Unknown" in
  print ("  Defender Submissions: " +:+ n) >>
  let* r := dict_get body "role" (JStr "Unknown") in
  let* r := method_capitalize r in
  let* n := get_str body "role_submission_number" "Unknown" in
  print ("  This " +:+ r +:+ " Submission: #" +:+ n) >>
  print "" >>
  let* c := get_str body "file_count" "Unknown" in
  let* z := get_str body "total_size" "Unknown" in
  print ("  Files: " +:+ c +:+ " files (" +:+ z +:+ " bytes)") >>
  let* t := get_str body "submission_time" "Unknown" in
  print ("  Time: " +:+ t) >>
  let* p := get_str body "s3_prefix" "Unknown" in
  print ("  S3 Prefix: " +:+ p) >>
  print "" >>
  let* m := get_str body "message" "No message" in
  print ("  Message: " +:+ m) >>
  print "".

(** The block under [if os.getenv('GITHUB_OUTPUT')] of the success
    path, for the file [out]. *)
Definition write_outputs (out : string) (body : json) : M exn unit :=
  append_text out "" >>
  append_text out (line "status=success") >>
  let* n := get_str body "submission_number" "Unknown" in
  append_text out ("submission_number=" +:+ n +:+ nl) >>
  let* m := get_str body "message" "Submission successful" in
  append_text out ("message=" +:+ m +:+ nl).

(** The file listing at the end of the summary. *)
Definition write_file_list (a : args) (sum : string) : M exn unit :=
  let* listed := (if opt_truthy (file_list a)
                  then path_exists (default "" (file_list a))
                  else ret false) in
  when listed
    (let* text := read_text (default "" (file_list a)) in
     let files := split_lines (str_strip text) in
     let files := List.filter str_truthy files in
     when (bool_decide (files ≠ []))
       (let path_prefix :=
          if opt_truthy (submission_path a)
          then default "" (submission_path a) else "" in
        let path_prefix := rstrip_slash path_prefix in
        append_text sum (nl +:+ "<details>" +:+ nl
                         +:+ "<summary>📁 Uploaded Files (" +:+ path_prefix
                         +:+ "/)</summary>" +:+ nl +:+ nl) >>
        append_text sum ("```" +:+ nl) >>
        for_each files
          (λ file, append_text sum (path_prefix +:+ "/" +:+ file +:+ nl)) >>
        append_text sum ("```" +:+ nl +:+ "</details>" +:+ nl))).

Definition success_header (role_emoji : string) : string :=
  "## " +:+ role_emoji +:+ " Submission Successful!" +:+ nl +:+ nl.

(** The block under [if os.getenv('GITHUB_STEP_SUMMARY')] of the
    success path, for the file [sum]. *)
Definition write_summary (a : args) (sum : string) (body : json)
  : M exn unit :=
  let* role := dict_get body "role" (JStr "unknown") in
  let role_emoji :=
    match role with
    | JStr "attacker" => "🔴"
    | _ => "🔵"
    end in
  append_text sum "" >>
  append_text sum (success_header role_emoji) >>
  let* team_name := get_str body "team_name" "Unknown" in
  append_text sum ("### Team: **" +:+ team_name +:+ "**" +:+ nl +:+ nl) >>
  append_text sum ("| Metric | Value |" +:+ nl) >>
  append_text sum ("|--------|-------|" +:+ nl) >>
  let* r := method_upper role in
  append_text sum ("| **Role** | " +:+ r +:+ " |" +:+ nl) >>
  let* n := get_str body "role_submission_number" "?" in
  append_text sum ("| **This Submission** | #" +:+ n +:+ " |" +:+ nl) >>
  let* n := get_str body "submission_number" "?" in
  append_text sum ("| **Total Submissions** | " +:+ n +:+ " |" +:+ nl) >>
  let* n := get_str body "attacker_submissions" "?" in
  append_text sum ("| **Attacker Submissions** | " +:+ n +:+ " |" +:+ nl) >>
  let* n := get_str body "defender_submissions" "?" in
  append_text sum ("| **Defender Submissions** | " +:+ n +:+ " |" +:+ nl) >>
  let* n := get_str body "file_count" "?" in
  append_text sum ("| **Files Uploaded** | " +:+ n +:+ " |" +:+ nl) >>
  let* n := get_str body "total_size" "?" in
  append_text sum ("| **Total Size** | " +:+ n +:+ " bytes |" +:+ nl) >>
  let* t := get_str body "submission_time" "?" in
  append_text sum ("| **Submission Time** | " +:+ t +:+ " |" +:+ nl) >>
  let* m := get_str body "message" "Submission successful" in
  append_text sum (nl +:+ "> 💡 " +:+ m +:+ nl) >>
  write_file_list a sum.

(** The body of the [try] statement of [main]. *)
Definition main_try (a : args) : M exn unit :=
  let* result := upload_submission (api_key a) (endpoint a) (role a) (file a) in
  write_text result_file (json_dumps result) >>
  let* body := normalize result in
  when (print_info a) (print_details body) >>
  when (opt_truthy (getenv "GITHUB_OUTPUT"))
    (write_outputs (default "" (getenv "GITHUB_OUTPUT")) body) >>
  when (opt_truthy (getenv "GITHUB_STEP_SUMMARY"))
    (write_summary a (default "" (getenv "GITHUB_STEP_SUMMARY")) body) >>
  sys_exit 0.

Definition failure_header : string :=
  "## ❌ Submission Failed" +:+ nl +:+ nl.

(** [isinstance(e, SubmissionError) and e.details] *)
Definition structured (e : exn) : option (json * string) :=
  match e with
  | SubmissionError title (Some details) =>
      if str_truthy details then Some (title, details) else None
  | _ => None
  end.

(** The body of the [except Exception as e] clause of [main]. *)
Definition main_except (e : exn) : M exn unit :=
  print "" >>
  print bar >>
  print "❌ Submission Failed!" >>
  print bar >>
  print "" >>
  print ("  Error: " +:+ exn_str e) >>
  print "" >>
  when (opt_truthy (getenv "GITHUB_OUTPUT"))
    (let out := default "" (getenv "GITHUB_OUTPUT") in
     append_text out "" >>
     append_text out (line "status=failure") >>
     append_text out ("message=Submission failed: " +:+ exn_str e +:+ nl)) >>
  when (opt_truthy (getenv "GITHUB_STEP_SUMMARY"))
    (let sum := default "" (getenv "GITHUB_STEP_SUMMARY") in
     append_text sum "" >>
     append_text sum failure_header >>
     match structured e with
     | Some (title, details) =>
         append_text sum ("**Error:** " +:+ py_str title +:+ nl +:+ nl) >>
         append_text sum ("```" +:+ nl +:+ details +:+ nl +:+ "```" +:+ nl)
     | None =>
         append_text sum ("**Error:** " +:+ exn_str e +:+ nl)
     end) >>
  sys_exit 1.

Definition main (a : args) : M exn unit :=
  let file_path := file a in
  let* found := path_exists file_path in
  (if negb found then
     print ("❌ Error: File not found: " +:+ path_str file_path) >>
     sys_exit 1
   else ret ()) >>
  when (negb (String.eqb (path_suffix file_path) ".zip"))
    (print ("⚠️  Warning: File does not have .zip extension: "
            +:+ path_str file_path)) >>
  print bar >>
  print ("🚀 Competition Submission Upload (" +:+ str_upper (role a) +:+ ")") >>
  print bar >>
  print "" >>
  try_except_Exception (main_try a) main_except.

(** The exit status of the process: the code of [sys.exit], 1 for an
    exception nothing catches, 0 when [main] returns. *)
Definition exit_status (r : exn + unit) : Z :=
  match r with
  | inr _ => 0
  | inl (SystemExit code) => code
  | inl _ => 1
  end.

Definition run_main (a : args) (w : world) : Z * world :=
  let (r, w') := main a w in (exit_status r, w').
(** The request [upload_submission] sends for a file holding [bs]. *)
(** The names the summary lists: the non-empty lines of the text of the
    file that [--file-list] names; none when the option is absent or
    empty, when the file is missing, and when its bytes do not decode
    (reading it then raises). *)
Definition listed_files (a : args) (w : world) : list string :=
  if opt_truthy (file_list a) then
    match fs w !! default "" (file_list a) with
    | Some bs =>
        match decode_text bs with
        | inr text =>
            List.filter str_truthy
              (split_lines (str_strip (universal_newlines text)))
        | inl _ => []
        end
    | None => []
    end
  else [].

(** The file that [--file-list] names is there and its bytes do not
    decode: reading it raises a [UnicodeDecodeError] with message [msg]. *)
Definition list_undecodable (a : args) (msg : string) (w : world) : Prop :=
  opt_truthy (file_list a) = true
  ∧ ∃ bs, fs w !! default "" (file_list a) = Some bs
          ∧ decode_text bs = inl msg.

(** The file that [--file-list] names is none of the files a run
    writes. *)
Definition list_apart (a : args) : Prop :=
  default "" (file_list a) ≠ result_file
  ∧ (opt_truthy (getenv "GITHUB_OUTPUT") = true →
     default "" (getenv "GITHUB_OUTPUT") ≠ default "" (file_list a))
  ∧ (opt_truthy (getenv "GITHUB_STEP_SUMMARY") = true →
     default "" (getenv "GITHUB_STEP_SUMMARY") ≠ default "" (file_list a)).

(** The summary can list the files: when the summary is written and a
    file list is named, that file is none of the files the run writes
    and, if it is there, its bytes decode. *)
Definition listing_readable (a : args) (w : world) : Prop :=
  opt_truthy (getenv "GITHUB_STEP_SUMMARY") = true →
  opt_truthy (file_list a) = true →
  list_apart a
  ∧ ∀ bs, fs w !! default "" (file_list a) = Some bs →
          ∃ text, decode_text bs = inr text.

(** The prefix shown before each listed name. *)
Definition listing_prefix (a : args) : string :=
  rstrip_slash (if opt_truthy (submission_path a)
                then default "" (submission_path a) else "").

(** The world after the listing has been appended to the summary [sum]. *)
Definition with_listing (a : args) (sum : string) (w : world) : world :=
  match listed_files a w with
  | [] => w
  | files =>
      appended sum ("```" +:+ nl +:+ "</details>" +:+ nl)
        (fold_left
           (λ w' file,
              appended sum (listing_prefix a +:+ "/" +:+ file +:+ nl) w')
           files
           (appended sum ("```" +:+ nl)
              (appended sum
                 (nl +:+ "<details>" +:+ nl
                  +:+ "<summary>📁 Uploaded Files (" +:+ listing_prefix a
                  +:+ "/)</summary>" +:+ nl +:+ nl)
                 w)))
  end.

(** A property of the world that printing, appending to a file, replacing
    the result file and sending a request all preserve. *)
Definition stable (I : world → Prop) : Prop :=
  ∀ w, I w →
    (∀ s, I (emitted s w))
    ∧ (∀ p s, I (appended p s w))
    ∧ (∀ s, I (written result_file s w))
    ∧ (∀ url pl, I (posted url pl w)).

(** [isinstance(e, Exception)] *)
Definition is_exception (e : exn) : Prop :=
  match e with
  | SystemExit _ => False
  | _ => True
  end.

(** The ["role"] field of a logical body is absent or a string. *)
Definition role_ok (m : gmap string json) : Prop :=
  match m !! "role" with
  | None | Some (JStr _) => True
  | Some _ => False
  end.

(** The logical body is a mapping whose ["role"], when present, is a
    string. *)
Definition well_formed (body : json) : Prop :=
  match body with
  | JObj m => role_ok m
  | _ => False
  end.

(** The standard output of [main] before its [try] statement, for an
    archive that exists. *)
Definition preamble (a : args) (w : world) : world :=
  let w1 :=
    if negb (String.eqb (path_suffix (file a)) ".zip")
    then emitted (line ("⚠️  Warning: File does not have .zip extension: "
                        +:+ path_str (file a))) w
    else w in
  emitted (line "")
    (emitted (line bar)
       (emitted (line ("🚀 Competition Submission Upload ("
                       +:+ str_upper (role a) +:+ ")"))
          (emitted (line bar) w1))).

Definition request_for (api_key role file_path : string) (bs : list byte)
  : payload :=
  Payload api_key role (Base64.b64encode bs) (path_name file_path).

End Script.

(** *** The files of the CI runner *)

Section Outputs.
Variables (out sum : string) (w0 : world).

(** Both files hold what they held in [w0], possibly with more after
    it. *)
Definition kept (w : world) : Prop := extends out w0 w ∧ extends sum w0 w.

Definition reported (w : world) : Prop :=
  kept w ∧ wrote out (line "status=success") w0 w.

Definition summarised (w : world) : Prop :=
  reported w ∧ ∃ role_emoji, wrote sum (success_header role_emoji) w0 w.

Definition failed (w : world) : Prop :=
  wrote out (line "status=failure") w0 w ∧ wrote sum failure_header w0 w.

(** How [main]'s [try] statement can end. *)
Definition try_post (e : exn) (w : world) : Prop :=
  match e with
  | SystemExit code => code = 0%Z ∧ summarised w
  | _ => kept w
  end.

End Outputs.

End Uploader.

(** ** Source validator ([validate_python.py]) *)

Module Validator.

(** The exceptions of the per-file check: the parser's [SyntaxError] with
    its [lineno] and [msg], [py_compile.PyCompileError] with its message,
    and every other subclass of [Exception] with [str(e)]. *)
Inductive exn :=
| SyntaxError (lineno : option Z) (msg : string)
| PyCompileError (msg : string)
| OtherError (msg : string).

Section Script.
(** The environment of a run. The directory tree as the script queries
    it: [Path.exists], [list(root.rglob('*.py'))], [Path.relative_to],
    and whether [root / 'requirements.txt'] exists. The Python
    compiler: what compiling the bytes of a file raises, the message
    [PyCompileError] builds from that exception and the file name, the
    error of decoding bytes that are not UTF-8, and what [ast.parse]
    raises on a text. *)
Variable exists_path : string → bool.
Variable rglob_py : string → list string.
Variable relative_to : string → string → string.
Variable has_requirements : string → bool.
Variable path_str : string → string.
Variable compile_source : string → list byte → option exn.
Variable compile_error_text : exn → string → string.
Variable utf8_error : list byte → option string.
Variable ast_parse : string → option exn.

(** [open(p).read()] on the bytes of the file *)
Definition read_bytes (p : string) : M exn (list byte) :=
  λ w, match fs w !! p with
       | Some bs => (inr bs, w)
       | None =>
           (inl (OtherError ("[Errno 2] No such file or directory: '"
                             +:+ p +:+ "'")), w)
       end.

(** [py_compile.compile(p, doraise=True)]: the source is loaded, and an
    exception of the compiler is wrapped in a [PyCompileError], which is
    raised in its place. Writing the byte-code cache file is not part of
    the model. *)
Definition py_compile_compile (p : string) : M exn unit :=
  let* source_bytes := read_bytes p in
  match compile_source p source_bytes with
  | Some err => raise (PyCompileError (compile_error_text err p))
  | None => ret ()
  end.

(** [with open(p, 'r', encoding='utf-8') as f: ast.parse(f.read())] *)
Definition parse_file (p : string) : M exn unit :=
  let* bs := read_bytes p in
  match utf8_error bs with
  | Some msg => raise (OtherError msg)
  | None =>
      match ast_parse (string_of_list_byte bs) with
      | Some err => raise err
      | None => ret ()
      end
  end.

(** [f"{e.lineno}"] *)
Definition lineno_str (lineno : option Z) : string :=
  match lineno with
  | Some n => pretty n
  | None => "None"
  end.

Definition syntax_error_message (lineno : option Z) (msg : string) : string :=
  "Syntax error at line " +:+ lineno_str lineno +:+ ": " +:+ msg.

Definition validate_python_syntax {E} (file_path : string)
  : M E (bool * string) :=
  try_except
    (py_compile_compile file_path >>
     parse_file file_path >>
     ret (true, ""))
    (λ e, match e with
          | SyntaxError lineno msg =>
              ret (false, syntax_error_message lineno msg)
          | PyCompileError msg | OtherError msg =>
              ret (false, "Error: " +:+ msg)
          end).

Definition check_required_structure (submission_path : string)
  : bool * list string :=
  let warnings := [] in
  let python_files := rglob_py submission_path in
  if bool_decide (python_files = []) then
    (false, ["No Python files found in submission"])
  else
    let warnings :=
      if negb (has_requirements submission_path)
      then warnings ++ ["No requirements.txt found - make sure all dependencies are documented"]
      else warnings in
    (true, warnings).

(** [sys.exit(code)]: the exit code is what [main] raises. *)
Definition sys_exit {A} (code : Z) : M Z A := raise code.

(** The loop over the discovered files, with the list of errors it
    appends to. *)
Fixpoint check_files (submission_path : string) (python_files : list string)
    (errors : list (string * string)) : M Z (list (string * string)) :=
  match python_files with
  | [] => ret errors
  | py_file :: rest =>
      let relative_path := relative_to py_file submission_path in
      print_end ("  Checking " +:+ relative_path +:+ "...") " " >>
      let* checked := validate_python_syntax py_file in
      let '(is_valid, error_msg) := checked in
      if is_valid : bool then
        print "✅" >>
        check_files submission_path rest errors
      else
        print "❌" >>
        check_files submission_path rest (errors ++ [(relative_path, error_msg)])
  end.

Definition main (argv : list string) : M Z unit :=
  match argv with
  | [] | [_] =>
      print "❌ Error: No submission path provided" >>
      sys_exit 1
  | _ :: submission_path :: _ =>
      (if negb (exists_path submission_path) then
         print ("❌ Error: Submission path does not exist: "
                +:+ path_str submission_path) >>
         sys_exit 1
       else ret ()) >>
      print ("📁 Path: " +:+ path_str submission_path) >>
      let '(is_valid, warnings) := check_required_structure submission_path in
      (if negb is_valid then
         print "❌ Validation failed:" >>
         for_each warnings (λ warning, print ("  - " +:+ warning)) >>
         sys_exit 1
       else ret ()) >>
      when (bool_decide (warnings ≠ []))
        (print "⚠️  Warnings:" >>
         for_each warnings (λ warning, print ("  - " +:+ warning)) >>
         print "") >>
      let python_files := rglob_py submission_path in
      print ("📝 Found " +:+ pretty (List.length python_files)
             +:+ " Python file(s)") >>
      print "" >>
      let* errors := check_files submission_path python_files [] in
      print "" >>
      print (str_repeat "=" 60) >>
      if bool_decide (errors ≠ []) then
        print ("❌ Validation failed with " +:+ pretty (List.length errors)
               +:+ " error(s):") >>
        print "" >>
        for_each errors
          (λ '(file_path, error_msg),
            print ("  " +:+ file_path +:+ ":") >>
            print ("    " +:+ error_msg)) >>
        sys_exit 1
      else
        print "✅ All Python files validated successfully!" >>
        print ("   " +:+ pretty (List.length python_files)
               +:+ " file(s) checked") >>
        sys_exit 0
  end.

(** The exit status of the process. *)
Definition run_main (argv : list string) (w : world) : Z * world :=
  match main argv w with
  | (inl code, w') => (code, w')
  | (inr _, w') => (0%Z, w')
  end.

(** A discovered file passes both checks: compiling it and parsing it
    raise nothing. *)
Definition passes (w : world) (p : string) : Prop :=
  (py_compile_compile p w).1 = inr () ∧ (parse_file p w).1 = inr ().

(** What the [try] block of [validate_python_syntax] raises on a file, as
    a function of the files alone. *)
Definition file_error (files : gmap string (list byte)) (p : string)
  : option exn :=
  match files !! p with
  | None =>
      Some (OtherError ("[Errno 2] No such file or directory: '"
                        +:+ p +:+ "'"))
  | Some bs =>
      match compile_source p bs with
      | Some err => Some (PyCompileError (compile_error_text err p))
      | None =>
          match utf8_error bs with
          | Some msg => Some (OtherError msg)
          | None => ast_parse (string_of_list_byte bs)
          end
      end
  end.

(** The pair [validate_python_syntax] returns. *)
Definition verdict (files : gmap string (list byte)) (p : string)
  : bool * string :=
  match file_error files p with
  | None => (true, "")
  | Some (SyntaxError lineno msg) => (false, syntax_error_message lineno msg)
  | Some (PyCompileError msg) | Some (OtherError msg) =>
      (false, "Error: " +:+ msg)
  end.

(** The entries the loop appends to [errors] for a list of files. *)
Definition failures (files : gmap string (list byte))
    (submission_path : string) (python_files : list string)
  : list (string * string) :=
  omap (λ p, if (verdict files p).1 then None
             else Some (relative_to p submission_path, (verdict files p).2))
       python_files.

(** The world after the loop has gone through a list of files: one
    "Checking" chunk and one mark for each. *)
Fixpoint checked (submission_path : string) (python_files : list string)
    (w : world) : world :=
  match python_files with
  | [] => w
  | p :: rest =>
      checked submission_path rest
        (emitted (line (if (verdict (fs w) p).1 then "✅" else "❌"))
           (emitted (("  Checking " +:+ relative_to p submission_path
                      +:+ "...") +:+ " ") w))
  end.
End Script.

End Validator.

(** ** Sample environments

    Small stand-ins for the library functions the scripts are run with in
    the examples below. *)

Module Sample.

Definition dq : string := String "034"%char "".

Definition type_name (v : json) : string :=
  match v with
  | JNull => "NoneType"
  | JBool _ => "bool"
  | JInt _ => "int"
  | JFloat _ => "float"
  | JStr _ => "str"
  | JArr _ => "list"
  | JObj _ => "dict"
  end.

Definition error_text (op : string) (v : json) : string :=
  "'" +:+ type_name v +:+ "' object does not support '" +:+ op +:+ "'".

Definition repr (v : json) : string :=
  match v with
  | JNull => "None"
  | JBool true => "True"
  | JBool false => "False"
  | JInt n => pretty n
  | JFloat lit => lit
  | JStr s => "'" +:+ s +:+ "'"
  | JArr _ => "[...]"
  | JObj _ => "{...}"
  end.

Definition dumps (v : json) : string :=
  match v with
  | JNull => "null"
  | JBool true => "true"
  | JBool false => "false"
  | JInt n => pretty n
  | JFloat lit => lit
  | JStr s => dq +:+ s +:+ dq
  | JArr _ => "[...]"
  | JObj _ => "{...}"
  end.

(** Decodes the empty object and nothing else. *)
Definition loads_empty (s : string) : string + json :=
  if String.eqb s "{}" then inr (JObj ∅)
  else inl "Expecting value: line 1 column 1 (char 0)".

Definition upper_char (c : ascii) : ascii :=
  let n := nat_of_ascii c in
  if (97 <=? n)%nat && (n <=? 122)%nat then ascii_of_nat (n - 32) else c.

Fixpoint upper (s : string) : string :=
  match s with
  | EmptyString => ""
  | String c s' => String (upper_char c) (upper s')
  end.

Definition capitalize (s : string) : string :=
  match s with
  | EmptyString => ""
  | String c s' => String (upper_char c) s'
  end.

(** No variable of the process environment is set. *)
Definition no_env (name : string) : option string := None.

(** The two output files of the CI runner are named. *)
Definition ci_env (name : string) : option string :=
  if String.eqb name "GITHUB_OUTPUT" then Some "out.txt"
  else if String.eqb name "GITHUB_STEP_SUMMARY" then Some "summary.md"
  else None.

Definition archive : list byte := list_byte_of_string "PK".

(** A world whose only file is the archive [sub.zip]. *)
Definition world0 : world := World [] {[ "sub.zip" := archive ]} [] [].

Definition upload_args (print_info : bool) : Uploader.args :=
  Uploader.Args "key" "https://example.test/submit" "attacker" "sub.zip"
                None None print_info.

(** The same command line for an archive that is not there. *)
Definition missing_args : Uploader.args :=
  Uploader.Args "key" "https://example.test/submit" "attacker" "gone.zip"
                None None false.

(** Three servers: one that accepts the upload and answers with the value
    [v]; one whose answer to any request is an HTML "not found" page; one
    that rejects the role with a JSON error. *)
Definition http_ok (v : json) (url : string) (pl : payload)
  : Uploader.http_outcome :=
  Uploader.HttpJson v.

Definition not_found_page : Uploader.response :=
  Uploader.Response None "<html>Not Found</html>".

Definition http_not_found (url : string) (pl : payload)
  : Uploader.http_outcome :=
  Uploader.HttpRequestException
    "404 Client Error: Not Found for url: https://example.test/submit"
    (Some not_found_page).

Definition invalid_role : gmap string json :=
  {[ "error" := JStr "invalid role" ]}.

Definition http_invalid_role (url : string) (pl : payload)
  : Uploader.http_outcome :=
  Uploader.HttpRequestException
    "400 Client Error: Bad Request for url: https://example.test/submit"
    (Some (Uploader.Response (Some (JObj invalid_role)) "{...}")).

(** A strict decoder for ASCII text: a byte above 127 is refused with
    the message of a UTF-8 decoder. *)
Definition decode (bs : list byte) : string + string :=
  if forallb (λ b, (Byte.to_N b <? 128)%N) bs
  then inr (string_of_list_byte bs)
  else inl "'utf-8' codec can't decode byte 0xff in position 0: invalid start byte".

(** The uploader run in a given network and process environment. *)
Definition upload (http : string → payload → Uploader.http_outcome)
    (getenv : string → option string) (a : Uploader.args) (w : world)
    : Z * world :=
  Uploader.run_main http getenv loads_empty dumps repr upper capitalize id id id
                    (λ _, ".zip") error_text decode a w.

Definition submit
    (http : string → payload → Uploader.http_outcome) (w : world)
    : (Uploader.exn + json) * world :=
  Uploader.upload_submission http dumps id error_text
    "key" "https://example.test/submit" "attacker" "sub.zip" w.


(** A compiler that rejects one source text, at line 1. *)
Definition bad_source : string := "def f(:" +:+ nl.

Definition good_source : string := "x = 1" +:+ nl.

Definition compile_source (p : string) (bs : list byte)
  : option Validator.exn :=
  if String.eqb (string_of_list_byte bs) bad_source
  then Some (Validator.SyntaxError (Some 1%Z) "invalid syntax")
  else None.

Definition ast_parse (s : string) : option Validator.exn :=
  if String.eqb s bad_source
  then Some (Validator.SyntaxError (Some 1%Z) "invalid syntax")
  else None.

(** The message of [PyCompileError]: for a syntax error the formatted
    exception (here without the excerpt of the source), for any other
    error its name and text. *)
Definition compile_error_text (err : Validator.exn) (p : string) : string :=
  match err with
  | Validator.SyntaxError lineno msg =>
      "  File " +:+ dq +:+ p +:+ dq +:+ ", line "
      +:+ Validator.lineno_str lineno +:+ nl
      +:+ "SyntaxError: " +:+ msg +:+ nl
  | Validator.PyCompileError msg => "Sorry: PyCompileError: " +:+ msg
  | Validator.OtherError msg => "Sorry: " +:+ msg
  end.

(** A submission with one valid and one broken file. *)
Definition submission : world :=
  World [] {[ "sub/good.py" := list_byte_of_string good_source;
              "sub/bad.py" := list_byte_of_string bad_source ]} [] [].

Definition rglob_py (root : string) : list string :=
  if String.eqb root "sub" then ["sub/bad.py"; "sub/good.py"] else [].

Definition relative_to (p root : string) : string :=
  String.substring (S (String.length root))
                   (String.length p - S (String.length root)) p.

Definition validate (p : string) (w : world)
  : (Z + bool * string) * world :=
  Validator.validate_python_syntax compile_source compile_error_text
    (λ _, None) ast_parse p w.

Definition validator (argv : list string) (w : world) : Z * world :=
  Validator.run_main (λ p, String.eqb p "sub") rglob_py relative_to
    (λ _, false) id compile_source compile_error_text (λ _, None) ast_parse
    argv w.

(** The per-file check with a compiler that accepts every file, so that
    only the parser can reject one; and the validator with a compiler and
    a parser that accept every file. *)
Definition validate_parsing (p : string) (w : world)
  : (Z + bool * string) * world :=
  Validator.validate_python_syntax (λ _ _, None) compile_error_text
    (λ _, None) ast_parse p w.

Definition lenient_validator (argv : list string) (w : world) : Z * world :=
  Validator.run_main (λ p, String.eqb p "sub") rglob_py relative_to
    (λ _, false) id (λ _ _, None) compile_error_text (λ _, None) (λ _, None)
    argv w.

(** Three more servers: one that cannot be reached; one that rejects the
    upload with the JSON value [v], sent as [text]; one on which the request
    raises an error that is no [RequestException]. *)
Definition http_unreachable (url : string) (pl : payload)
  : Uploader.http_outcome :=
  Uploader.HttpRequestException "Connection refused" None.

Definition http_rejects (v : json) (text : string) (url : string)
    (pl : payload) : Uploader.http_outcome :=
  Uploader.HttpRequestException
    "500 Server Error: Internal Server Error for url: https://example.test/submit"
    (Some (Uploader.Response (Some v) text)).

Definition http_crash (url : string) (pl : payload)
  : Uploader.http_outcome :=
  Uploader.HttpOtherError "Expecting value: line 1 column 1 (char 0)".

(** A command line that names a file list and the path of the
    submission, and a world that holds the archive and the list, which has
    an empty line in it. *)
Definition listing_args : Uploader.args :=
  Uploader.Args "key" "https://example.test/submit" "attacker" "sub.zip"
                (Some "files.txt") (Some "sub/") false.

Definition listing_world : world :=
  World []
        {[ "sub.zip" := archive;
           "files.txt" :=
             list_byte_of_string ("agent.py" +:+ nl +:+ nl +:+ "README.md") ]}
        [] [].

(** The same list written with carriage returns before the line feeds,
    and a list that is no text: its one byte is 255. *)
Definition cr : string := String "013"%char "".

Definition crlf_world : world :=
  World []
        {[ "sub.zip" := archive;
           "files.txt" :=
             list_byte_of_string
               ("agent.py" +:+ cr +:+ nl +:+ cr +:+ nl +:+ "README.md"
                +:+ cr +:+ nl) ]}
        [] [].

Definition binary_list_world : world :=
  World [] {[ "sub.zip" := archive; "files.txt" := [Byte.xff] ]} [] [].

(** Three states of the [git] tool: it answers every query with one line;
    it is not installed; starting it fails with an error the script does
    not handle. *)
Definition git_ok (cmd : list string) : GitInfo.exn + string :=
  inr ("main" +:+ nl).

Definition no_git (cmd : list string) : GitInfo.exn + string :=
  inl GitInfo.FileNotFoundError.

Definition git_denied (cmd : list string) : GitInfo.exn + string :=
  inl (GitInfo.OtherError "[Errno 13] Permission denied: 'git'").

(** Two repositories. In the first the commit has no tag: the query for
    the tag exits with a non-zero status, every other query answers. In
    the second the commit message is no UTF-8 text: decoding the output of
    the query for the message raises a [UnicodeDecodeError], every other
    query answers. *)
Definition git_untagged (cmd : list string) : GitInfo.exn + string :=
  if bool_decide (cmd = ["git"; "describe"; "--tags"; "--exact-match"])
  then inl GitInfo.CalledProcessError
  else inr ("main" +:+ nl).

Definition git_bad_message (cmd : list string) : GitInfo.exn + string :=
  if bool_decide (cmd = ["git"; "log"; "-1"; "--pretty=%B"])
  then inl (GitInfo.OtherError
              "'utf-8' codec can't decode byte 0xff in position 0: invalid start byte")
  else inr ("main" +:+ nl).

End Sample.

(** * Properties *)

(** ** Base64 round trip *)

Module Base64Facts.
Import Base64.

Lemma below64_spec (P : N → bool) :
  below64 P = true → ∀ i, (i < 64)%N → P i = true.
Proof.
  unfold below64. rewrite forallb_forall. intros H i Hi.
  apply H, in_map_iff. exists (N.to_nat i). split; [apply N2Nat.id|].
  apply in_seq. lia.
Qed.

Lemma index_of_char_of i : (i < 64)%N → index_of (char_of i) = Some i.
Proof.
  intros Hi.
  pose proof (below64_spec
    (λ i, match index_of (char_of i) with
          | Some j => N.eqb j i
          | None => false
          end) eq_refl i Hi) as H.
  simpl in H. destruct (index_of (char_of i)) as [j|]; [|done].
  apply N.eqb_eq in H. by subst.
Qed.

Lemma char_of_not_pad i : (i < 64)%N → Ascii.eqb (char_of i) pad = false.
Proof.
  intros Hi.
  pose proof (below64_spec
    (λ i, negb (Ascii.eqb (char_of i) pad)) eq_refl i Hi) as H.
  simpl in H. by apply negb_true_iff in H.
Qed.

Lemma of_N_to_N (x : byte) (n : N) : n = Byte.to_N x → Byte.of_N n = Some x.
Proof. intros ->. apply Byte.of_to_N. Qed.

Lemma byte_bound (x : byte) : (Byte.to_N x < 256)%N.
Proof. pose proof (Byte.to_N_bounded x). lia. Qed.

Ltac divmod := zify; Z.to_euclidean_division_equations; lia.

Lemma regroup2 (n : N) :
  ((n / 4096 * 64 + n / 64 mod 64) * 64 + n mod 64 = n)%N.
Proof.
  replace (n / 4096)%N with (n / 64 / 64)%N by (rewrite N.Div0.div_div; done).
  pose proof (N.div_mod (n / 64) 64). pose proof (N.div_mod n 64). lia.
Qed.

Lemma regroup3 (n : N) :
  (((n / 262144 * 64 + n / 4096 mod 64) * 64 + n / 64 mod 64) * 64
   + n mod 64 = n)%N.
Proof.
  replace (n / 262144)%N with (n / 64 / 4096)%N
    by (rewrite N.Div0.div_div; done).
  replace (n / 4096)%N with (n / 64 / 64)%N by (rewrite N.Div0.div_div; done).
  rewrite regroup2. pose proof (N.div_mod n 64). lia.
Qed.

Lemma list_ind3 {A} (P : list A → Prop) :
  P [] → (∀ a, P [a]) → (∀ a b, P [a; b]) →
  (∀ a b c l, P l → P (a :: b :: c :: l)) →
  ∀ l, P l.
Proof.
  intros H0 H1 H2 H3.
  fix IH 1. intros [|a [|b [|c l]]]; [done..|]. apply H3, IH.
Qed.

Lemma decode_group1 a :
  let n := (Byte.to_N a * 16)%N in
  b64decode (str4 (char_of (n / 64)) (char_of (n mod 64)) pad pad "")
  = Some [a].
Proof.
  intros n. pose proof (byte_bound a) as Ha. unfold str4. simpl b64decode.
  rewrite !index_of_char_of by (subst n; divmod). simpl.
  unfold bytes1.
  rewrite (of_N_to_N a) by (subst n; divmod). done.
Qed.

Lemma decode_group2 a b :
  let n := ((Byte.to_N a * 256 + Byte.to_N b) * 4)%N in
  b64decode (str4 (char_of (n / 4096)) (char_of (n / 64 mod 64))
                  (char_of (n mod 64)) pad "")
  = Some [a; b].
Proof.
  intros n. pose proof (byte_bound a) as Ha. pose proof (byte_bound b) as Hb.
  unfold str4. simpl b64decode.
  rewrite !index_of_char_of by (subst n; divmod). simpl.
  rewrite char_of_not_pad by (subst n; divmod). simpl.
  unfold bytes2. rewrite regroup2.
  rewrite (of_N_to_N a (n / 4 / 256)) by (subst n; divmod). simpl.
  rewrite (of_N_to_N b) by (subst n; divmod). done.
Qed.

Lemma decode_group3 a b c rest :
  let n := (Byte.to_N a * 65536 + Byte.to_N b * 256 + Byte.to_N c)%N in
  b64decode (str4 (char_of (n / 262144)) (char_of (n / 4096 mod 64))
                  (char_of (n / 64 mod 64)) (char_of (n mod 64)) rest)
  = tl ← b64decode rest; Some (a :: b :: c :: tl).
Proof.
  intros n. pose proof (byte_bound a) as Ha. pose proof (byte_bound b) as Hb.
  pose proof (byte_bound c) as Hc.
  unfold str4. simpl b64decode.
  rewrite !index_of_char_of by (subst n; divmod). simpl.
  rewrite char_of_not_pad by (subst n; divmod). simpl.
  unfold bytes3. rewrite regroup3.
  rewrite (of_N_to_N a (n / 65536)) by (subst n; divmod). simpl.
  rewrite (of_N_to_N b (n / 256 mod 256)) by (subst n; divmod). simpl.
  rewrite (of_N_to_N c) by (subst n; divmod). simpl.
  by destruct (b64decode rest).
Qed.

Lemma b64decode_b64encode (bs : list byte) :
  b64decode (b64encode bs) = Some bs.
Proof.
  induction bs as [|a|a b|a b c l IH] using list_ind3.
  - done.
  - apply decode_group1.
  - apply decode_group2.
  - change (b64encode (a :: b :: c :: l)) with
      (let n := (Byte.to_N a * 65536 + Byte.to_N b * 256 + Byte.to_N c)%N in
       str4 (char_of (n / 262144)) (char_of (n / 4096 mod 64))
            (char_of (n / 64 mod 64)) (char_of (n mod 64)) (b64encode l)).
    cbv zeta. rewrite decode_group3, IH. done.
Qed.

(** The encoded text is four characters for every started group of three
    bytes: nothing is dropped. *)
Lemma b64encode_length (bs : list byte) :
  String.length (b64encode bs) = 4 * ((List.length bs + 2) / 3).
Proof.
  induction bs as [|a|a b|a b c l IH] using list_ind3; [done..|].
  change (b64encode (a :: b :: c :: l)) with
    (let n := (Byte.to_N a * 65536 + Byte.to_N b * 256 + Byte.to_N c)%N in
     str4 (char_of (n / 262144)) (char_of (n / 4096 mod 64))
          (char_of (n / 64 mod 64)) (char_of (n mod 64)) (b64encode l)).
  cbv zeta. unfold str4. simpl String.length. rewrite IH.
  simpl List.length.
  replace (S (S (S (List.length l))) + 2) with (1 * 3 + (List.length l + 2)) by lia.
  rewrite Nat.div_add_l by lia. lia.
Qed.

End Base64Facts.

(** The test vectors of RFC 4648, section 10, and one group with the
    two last characters of the alphabet. *)
Example b64encode_rfc4648 :
  Base64.b64encode (list_byte_of_string "") = ""
  ∧ Base64.b64encode (list_byte_of_string "f") = "Zg=="
  ∧ Base64.b64encode (list_byte_of_string "fo") = "Zm8="
  ∧ Base64.b64encode (list_byte_of_string "foo") = "Zm9v"
  ∧ Base64.b64encode (list_byte_of_string "foob") = "Zm9vYg=="
  ∧ Base64.b64encode (list_byte_of_string "fooba") = "Zm9vYmE="
  ∧ Base64.b64encode (list_byte_of_string "foobar") = "Zm9vYmFy"
  ∧ Base64.b64encode [xfb; xff] = "+/8="
  ∧ Base64.b64decode "Zm9vYmE=" = Some (list_byte_of_string "fooba")
  ∧ Base64.b64decode "Zm9v=" = None.
Proof. by vm_compute. Qed.

Example split_lines_ex :
  split_lines ("a" +:+ nl +:+ nl +:+ "b") = ["a"; ""; "b"]
  ∧ split_lines "" = [""]
  ∧ rstrip_slash "x/y//" = "x/y" ∧ rstrip_slash "//" = "".
Proof. by vm_compute. Qed.


(** ** Text *)

Lemma str_app_cons (c : ascii) (s1 s2 : string) :
  String c s1 +:+ s2 = String c (s1 +:+ s2).
Proof. done. Qed.

Lemma str_app_assoc (s1 s2 s3 : string) :
  (s1 +:+ s2) +:+ s3 = s1 +:+ s2 +:+ s3.
Proof.
  induction s1 as [|c s1 IH]; [done|]. by rewrite !str_app_cons, IH.
Qed.

Lemma str_app_nil_r (s : string) : s +:+ "" = s.
Proof. induction s as [|c s IH]; [done|]. by rewrite str_app_cons, IH. Qed.

Lemma rev_app_app (s1 s2 : string) :
  String.rev_app s1 s2 = String.rev s1 +:+ s2.
Proof.
  unfold String.rev. revert s2.
  induction s1 as [|c s1 IH]; intros s2; [done|].
  simpl. rewrite IH, (IH (String c "")). by rewrite str_app_assoc.
Qed.

Lemma index_nl_cons (c : ascii) (pre : string) :
  c ≠ "010"%char →
  String.index 0 nl pre = None →
  String.index 0 nl (String c pre) = None.
Proof.
  intros Hc Hpre.
  change (String.index 0 nl (String c pre))
    with (if String.prefix nl (String c pre) then Some 0
          else match String.index 0 nl pre with
               | Some n => Some (S n)
               | None => None
               end).
  rewrite Hpre.
  change (String.prefix nl (String c pre))
    with (if ascii_dec "010" c then String.prefix "" pre else false).
  by destruct (ascii_dec "010" c) as [<-|_].
Qed.

Lemma split_lines_from_hd (cur s : string) :
  ∃ pre rest,
    hd "" (split_lines_from cur s) = String.rev cur +:+ pre
    ∧ s = pre +:+ rest
    ∧ String.index 0 nl pre = None
    ∧ (rest = "" ∨ ∃ rest', rest = nl +:+ rest').
Proof.
  revert cur. induction s as [|c s IH]; intros cur.
  - exists "", "". simpl. rewrite str_app_nil_r. auto.
  - simpl. destruct (Ascii.eqb c "010") eqn:Hc.
    + apply Ascii.eqb_eq in Hc as ->. exists "", (String "010" s). simpl.
      rewrite str_app_nil_r. repeat split. right. by exists s.
    + destruct (IH (String c cur)) as (pre & rest & Hhd & -> & Hpre & Hrest).
      exists (String c pre), rest. rewrite Hhd.
      unfold String.rev at 1. simpl String.rev_app. rewrite rev_app_app.
      rewrite str_app_assoc. split; [done|]. split; [done|]. split; [|done].
      apply index_nl_cons; [|done]. intros ->. by rewrite Ascii.eqb_refl in Hc.
Qed.

(** ** Stepping through a computation *)

Lemma bind_returns {E A B} (m : M E A) (k : A → M E B) w a w' :
  m w = (inr a, w') → bind m k w = k a w'.
Proof. unfold bind. by intros ->. Qed.

Lemma bind_raises {E A B} (m : M E A) (k : A → M E B) w e w' :
  m w = (inl e, w') → bind m k w = (inl e, w').
Proof. unfold bind. by intros ->. Qed.

Lemma try_raises {E E' A} (m : M E A) (h : E → M E' A) w e w' :
  m w = (inl e, w') → try_except m h w = h e w'.
Proof. unfold try_except. by intros ->. Qed.

(** ** Rules for [spec] *)

Section SpecRules.
Context {E : Type}.

Lemma spec_ret {A} (a : A) w (Q : A → world → Prop) (R : E → world → Prop) :
  Q a w → spec (ret a) w Q R.
Proof. done. Qed.

Lemma spec_raise {A} (e : E) w (Q : A → world → Prop) (R : E → world → Prop) :
  R e w → spec (raise e) w Q R.
Proof. done. Qed.

Lemma spec_bind {A B} (m : M E A) (k : A → M E B) w
    (Q : B → world → Prop) (R : E → world → Prop) :
  spec m w (λ a w', spec (k a) w' Q R) R → spec (bind m k) w Q R.
Proof. unfold spec, bind. by destruct (m w) as [[e|a] w']. Qed.

Lemma spec_try {E' A} (m : M E' A) (h : E' → M E A) w
    (Q : A → world → Prop) (R : E → world → Prop) :
  spec m w Q (λ e w', spec (h e) w' Q R) → spec (try_except m h) w Q R.
Proof. unfold spec, try_except. by destruct (m w) as [[e|a] w']. Qed.

Lemma spec_mono {A} (m : M E A) w (Q Q' : A → world → Prop)
    (R R' : E → world → Prop) :
  spec m w Q R →
  (∀ a w', Q a w' → Q' a w') → (∀ e w', R e w' → R' e w') →
  spec m w Q' R'.
Proof. unfold spec. destruct (m w) as [[e|a] w']; eauto. Qed.

Lemma spec_and {A} (m : M E A) w (Q Q' : A → world → Prop)
    (R R' : E → world → Prop) :
  spec m w Q R → spec m w Q' R' →
  spec m w (λ a w', Q a w' ∧ Q' a w') (λ e w', R e w' ∧ R' e w').
Proof. unfold spec. by destruct (m w) as [[e|a] w']. Qed.

Lemma spec_emit (s : string) w (Q : () → world → Prop) (R : E → world → Prop) :
  Q () (emitted s w) → spec (emit s) w Q R.
Proof. done. Qed.

Lemma spec_append (p s : string) w
    (Q : () → world → Prop) (R : E → world → Prop) :
  Q () (appended p s w) → spec (append_text p s) w Q R.
Proof. done. Qed.

Lemma spec_write (p s : string) w
    (Q : () → world → Prop) (R : E → world → Prop) :
  Q () (written p s w) → spec (write_text p s) w Q R.
Proof. done. Qed.

Lemma spec_path_exists (p : string) w
    (Q : bool → world → Prop) (R : E → world → Prop) :
  Q (bool_decide (is_Some (fs w !! p))) w → spec (path_exists p) w Q R.
Proof. done. Qed.

Lemma spec_for_each {A} (l : list A) (body : A → M E ()) (I : world → Prop)
    (R : E → world → Prop) w :
  I w →
  (∀ x w', I w' → spec (body x) w' (λ _, I) R) →
  spec (for_each l body) w (λ _, I) R.
Proof.
  intros Hw Hbody. revert w Hw.
  induction l as [|x l IH]; intros w Hw; [done|].
  simpl. apply spec_bind. eapply spec_mono; [by apply Hbody| |done].
  intros [] w' Hw'. by apply IH.
Qed.

End SpecRules.

(** ** Files only grow *)

Lemma content_emitted p s w : content p (emitted s w) = content p w.
Proof. done. Qed.

Lemma content_appended p s w :
  content p (appended p s w) = content p w ++ list_byte_of_string s.
Proof. unfold content, appended. simpl. by rewrite lookup_insert_eq. Qed.

Lemma content_appended_ne p q s w :
  p ≠ q → content p (appended q s w) = content p w.
Proof. intros Hne. unfold content, appended. simpl. by rewrite lookup_insert_ne. Qed.

Lemma content_written_ne p q s w :
  p ≠ q → content p (written q s w) = content p w.
Proof. intros Hne. unfold content, written. simpl. by rewrite lookup_insert_ne. Qed.

Lemma extends_refl p w : extends p w w.
Proof. exists []. by rewrite app_nil_r. Qed.

Lemma extends_appended p q s w0 w :
  extends p w0 w → extends p w0 (appended q s w).
Proof.
  intros [bs Hbs]. destruct (decide (p = q)) as [<-|Hne].
  - exists (bs ++ list_byte_of_string s).
    by rewrite content_appended, Hbs, app_assoc.
  - exists bs. by rewrite content_appended_ne.
Qed.

Lemma wrote_here p s w0 w :
  extends p w0 w → wrote p s w0 (appended p s w).
Proof.
  intros [bs Hbs]. exists bs, [].
  by rewrite content_appended, Hbs, app_nil_r, app_assoc.
Qed.

Lemma wrote_appended p s q t w0 w :
  wrote p s w0 w → wrote p s w0 (appended q t w).
Proof.
  intros (pre & post & Hw). destruct (decide (p = q)) as [<-|Hne].
  - exists pre, (post ++ list_byte_of_string t).
    rewrite content_appended, Hw. by rewrite <- !app_assoc.
  - exists pre, post. by rewrite content_appended_ne.
Qed.

Lemma extends_emitted p s w0 w : extends p w0 w → extends p w0 (emitted s w).
Proof. done. Qed.

Lemma wrote_emitted p s t w0 w : wrote p s w0 w → wrote p s w0 (emitted t w).
Proof. done. Qed.

Create HintDb world.
#[local] Hint Resolve extends_refl extends_appended extends_emitted
  wrote_here wrote_appended wrote_emitted : world.

Lemma printed_here s w : s ∈ stdout (emitted s w).
Proof. simpl. apply elem_of_app. right. by apply list_elem_of_singleton. Qed.

Lemma printed_emitted s t w : s ∈ stdout w → s ∈ stdout (emitted t w).
Proof. intros Hs. simpl. apply elem_of_app. by left. Qed.

Lemma printed_appended s p t w : s ∈ stdout w → s ∈ stdout (appended p t w).
Proof. done. Qed.

#[local] Hint Resolve printed_here printed_emitted printed_appended : world.

(** ** Metadata collector *)

Module GitInfoFacts.
Import GitInfo.

Section Collector.
Variable run : list string → exn + string.
Variable str_strip : string → string.
Variable json_dumps : json → string.

Lemma git_cmd_eval (args : list string) (w : world) :
  ¬ query_crashes run args →
  git_cmd run str_strip args w
  = (inr (git_value run str_strip args), ran ("git" :: args) w).
Proof.
  intros Hok. unfold git_cmd, try_except, bind, check_output, git_value, ran.
  simpl. destruct (run ("git" :: args)) as [[| |msg]|out] eqn:Hrun; try done.
  destruct Hok. by exists msg.
Qed.

Lemma git_value_failed (args : list string) :
  query_failed run args → git_value run str_strip args = "".
Proof. unfold git_value. by intros [-> | ->]. Qed.

Lemma git_value_output (args : list string) (out : string) :
  run ("git" :: args) = inr out →
  git_value run str_strip args = str_strip out.
Proof. unfold git_value. by intros ->. Qed.

Lemma main_info_eval (w : world) :
  (∀ field args, (field, args) ∈ queries → ¬ query_crashes run args) →
  main_info run str_strip w
  = (inr (info_of_values run str_strip),
     World (stdout w) (fs w) (posts w)
           (procs w ++ ((λ q, "git" :: q.2) <$> queries))).
Proof.
  intros Hok.
  assert (∀ args, args ∈ queries.*2 → ¬ query_crashes run args) as Hok'.
  { intros args [[field a] [-> Hin]]%list_elem_of_fmap. eauto. }
  unfold main_info.
  repeat (erewrite bind_returns;
          [|apply git_cmd_eval, Hok'; cbn; repeat constructor]).
  unfold ret, ran, info_of_values. simpl.
  rewrite <- !app_assoc. done.
Qed.

Lemma queries_cases (P : string → list string → Prop) :
  Forall (λ q, P q.1 q.2) queries →
  ∀ field args, (field, args) ∈ queries → P field args.
Proof.
  intros HP field args Hin.
  by apply (proj1 (Forall_forall _ _) HP (field, args)).
Qed.


(** *** The whole run *)

Lemma git_cmd_crash (args : list string) (w : world) msg :
  run ("git" :: args) = inl (OtherError msg) →
  git_cmd run str_strip args w = (inl (OtherError msg), ran ("git" :: args) w).
Proof.
  intros Hrun. unfold git_cmd, try_except, bind, check_output.
  by rewrite Hrun.
Qed.

(** When no query raises anything but the two handled exceptions, [main]
    returns normally: it replaces [GIT_INFO.json] by the JSON text of the
    record and prints that same text after one heading line. *)
Theorem main_writes_what_it_prints (w : world) :
  (∀ field args, (field, args) ∈ queries → ¬ query_crashes run args) →
  let text := json_dumps (info_json (info_of_values run str_strip)) in
  ∃ w',
    main run str_strip json_dumps w = (inr (), w')
    ∧ fs w' = <["GIT_INFO.json" := list_byte_of_string text]> (fs w)
    ∧ stdout w' = stdout w ++ [line "GIT_INFO.json created:"; line text].
Proof.
  intros Hok text. unfold main.
  erewrite bind_returns; [|by apply main_info_eval].
  eexists. split; [reflexivity|]. split; [done|].
  simpl. by rewrite <- app_assoc.
Qed.

Lemma git_cmd_cases (args : list string) (w : world) :
  (∃ msg, run ("git" :: args) = inl (OtherError msg)
          ∧ git_cmd run str_strip args w
            = (inl (OtherError msg), ran ("git" :: args) w))
  ∨ (¬ query_crashes run args
     ∧ git_cmd run str_strip args w
       = (inr (git_value run str_strip args), ran ("git" :: args) w)).
Proof.
  destruct (run ("git" :: args)) as [[| |msg]|out] eqn:Hrun.
  - right. assert (¬ query_crashes run args) as Hok
      by (intros [msg Hmsg]; congruence).
    split; [done|]. by apply git_cmd_eval.
  - right. assert (¬ query_crashes run args) as Hok
      by (intros [msg Hmsg]; congruence).
    split; [done|]. by apply git_cmd_eval.
  - left. exists msg. split; [done|]. by apply git_cmd_crash.
  - right. assert (¬ query_crashes run args) as Hok
      by (intros [msg Hmsg]; congruence).
    split; [done|]. by apply git_cmd_eval.
Qed.

(** An exception of a query that [git_cmd] does not handle stops the run
    there: it reaches the caller of [main], the queries after it are not
    run, nothing is printed and no file is written. *)
Theorem unhandled_error_aborts (w : world) :
  (∃ field args, (field, args) ∈ queries ∧ query_crashes run args) →
  ∃ msg w',
    main run str_strip json_dumps w = (inl (OtherError msg), w')
    ∧ (∃ field args, (field, args) ∈ queries
                     ∧ run ("git" :: args) = inl (OtherError msg))
    ∧ fs w' = fs w
    ∧ stdout w' = stdout w
    ∧ ∃ l, procs w' = procs w ++ l
           ∧ l `prefix_of` ((λ q, "git" :: q.2) <$> queries).
Proof.
  intros (field & args & Hin & Hcrash).
  cut (∃ msg w',
         main_info run str_strip w = (inl (OtherError msg), w')
         ∧ (∃ field args, (field, args) ∈ queries
                          ∧ run ("git" :: args) = inl (OtherError msg))
         ∧ fs w' = fs w
         ∧ stdout w' = stdout w
         ∧ ∃ l, procs w' = procs w ++ l
                ∧ l `prefix_of` ((λ q, "git" :: q.2) <$> queries)).
  { intros (msg & w' & Hinfo & Hrest). exists msg, w'. split; [|done].
    unfold main. by rewrite (bind_raises _ _ _ _ _ Hinfo). }
  unfold main_info.
  repeat
    lazymatch goal with
    | |- ∃ msg w', bind (git_cmd _ _ ?a) _ ?w0 = _ ∧ _ =>
        destruct (git_cmd_cases a w0) as [(msg & Hrun & Hgit)|[? Hgit]];
        [ exists msg; eexists;
          rewrite (bind_raises _ _ _ _ _ Hgit);
          split; [reflexivity|];
          split; [eexists _, _; split; [|exact Hrun];
                  unfold queries; repeat constructor|];
          split; [done|]; split; [done|];
          eexists; split;
          [unfold ran; simpl; rewrite <- ?app_assoc; reflexivity|];
          eexists; reflexivity
        | rewrite (bind_returns _ _ _ _ _ Hgit); clear Hgit; cbv beta ]
    end.
  exfalso. revert Hcrash. revert field args Hin.
  apply (queries_cases (λ _ args, query_crashes run args → False)).
  unfold queries. repeat (apply Forall_cons; split; [done|]). constructor.
Qed.

(** With every query failing (no [git], or not inside a repository) the
    record still has its nine fields, each the empty string, and [main]
    returns normally. *)
Theorem all_failing_gives_empty_record (w : world) :
  (∀ field args, (field, args) ∈ queries → query_failed run args) →
  (main_info run str_strip w).1 = inr ((λ q, (q.1, "")) <$> queries)
  ∧ (main run str_strip json_dumps w).1 = inr ().
Proof.
  intros Hfail.
  assert (∀ field args, (field, args) ∈ queries → ¬ query_crashes run args)
    as Hok.
  { intros field args Hin [msg Hmsg].
    destruct (Hfail field args Hin) as [H|H]; rewrite H in Hmsg; done. }
  split.
  - rewrite main_info_eval by done. simpl. f_equal.
    unfold info_of_values, queries.
    cbn [fmap list_fmap fst snd String.eqb Ascii.eqb Bool.eqb].
    rewrite !git_value_failed
      by (eapply Hfail; unfold queries; repeat constructor).
    reflexivity.
  - unfold main. by erewrite bind_returns; [|by apply main_info_eval].
Qed.

(** The ["message"] field is the git output up to its first newline: it
    holds no newline, and the output is that field alone or that field
    followed by a newline and the rest. *)
Theorem first_line_is_prefix_without_newline (s : string) :
  String.index 0 nl (first_line s) = None
  ∧ (s = first_line s ∨ ∃ rest, s = first_line s +:+ nl +:+ rest).
Proof.
  unfold first_line, split_lines.
  destruct (split_lines_from_hd "" s) as (pre & rest & -> & -> & Hpre & Hrest).
  simpl. split; [done|].
  destruct Hrest as [->|[rest' ->]]; [left; by rewrite str_app_nil_r|].
  right. by exists rest'.
Qed.
End Collector.



(** With [git] answering every query, the record is written to
    [GIT_INFO.json] and printed. *)
Lemma main_writes_what_it_prints_witness :
  let text := Sample.dumps (info_json (info_of_values Sample.git_ok id)) in
  ∃ w',
    main Sample.git_ok id Sample.dumps (World [] ∅ [] []) = (inr (), w')
    ∧ fs w' = <["GIT_INFO.json" := list_byte_of_string text]> ∅
    ∧ stdout w' = [] ++ [line "GIT_INFO.json created:"; line text].
Proof.
  apply (main_writes_what_it_prints Sample.git_ok id Sample.dumps
           (World [] ∅ [] [])).
  intros field args _ [msg Hmsg]. discriminate Hmsg.
Defined.

(** With a [git] that may not be executed, the first query ends the run. *)
Lemma unhandled_error_aborts_witness :
  ∃ msg w',
    main Sample.git_denied id Sample.dumps (World [] ∅ [] [])
    = (inl (OtherError msg), w')
    ∧ (∃ field args, (field, args) ∈ queries
                     ∧ Sample.git_denied ("git" :: args)
                       = inl (OtherError msg))
    ∧ fs w' = ∅
    ∧ stdout w' = []
    ∧ ∃ l, procs w' = [] ++ l
           ∧ l `prefix_of` ((λ q, "git" :: q.2) <$> queries).
Proof.
  apply (unhandled_error_aborts Sample.git_denied id Sample.dumps
           (World [] ∅ [] [])).
  exists "commit", ["rev-parse"; "HEAD"].
  split; [apply list_elem_of_here|].
  exists "[Errno 13] Permission denied: 'git'". reflexivity.
Defined.

(** Without [git] the record has all nine fields, every one empty. *)
Lemma all_failing_gives_empty_record_witness :
  (main_info Sample.no_git id (World [] ∅ [] [])).1
  = inr ((λ q, (q.1, "")) <$> queries)
  ∧ (main Sample.no_git id Sample.dumps (World [] ∅ [] [])).1 = inr ().
Proof.
  apply (all_failing_gives_empty_record Sample.no_git id Sample.dumps
           (World [] ∅ [] [])).
  intros field args _. right. reflexivity.
Defined.

End GitInfoFacts.

(** ** Submission uploader *)

Module UploaderFacts.
Import Uploader.

Section Script.
Variable http : string → payload → http_outcome.
Variable getenv : string → option string.
Variable json_loads : string → string + json.
Variable json_dumps : json → string.
Variable py_repr : json → string.
Variable str_upper : string → string.
Variable str_capitalize : string → string.
Variable str_strip : string → string.
Variable path_str : string → string.
Variable path_name : string → string.
Variable path_suffix : string → string.
Variable error_text : string → json → string.
Variable decode_text : list byte → string + string.

Abbreviation upload_submission :=
  (upload_submission http json_dumps path_name error_text).
Abbreviation normalize := (normalize json_loads error_text).
Abbreviation unwrap_body := (unwrap_body json_loads error_text).
Abbreviation main_try :=
  (main_try http getenv json_loads json_dumps py_repr str_upper
            str_capitalize str_strip path_name error_text decode_text).
Abbreviation main_except := (main_except getenv py_repr).
Abbreviation main :=
  (main http getenv json_loads json_dumps py_repr str_upper
        str_capitalize str_strip path_str path_name path_suffix error_text
        decode_text).
Abbreviation run_main :=
  (run_main http getenv json_loads json_dumps py_repr str_upper
            str_capitalize str_strip path_str path_name path_suffix
            error_text decode_text).
Abbreviation write_file_list := (write_file_list str_strip decode_text).
Abbreviation write_summary :=
  (write_summary py_repr str_upper str_strip error_text decode_text).
Abbreviation listed_files := (listed_files str_strip decode_text).
Abbreviation with_listing := (with_listing str_strip decode_text).
Abbreviation list_undecodable := (list_undecodable decode_text).
Abbreviation list_apart := (list_apart getenv).
Abbreviation listing_readable := (listing_readable getenv decode_text).

(** *** Stable properties *)

Lemma stable_emitted (I : world → Prop) s w : stable I → I w → I (emitted s w).
Proof. intros HI Hw. by apply HI. Qed.

Lemma stable_appended (I : world → Prop) p s w :
  stable I → I w → I (appended p s w).
Proof. intros HI Hw. by apply HI. Qed.

Lemma stable_written (I : world → Prop) s w :
  stable I → I w → I (written result_file s w).
Proof. intros HI Hw. by apply HI. Qed.

Lemma stable_posted (I : world → Prop) url pl w :
  stable I → I w → I (posted url pl w).
Proof. intros HI Hw. by apply HI. Qed.

Lemma stable_True : stable (λ _, True).
Proof. done. Qed.

Lemma stable_and (I J : world → Prop) :
  stable I → stable J → stable (λ w, I w ∧ J w).
Proof.
  intros HI HJ w [Hi Hj]. destruct (HI w Hi) as (?&?&?&?).
  destruct (HJ w Hj) as (?&?&?&?). repeat split; auto.
Qed.

Lemma stable_exist {X} (I : X → world → Prop) :
  (∀ x, stable (I x)) → stable (λ w, ∃ x, I x w).
Proof.
  intros HI w [x Hx]. destruct (HI x w Hx) as (?&?&?&?).
  repeat split; eauto.
Qed.

Lemma stable_extends p w0 : p ≠ result_file → stable (extends p w0).
Proof.
  intros Hp w Hw. repeat split; try done.
  - intros q s. by apply extends_appended.
  - intros s. destruct Hw as [bs Hbs]. exists bs.
    by rewrite content_written_ne.
Qed.

Lemma stable_wrote p s w0 : p ≠ result_file → stable (wrote p s w0).
Proof.
  intros Hp w Hw. repeat split; try done.
  - intros q t. by apply wrote_appended.
  - intros t. destruct Hw as (pre & post & Hw). exists pre, post.
    by rewrite content_written_ne.
Qed.

(** *** The operations on values *)

Lemma spec_dict_get_obj m k d w (Q : json → world → Prop) R :
  Q (default d (m !! k)) w → spec (dict_get error_text (JObj m) k d) w Q R.
Proof. done. Qed.

Lemma spec_dict_get_other v k d w (Q : json → world → Prop) (R : exn → world → Prop) :
  (∀ m, v ≠ JObj m) →
  R (OtherError (error_text "get" v)) w →
  spec (dict_get error_text v k d) w Q R.
Proof. intros Hv HR. destruct v; try done. by destruct (Hv m). Qed.

Lemma spec_upper_str s w (Q : string → world → Prop) R :
  Q (str_upper s) w → spec (method_upper str_upper error_text (JStr s)) w Q R.
Proof. done. Qed.

Lemma spec_capitalize_str s w (Q : string → world → Prop) R :
  Q (str_capitalize s) w →
  spec (method_capitalize str_capitalize error_text (JStr s)) w Q R.
Proof. done. Qed.

Lemma spec_upper_other v w (Q : string → world → Prop) (R : exn → world → Prop) :
  (∀ s, v ≠ JStr s) →
  R (OtherError (error_text "upper" v)) w →
  spec (method_upper str_upper error_text v) w Q R.
Proof. intros Hv HR. destruct v; try done. by destruct (Hv s). Qed.

Lemma spec_capitalize_other v w (Q : string → world → Prop) (R : exn → world → Prop) :
  (∀ s, v ≠ JStr s) →
  R (OtherError (error_text "capitalize" v)) w →
  spec (method_capitalize str_capitalize error_text v) w Q R.
Proof. intros Hv HR. destruct v; try done. by destruct (Hv s). Qed.

(** *** Stepping through the script *)

Ltac known_role :=
  repeat match goal with
         | H : ?m !! "role" = _ |- context [?m !! "role"] => rewrite H
         end;
  cbn [from_option id].

Ltac step :=
  cbv beta; known_role;
  lazymatch goal with
  | |- spec (bind _ _) _ _ _ => apply spec_bind
  | |- spec (ret _) _ _ _ => apply spec_ret
  | |- spec (raise _) _ _ _ => apply spec_raise
  | |- spec (sys_exit _) _ _ _ => apply spec_raise
  | |- spec (print _) _ _ _ => apply spec_emit
  | |- spec (append_text _ _) _ _ _ => apply spec_append
  | |- spec (write_text _ _) _ _ _ => apply spec_write
  | |- spec (path_exists _) _ _ _ => apply spec_path_exists
  | |- spec (when true _) _ _ _ => unfold when at 1
  | |- spec (when false _) _ _ _ => apply spec_ret
  | |- spec (get_str _ _ _ _ _) _ _ _ => unfold get_str
  | |- spec (dict_get _ (JObj _) _ _) _ _ _ => apply spec_dict_get_obj
  | |- spec (dict_get _ _ _ _) _ _ _ => apply spec_dict_get_other; [done|]
  | |- spec (method_upper _ _ (JStr _)) _ _ _ => apply spec_upper_str
  | |- spec (method_upper _ _ _) _ _ _ => apply spec_upper_other; [done|]
  | |- spec (method_capitalize _ _ (JStr _)) _ _ _ => apply spec_capitalize_str
  | |- spec (method_capitalize _ _ _) _ _ _ =>
      apply spec_capitalize_other; [done|]
  end.

(** A stable property still holds after any number of outputs. *)
Ltac still I HI :=
  cbv beta;
  repeat first
    [ assumption
    | match goal with H : ∀ _, I _ |- _ => apply H end
    | apply (stable_emitted I _ _ HI)
    | apply (stable_appended I _ _ _ HI)
    | apply (stable_written I _ _ HI)
    | apply (stable_posted I _ _ _ HI) ].

Ltac ill_formed' :=
  let Hwf := fresh "Hwf" in
  intros Hwf; unfold well_formed, role_ok in Hwf;
  repeat match goal with
         | H : ?m !! "role" = _, Hwf : context [?m !! "role"] |- _ =>
             rewrite H in Hwf
         end;
  exact Hwf.

Ltac ill_formed := split; [done|]; ill_formed'.

Section Blocks.
Variable I : world → Prop.
Hypothesis HI : stable I.

(** The detail block returns when the body is well formed; otherwise it
    raises an exception. Either way it has only printed. *)
Lemma print_details_spec body w :
  I w →
  spec (print_details py_repr str_upper str_capitalize error_text body) w
    (λ _, I)
    (λ e w', I w' ∧ is_exception e ∧ ¬ well_formed body).
Proof.
  intros Hw. unfold print_details.
  destruct body as [| | | | | |m];
    try (repeat step; (split; [still I HI|ill_formed])).
  destruct (m !! "role") as [[]|] eqn:Hrole;
    repeat step; first [by still I HI | split; [still I HI|ill_formed]].
Qed.

(** The status lines: once ["status=success"] is appended the block goes
    on appending, and raises only when the body is not well formed. *)
Lemma write_outputs_spec out body w :
  I (appended out (line "status=success") (appended out "" w)) →
  spec (write_outputs py_repr error_text out body) w
    (λ _, I)
    (λ e w', I w' ∧ is_exception e ∧ ¬ well_formed body).
Proof.
  intros Hw. unfold write_outputs.
  destruct body as [| | | | | |m];
    repeat step; first [by still I HI | split; [still I HI|ill_formed]].
Qed.

Lemma read_text_spec p w (Q : string → world → Prop) (R : exn → world → Prop) :
  is_Some (fs w !! p) →
  (∀ bs text, fs w !! p = Some bs → decode_text bs = inr text →
              Q (universal_newlines text) w) →
  (∀ bs msg, fs w !! p = Some bs → decode_text bs = inl msg →
             R (OtherError msg) w) →
  spec (read_text decode_text p) w Q R.
Proof.
  intros [bs Hbs] HQ HR. unfold read_text, read_bytes, spec, bind, ret, raise.
  rewrite Hbs. destruct (decode_text bs) as [msg|text] eqn:Hdec.
  - by apply (HR bs).
  - by apply (HQ bs).
Qed.

(** The file listing raises only when the list is there and its bytes do
    not decode; it has then appended nothing. *)
Lemma write_file_list_spec a sum w :
  I w →
  spec (write_file_list a sum) w (λ _, I)
    (λ e w', I w' ∧ ∃ msg, e = OtherError msg ∧ list_undecodable a msg w').
Proof.
  intros Hw. unfold Uploader.write_file_list. apply spec_bind.
  destruct (opt_truthy (file_list a)) eqn:Hlist; [|by apply spec_ret].
  apply spec_path_exists. case_bool_decide as Hex; [|done]. simpl.
  apply spec_bind, read_text_spec; [done| |].
  - intros bs text _ _. cbv zeta. case_bool_decide; [|done]. simpl.
    repeat step.
    eapply spec_mono;
      [apply (spec_for_each _ _ I
                (λ e w', I w' ∧ ∃ msg, e = OtherError msg
                                       ∧ list_undecodable a msg w'));
       [still I HI|]| |done].
    + intros file w'' Hw''. apply spec_append. still I HI.
    + intros [] w'' Hw''. apply spec_append. still I HI.
  - intros bs msg Hbs Hdec. split; [done|]. exists msg. split; [done|].
    split; [done|]. by exists bs.
Qed.

(** The summary: the body is looked at before the file is opened; after
    the header the block goes on appending, and raises only when the body
    is not well formed or the file list does not decode. *)
Lemma write_summary_spec a sum body w :
  (∀ role_emoji,
     I (appended sum (success_header role_emoji) (appended sum "" w))) →
  spec (write_summary a sum body) w
    (λ _, I)
    (λ e w', (w' = w ∨ I w') ∧ is_exception e
             ∧ (¬ well_formed body
                ∨ ∃ msg, e = OtherError msg ∧ list_undecodable a msg w')).
Proof.
  intros Hw. unfold Uploader.write_summary.
  destruct body as [| | | | | |m];
    try (repeat step; (split; [by left|split; [done|left]; ill_formed'])).
  destruct (m !! "role") as [[]|] eqn:Hrole;
    repeat step;
    first [ eapply spec_mono;
            [apply write_file_list_spec; still I HI|done|];
            intros e w' [? (msg & -> & ?)];
            split; [by right|split; [done|right; by exists msg]]
          | split; [right; still I HI|split; [done|left]; ill_formed'] ].
Qed.

Lemma spec_read_bytes p w (Q : list byte → world → Prop) (R : exn → world → Prop) :
  (∀ bs, fs w !! p = Some bs → Q bs w) →
  (∀ msg, R (OtherError msg) w) →
  spec (read_bytes p) w Q R.
Proof.
  intros HQ HR. unfold spec, read_bytes.
  destruct (fs w !! p) as [bs|]; [by apply HQ|apply HR].
Qed.

Lemma spec_requests_post url pl w (Q : json → world → Prop)
    (R : exn → world → Prop) :
  (∀ v, http url pl = HttpJson v → Q v (posted url pl w)) →
  (∀ msg resp, http url pl = HttpRequestException msg resp →
               R (RequestException msg resp) (posted url pl w)) →
  (∀ msg, http url pl = HttpOtherError msg →
          R (OtherError msg) (posted url pl w)) →
  spec (requests_post http url pl) w Q R.
Proof.
  intros HQ HR HO. unfold spec, requests_post.
  destruct (http url pl) as [v|msg resp|msg]; auto.
Qed.

(** [upload_submission] prints and sends one request; what it raises is
    an [Exception]. *)
Lemma upload_submission_spec api_key endpoint role file_path w :
  I w →
  spec (upload_submission api_key endpoint role file_path) w
    (λ _, I) (λ e w', I w' ∧ is_exception e).
Proof.
  intros Hw. unfold Uploader.upload_submission.
  apply spec_bind, spec_read_bytes; [intros bs _|done].
  cbv zeta. repeat step. apply spec_try, spec_requests_post.
  - intros v _. still I HI.
  - intros msg [r|] _; repeat step; [|split; [still I HI|done]].
    apply spec_try. unfold response_json.
    destruct (resp_json r) as [v|]; repeat step;
      [|split; [still I HI|done]].
    destruct v; repeat step; (split; [still I HI|done]).
  - intros msg _. repeat step. split; [still I HI|done].
Qed.

(** [normalize] leaves the world as it is; what it raises is an
    [Exception]. *)
Lemma normalize_spec result w :
  I w →
  spec (normalize result) w (λ _, I) (λ e w', I w' ∧ is_exception e).
Proof.
  intros Hw.
  assert (∀ s, spec (loads json_loads s) w (λ _, I) (λ e w', I w' ∧ is_exception e))
    as Hloads.
  { intros s. unfold loads. by destruct (json_loads s). }
  assert (∀ v, spec (unwrap_body v) w (λ _, I) (λ e w', I w' ∧ is_exception e))
    as Hunwrap.
  { intros v. unfold Uploader.unwrap_body. apply spec_bind.
    assert (∀ b, spec (if b : bool then
                         let* body := py_getitem error_text v "body" in
                         match body with
                         | JStr s => loads json_loads s
                         | _ => ret body
                         end
                       else ret v) w (λ _, I) (λ e w', I w' ∧ is_exception e))
      as Hif.
    { intros [|]; [|done]. apply spec_bind. unfold py_getitem.
      destruct v as [| | | | | |m]; try done.
      destruct (m !! "body") as [[]|]; try done. apply Hloads. }
    unfold py_contains. destruct v; try done; apply spec_ret, Hif. }
  unfold Uploader.normalize. apply spec_bind.
  destruct result; try (apply spec_ret, Hunwrap).
  unfold loads. destruct (json_loads s); [done|]. apply spec_ret, Hunwrap.
Qed.

(** The handler of [main] prints the error, writes what the environment
    asks for and exits with status 1. *)
Lemma main_except_spec e w :
  I w →
  spec (main_except e) w
    (λ _ _, False)
    (λ e' w', e' = SystemExit 1 ∧ I w'
              ∧ line ("  Error: " +:+ exn_str py_repr e) ∈ stdout w').
Proof.
  intros Hw. unfold Uploader.main_except.
  destruct (opt_truthy (getenv "GITHUB_OUTPUT"));
    destruct (opt_truthy (getenv "GITHUB_STEP_SUMMARY"));
    cbv zeta; repeat step;
    try (destruct (structured e) as [[title details]|]; repeat step);
    (split; [done|split; [still I HI|eauto 30 with world]]).
Qed.
End Blocks.

(** *** [main] up to its [try] statement *)

Lemma main_missing a w :
  fs w !! file a = None →
  main a w
  = (inl (SystemExit 1),
     emitted (line ("❌ Error: File not found: " +:+ path_str (file a))) w).
Proof.
  intros Hfile. unfold Uploader.main, bind, path_exists. rewrite Hfile.
  by rewrite bool_decide_false by (by intros [? ?]).
Qed.

Lemma main_found a w :
  is_Some (fs w !! file a) →
  main a w
  = try_except_Exception (main_try a) main_except
      (preamble str_upper path_str path_suffix a w).
Proof.
  intros Hfile. unfold Uploader.main, bind at 1, path_exists.
  rewrite bool_decide_true by done. unfold preamble.
  by destruct (negb (path_suffix (file a) =? ".zip")%string).
Qed.

(** C8. Given a [--file] path that does not exist, the process prints the
    "File not found" message and exits with status 1; that line is all
    it does: no file is written (so no [submission_result.json] appears)
    and no request is sent. *)
Theorem missing_file_exits_without_result a w :
  fs w !! file a = None →
  run_main a w
  = (1%Z,
     emitted (line ("❌ Error: File not found: " +:+ path_str (file a))) w)
  ∧ fs (run_main a w).2 = fs w
  ∧ posts (run_main a w).2 = posts w.
Proof.
  intros Hfile. unfold Uploader.run_main. by rewrite main_missing.
Qed.

(** The handler of [upload_submission] only prints and raises: the one
    request of the call is the one made in its [try] block. *)
Lemma upload_submission_posts api_key endpoint role file_path w bs :
  fs w !! file_path = Some bs →
  posts (upload_submission api_key endpoint role file_path w).2
  = posts w ++ [(endpoint, request_for path_name api_key role file_path bs)].
Proof.
  intros Hfile.
  unfold Uploader.upload_submission, bind, try_except, read_bytes,
    requests_post, response_json, dict_get, print, emit, raise, ret.
  rewrite Hfile. simpl.
  destruct (http _ _) as [v|msg [r|]|msg]; simpl; try done.
  destruct (resp_json r) as [[]|]; done.
Qed.

(** C1. The ['file'] field of the payload built for an existing archive
    is the Base64 text of exactly the bytes of the file, and decoding that
    field gives back the same bytes. *)
Theorem payload_file_round_trip api_key endpoint role file_path w bs :
  fs w !! file_path = Some bs →
  ∃ pl,
    posts (upload_submission api_key endpoint role file_path w).2
    = posts w ++ [(endpoint, pl)]
    ∧ p_file pl = Base64.b64encode bs
    ∧ Base64.b64decode (p_file pl) = Some bs.
Proof.
  intros Hfile. exists (request_for path_name api_key role file_path bs).
  split; [by apply upload_submission_posts|].
  split; [done|]. apply Base64Facts.b64decode_b64encode.
Qed.

(** *** Failures of the HTTP layer *)

(** The world once the request for [bs] has been sent and has failed with
    the text [msg]. *)
Lemma upload_submission_failed api_key endpoint role file_path w bs msg resp :
  fs w !! file_path = Some bs →
  http endpoint (request_for path_name api_key role file_path bs)
  = HttpRequestException msg resp →
  upload_submission api_key endpoint role file_path w
  = match resp with
    | Some r =>
        try_except
          (let* error_detail := response_json r in
           print ("   Server response: " +:+ json_dumps error_detail) >>
           let* server_error := dict_get error_text error_detail "error" (JStr msg) in
           raise (SubmissionError server_error (Some msg)))
          (λ e',
            match e' with
            | SubmissionError _ _ => raise e'
            | _ =>
                print ("   Server response: " +:+ resp_text r) >>
                raise (SubmissionError (JStr "API endpoint not found.")
                                       (Some (endpoint_hint msg)))
            end)
    | None =>
        raise (SubmissionError (JStr "API endpoint not found.")
                               (Some (endpoint_hint msg)))
    end
      (emitted (line ("❌ Upload failed: " +:+ msg))
         (posted endpoint (request_for path_name api_key role file_path bs)
            (emitted (line ("📤 Uploading " +:+ path_name file_path +:+ " ("
                            +:+ pretty (List.length bs) +:+ " bytes)..."))
               w))).
Proof.
  intros Hfile Hhttp.
  unfold Uploader.upload_submission, bind at 1, read_bytes. rewrite Hfile.
  cbv zeta. unfold bind at 1, print at 1, emit at 1.
  unfold try_except at 1, requests_post. fold (request_for path_name api_key role file_path bs).
  rewrite Hhttp. cbv zeta. by destruct resp.
Qed.

(** C3, as the code has it. When the upload fails at the HTTP layer with
    a response whose body is not valid JSON, [upload_submission] prints the
    raw response text and raises an error whose title is "API endpoint
    not found." and whose detail is the text of the exception followed by
    the hint to check the endpoint. *)
Theorem invalid_json_is_endpoint_not_found
    api_key endpoint role file_path w bs msg r :
  fs w !! file_path = Some bs →
  http endpoint (request_for path_name api_key role file_path bs)
  = HttpRequestException msg (Some r) →
  resp_json r = None →
  (upload_submission api_key endpoint role file_path w).1
  = inl (SubmissionError
           (JStr "API endpoint not found.")
           (Some (msg +:+ nl +:+ nl
                  +:+ "Please check the submission_endpoint is correct.")))
  ∧ line ("   Server response: " +:+ resp_text r)
    ∈ stdout (upload_submission api_key endpoint role file_path w).2.
Proof.
  intros Hfile Hhttp Hjson.
  rewrite (upload_submission_failed _ _ _ _ _ _ _ _ Hfile Hhttp).
  unfold try_except, bind at 1, response_json. rewrite Hjson. simpl.
  split; [done|]. apply elem_of_app. right. by apply list_elem_of_singleton.
Qed.

(** C6. When the upload fails at the HTTP layer and the response body is a
    JSON object with an ["error"] field, the failure raised has that field
    as its title and the text of the exception as its detail; [main] prints
    the title as the error and exits with status 1. *)
Theorem server_error_is_failure_title a w bs msg r m err :
  fs w !! file a = Some bs →
  http (endpoint a) (request_for path_name (api_key a) (role a) (file a) bs)
  = HttpRequestException msg (Some r) →
  resp_json r = Some (JObj m) →
  m !! "error" = Some err →
  (upload_submission (api_key a) (endpoint a) (role a) (file a) w).1
  = inl (SubmissionError err (Some msg))
  ∧ (run_main a w).1 = 1%Z
  ∧ line ("  Error: " +:+ py_str py_repr err) ∈ stdout (run_main a w).2.
Proof.
  intros Hfile Hhttp Hjson Herr.
  assert (∀ w1, fs w1 !! file a = Some bs →
            ∃ w2, upload_submission (api_key a) (endpoint a) (role a) (file a) w1
                  = (inl (SubmissionError err (Some msg)), w2)) as Hup.
  { intros w1 Hw1.
    rewrite (upload_submission_failed _ _ _ _ _ _ _ _ Hw1 Hhttp).
    unfold try_except, bind at 1, response_json. rewrite Hjson. simpl.
    rewrite Herr. by eexists. }
  split.
  { by destruct (Hup w Hfile) as [w2 ->]. }
  unfold Uploader.run_main. rewrite main_found by done.
  destruct (Hup (preamble str_upper path_str path_suffix a w)) as [w2 Hw2].
  { unfold preamble. by destruct (negb _). }
  unfold try_except_Exception. erewrite try_raises;
    [|unfold Uploader.main_try; by erewrite bind_raises].
  pose proof (main_except_spec (λ _, True) stable_True
                (SubmissionError err (Some msg)) w2 Logic.I) as Hexc.
  unfold spec in Hexc. revert Hexc.
  set (res := main_except (SubmissionError err (Some msg)) w2).
  destruct res as [[e|[]] w3]; [|done]. intros (-> & _ & Hline).
  split; [done|exact Hline].
Qed.

(** *** Normalising the response *)

(** C9. The three shapes of a successful response: a top-level string
    that decodes to a mapping is handled as that mapping; under ["body"] a
    string is decoded into the logical body; under ["body"] a mapping is
    the logical body as it is, with no decoding. *)
Theorem normalize_shapes w s m1 m2 s2 m3 b :
  json_loads s = inr (JObj m1) →
  m2 !! "body" = Some (JStr s2) →
  m3 !! "body" = Some (JObj b) →
  normalize (JStr s) w = unwrap_body (JObj m1) w
  ∧ normalize (JObj m2) w = loads json_loads s2 w
  ∧ normalize (JObj m3) w = (inr (JObj b), w).
Proof.
  intros Hs Hbody2 Hbody3. split; [|split].
  - unfold Uploader.normalize, bind at 1, loads. by rewrite Hs.
  - unfold Uploader.normalize, Uploader.unwrap_body, bind, ret, py_contains,
      py_getitem. simpl. rewrite Hbody2.
    by rewrite bool_decide_true by done.
  - unfold Uploader.normalize, Uploader.unwrap_body, bind, ret, py_contains,
      py_getitem. simpl. rewrite Hbody3.
    by rewrite bool_decide_true by done.
Qed.

(** *** Successful uploads *)

Lemma upload_submission_returns api_key endpoint role file_path w bs v :
  fs w !! file_path = Some bs →
  http endpoint (request_for path_name api_key role file_path bs) = HttpJson v →
  upload_submission api_key endpoint role file_path w
  = (inr v,
     posted endpoint (request_for path_name api_key role file_path bs)
       (emitted (line ("📤 Uploading " +:+ path_name file_path +:+ " ("
                       +:+ pretty (List.length bs) +:+ " bytes)..."))
          w)).
Proof.
  intros Hfile Hhttp.
  unfold Uploader.upload_submission, bind at 1, read_bytes. rewrite Hfile.
  cbv zeta. unfold bind at 1, print at 1, emit at 1.
  unfold try_except at 1, requests_post.
  fold (request_for path_name api_key role file_path bs).
  by rewrite Hhttp.
Qed.

(** What [main] does with the logical body: the three blocks and
    [sys.exit(0)]. *)
Abbreviation report a body :=
  (when (print_info a)
     (print_details py_repr str_upper str_capitalize error_text body) >>
   when (opt_truthy (getenv "GITHUB_OUTPUT"))
     (write_outputs py_repr error_text
        (default "" (getenv "GITHUB_OUTPUT")) body) >>
   when (opt_truthy (getenv "GITHUB_STEP_SUMMARY"))
     (write_summary a
        (default "" (getenv "GITHUB_STEP_SUMMARY")) body) >>
   sys_exit 0).


(** *** The files of the CI runner *)

Section Outputs.
Variables (out sum : string) (w0 : world).
Hypothesis Hout : getenv "GITHUB_OUTPUT" = Some out.
Hypothesis Hout_named : out ≠ "".
Hypothesis Hsum : getenv "GITHUB_STEP_SUMMARY" = Some sum.
Hypothesis Hsum_named : sum ≠ "".
Hypothesis Hout_result : out ≠ result_file.
Hypothesis Hsum_result : sum ≠ result_file.

Abbreviation kept := (kept out sum w0).
Abbreviation reported := (reported out sum w0).
Abbreviation summarised := (summarised out sum w0).
Abbreviation failed := (failed out sum w0).
Abbreviation try_post := (try_post out sum w0).

Lemma stable_kept : stable kept.
Proof. apply stable_and; by apply stable_extends. Qed.

Lemma stable_reported : stable reported.
Proof. apply stable_and; [apply stable_kept|by apply stable_wrote]. Qed.

Lemma stable_summarised : stable summarised.
Proof.
  apply stable_and; [apply stable_reported|].
  apply stable_exist. intros role_emoji. by apply stable_wrote.
Qed.

Lemma out_truthy : opt_truthy (getenv "GITHUB_OUTPUT") = true.
Proof. rewrite Hout. simpl. by destruct out. Qed.

Lemma sum_truthy : opt_truthy (getenv "GITHUB_STEP_SUMMARY") = true.
Proof. rewrite Hsum. simpl. by destruct sum. Qed.

Lemma try_post_exception e w : is_exception e → kept w → try_post e w.
Proof. by destruct e. Qed.

Lemma report_outputs a body w :
  kept w → spec (report a body) w (λ (_ : ()) _, False) try_post.
Proof.
  intros Hw. rewrite out_truthy, sum_truthy, Hout, Hsum. simpl default.
  apply spec_bind. eapply spec_mono with (Q := λ _, kept) (R := try_post).
  { destruct (print_info a); [|done].
    eapply spec_mono; [by apply (print_details_spec kept stable_kept)|done|].
    intros e w' (? & ? & _). by apply try_post_exception. }
  2: done.
  intros [] w1 Hw1. apply spec_bind. unfold when at 1.
  eapply spec_mono with (Q := λ _, reported) (R := try_post).
  { eapply spec_mono;
      [apply (write_outputs_spec reported stable_reported)|done|].
    - destruct Hw1. repeat split; eauto 10 with world.
    - intros e w' ((? & ?) & ? & _). by apply try_post_exception. }
  2: done.
  intros [] w2 Hw2. apply spec_bind. unfold when at 1.
  eapply spec_mono with (Q := λ _, summarised) (R := try_post).
  { eapply spec_mono;
      [apply (write_summary_spec summarised stable_summarised)|done|].
    - intros role_emoji. destruct Hw2 as [[? ?] ?].
      repeat split; eauto 10 with world.
    - intros e w' ([-> | [[? ?] ?]] & ? & _);
        apply try_post_exception; try done. by destruct Hw2. }
  2: done.
  intros [] w3 Hw3. by apply spec_raise.
Qed.

Lemma main_try_outputs a w :
  kept w → spec (main_try a) w (λ _ _, False) try_post.
Proof.
  intros Hw. unfold Uploader.main_try. apply spec_bind.
  eapply spec_mono;
    [by apply (upload_submission_spec kept stable_kept)| |].
  2: { intros e w' [? ?]. by apply try_post_exception. }
  intros result w1 Hw1. repeat step.
  eapply spec_mono;
    [apply (normalize_spec kept)| |].
  - by apply stable_written; [apply stable_kept|].
  - intros body w2 Hw2. by apply report_outputs.
  - intros e w' [? ?]. by apply try_post_exception.
Qed.

Lemma main_except_outputs e w :
  kept w →
  spec (main_except e) w (λ _ _, False)
       (λ e' w', e' = SystemExit 1 ∧ failed w').
Proof.
  intros [Hw_out Hw_sum]. unfold Uploader.main_except.
  rewrite out_truthy, sum_truthy, Hout, Hsum. simpl default.
  cbv zeta. repeat step.
  destruct (structured e) as [[title details]|]; repeat step;
    (split; [done|split; eauto 40 with world]).
Qed.

End Outputs.

(** *** Every failure of the upload ends the run with status 1 *)

Lemma preamble_fs a w :
  fs (preamble str_upper path_str path_suffix a w) = fs w.
Proof. unfold preamble. by destruct (negb _). Qed.

(** Whatever [Exception] the upload raises, [main] prints it as the error
    and exits with status 1. *)
Lemma upload_failure_exits_one a w e w2 :
  is_Some (fs w !! file a) →
  upload_submission (api_key a) (endpoint a) (role a) (file a)
    (preamble str_upper path_str path_suffix a w) = (inl e, w2) →
  is_exception e →
  (run_main a w).1 = 1%Z
  ∧ line ("  Error: " +:+ exn_str py_repr e) ∈ stdout (run_main a w).2.
Proof.
  intros Hfile Hup He.
  unfold Uploader.run_main. rewrite main_found by done.
  unfold try_except_Exception. erewrite try_raises;
    [|unfold Uploader.main_try; by erewrite bind_raises].
  pose proof (main_except_spec (λ _, True) stable_True e w2 Logic.I) as Hexc.
  unfold spec in Hexc. revert Hexc.
  destruct e; try done;
    match goal with
    | |- context [main_except ?e w2] => set (res := main_except e w2)
    end;
    (destruct res as [[e'|[]] w3]; [|done]; intros (-> & _ & Hline);
     split; [done|exact Hline]).
Qed.

(** With no response at all (the connection failed) the error raised has
    the generic title and, as detail, the text of the exception followed by
    the hint to check the endpoint; the run exits with status 1. *)
Theorem no_response_is_endpoint_not_found a w bs msg :
  fs w !! file a = Some bs →
  http (endpoint a) (request_for path_name (api_key a) (role a) (file a) bs)
  = HttpRequestException msg None →
  (upload_submission (api_key a) (endpoint a) (role a) (file a) w).1
  = inl (SubmissionError (JStr "API endpoint not found.")
                         (Some (endpoint_hint msg)))
  ∧ (run_main a w).1 = 1%Z
  ∧ line "  Error: API endpoint not found." ∈ stdout (run_main a w).2.
Proof.
  intros Hfile Hhttp.
  assert (∀ w1, fs w1 !! file a = Some bs →
            ∃ w2, upload_submission (api_key a) (endpoint a) (role a) (file a) w1
                  = (inl (SubmissionError (JStr "API endpoint not found.")
                                          (Some (endpoint_hint msg))), w2))
    as Hup.
  { intros w1 Hw1.
    rewrite (upload_submission_failed _ _ _ _ _ _ _ _ Hw1 Hhttp).
    by eexists. }
  split.
  { by destruct (Hup w Hfile) as [w2 ->]. }
  destruct (Hup (preamble str_upper path_str path_suffix a w)) as [w2 Hw2].
  { by rewrite preamble_fs. }
  apply (upload_failure_exits_one a w
           (SubmissionError (JStr "API endpoint not found.")
                            (Some (endpoint_hint msg))) w2); by eauto.
Qed.

(** When the body of the error response is a JSON object without an
    ["error"] field, the title of the failure falls back to the text of the
    exception, which is also its detail. *)
Theorem error_body_without_error_field a w bs msg r m :
  fs w !! file a = Some bs →
  http (endpoint a) (request_for path_name (api_key a) (role a) (file a) bs)
  = HttpRequestException msg (Some r) →
  resp_json r = Some (JObj m) →
  m !! "error" = None →
  (upload_submission (api_key a) (endpoint a) (role a) (file a) w).1
  = inl (SubmissionError (JStr msg) (Some msg))
  ∧ (run_main a w).1 = 1%Z
  ∧ line ("  Error: " +:+ msg) ∈ stdout (run_main a w).2.
Proof.
  intros Hfile Hhttp Hjson Herr.
  assert (∀ w1, fs w1 !! file a = Some bs →
            ∃ w2, upload_submission (api_key a) (endpoint a) (role a) (file a) w1
                  = (inl (SubmissionError (JStr msg) (Some msg)), w2)) as Hup.
  { intros w1 Hw1.
    rewrite (upload_submission_failed _ _ _ _ _ _ _ _ Hw1 Hhttp).
    unfold try_except, bind at 1, response_json. rewrite Hjson. simpl.
    rewrite Herr. by eexists. }
  split.
  { by destruct (Hup w Hfile) as [w2 ->]. }
  destruct (Hup (preamble str_upper path_str path_suffix a w)) as [w2 Hw2].
  { by rewrite preamble_fs. }
  apply (upload_failure_exits_one a w
           (SubmissionError (JStr msg) (Some msg)) w2); by eauto.
Qed.

(** When the body of the error response is valid JSON but not an object (a
    list, a string, a number, ...), looking up ["error"] raises inside the
    [try] block; the bare [except] takes it for an undecodable body: the
    parsed body and the raw text are both printed and the failure is the
    generic one. *)
Theorem error_body_not_an_object api_key endpoint role file_path w bs msg r v :
  fs w !! file_path = Some bs →
  http endpoint (request_for path_name api_key role file_path bs)
  = HttpRequestException msg (Some r) →
  resp_json r = Some v →
  (∀ m, v ≠ JObj m) →
  (upload_submission api_key endpoint role file_path w).1
  = inl (SubmissionError (JStr "API endpoint not found.")
                         (Some (endpoint_hint msg)))
  ∧ line ("   Server response: " +:+ json_dumps v)
    ∈ stdout (upload_submission api_key endpoint role file_path w).2
  ∧ line ("   Server response: " +:+ resp_text r)
    ∈ stdout (upload_submission api_key endpoint role file_path w).2.
Proof.
  intros Hfile Hhttp Hjson Hv.
  rewrite (upload_submission_failed _ _ _ _ _ _ _ _ Hfile Hhttp).
  unfold try_except, bind at 1, response_json. rewrite Hjson. simpl.
  destruct v; try (by destruct (Hv m)); simpl;
    (split; [done|]; split; set_solver).
Qed.

(** An exception of the HTTP stage that is not a [RequestException] is not
    handled by [upload_submission]: it is raised as it is, after the one
    "Uploading" line and the request; [main] exits with status 1. *)
Theorem other_exception_propagates a w bs msg :
  fs w !! file a = Some bs →
  http (endpoint a) (request_for path_name (api_key a) (role a) (file a) bs)
  = HttpOtherError msg →
  upload_submission (api_key a) (endpoint a) (role a) (file a) w
  = (inl (OtherError msg),
     posted (endpoint a)
       (request_for path_name (api_key a) (role a) (file a) bs)
       (emitted (line ("📤 Uploading " +:+ path_name (file a) +:+ " ("
                       +:+ pretty (List.length bs) +:+ " bytes)..."))
          w))
  ∧ (run_main a w).1 = 1%Z
  ∧ line ("  Error: " +:+ msg) ∈ stdout (run_main a w).2.
Proof.
  intros Hfile Hhttp.
  assert (∀ w1, fs w1 !! file a = Some bs →
            upload_submission (api_key a) (endpoint a) (role a) (file a) w1
            = (inl (OtherError msg),
               posted (endpoint a)
                 (request_for path_name (api_key a) (role a) (file a) bs)
                 (emitted (line ("📤 Uploading " +:+ path_name (file a) +:+ " ("
                                 +:+ pretty (List.length bs) +:+ " bytes)..."))
                    w1))) as Hup.
  { intros w1 Hw1.
    unfold Uploader.upload_submission, bind at 1, read_bytes. rewrite Hw1.
    cbv zeta. unfold bind at 1, print at 1, emit at 1.
    unfold try_except at 1, requests_post.
    fold (request_for path_name (api_key a) (role a) (file a) bs).
    by rewrite Hhttp. }
  split; [by apply Hup|].
  eapply (upload_failure_exits_one a w (OtherError msg)); [by eauto| |done].
  apply Hup. by rewrite preamble_fs.
Qed.

(** Whatever [Exception] the [try] block raises, [main] prints it as the
    error and exits with status 1. *)
Lemma try_failure_exits_one a w e w2 :
  is_Some (fs w !! file a) →
  main_try a (preamble str_upper path_str path_suffix a w) = (inl e, w2) →
  is_exception e →
  (run_main a w).1 = 1%Z
  ∧ line ("  Error: " +:+ exn_str py_repr e) ∈ stdout (run_main a w).2.
Proof.
  intros Hfile Htry He.
  unfold Uploader.run_main. rewrite main_found by done.
  unfold try_except_Exception. erewrite try_raises; [|exact Htry].
  pose proof (main_except_spec (λ _, True) stable_True e w2 Logic.I) as Hexc.
  unfold spec in Hexc. revert Hexc.
  destruct e; try done;
    match goal with
    | |- context [main_except ?e w2] => set (res := main_except e w2)
    end;
    (destruct res as [[e'|[]] w3]; [|done]; intros (-> & _ & Hline);
     split; [done|exact Hline]).
Qed.

(** *** Responses that are accepted but cannot be read *)

(** A 2xx response whose JSON is [null], a boolean or a number has no
    ["body"] to look for: the membership test raises and the run exits with
    status 1, printing that error. *)
Theorem scalar_response_exits_one a w bs v :
  fs w !! file a = Some bs →
  http (endpoint a) (request_for path_name (api_key a) (role a) (file a) bs)
  = HttpJson v →
  match v with
  | JNull | JBool _ | JInt _ | JFloat _ => True
  | _ => False
  end →
  (run_main a w).1 = 1%Z
  ∧ line ("  Error: " +:+ error_text "in" v) ∈ stdout (run_main a w).2.
Proof.
  intros Hfile Hhttp Hv.
  assert (∃ w2, main_try a (preamble str_upper path_str path_suffix a w)
                = (inl (OtherError (error_text "in" v)), w2)) as [w2 Htry].
  { unfold Uploader.main_try.
    erewrite bind_returns;
      [|apply upload_submission_returns; [|done]; by rewrite preamble_fs].
    erewrite bind_returns; [|reflexivity].
    erewrite bind_raises; [by eexists|].
    by destruct v. }
  apply (try_failure_exits_one a w (OtherError (error_text "in" v)) w2);
    by eauto.
Qed.

(** A 2xx response that is a JSON string which does not itself decode as
    JSON makes [json.loads] raise: the run exits with status 1 and prints
    the decoder's message. *)
Theorem undecodable_string_response_exits_one a w bs s msg :
  fs w !! file a = Some bs →
  http (endpoint a) (request_for path_name (api_key a) (role a) (file a) bs)
  = HttpJson (JStr s) →
  json_loads s = inl msg →
  (run_main a w).1 = 1%Z
  ∧ line ("  Error: " +:+ msg) ∈ stdout (run_main a w).2.
Proof.
  intros Hfile Hhttp Hs.
  assert (∃ w2, main_try a (preamble str_upper path_str path_suffix a w)
                = (inl (OtherError msg), w2)) as [w2 Htry].
  { unfold Uploader.main_try.
    erewrite bind_returns;
      [|apply upload_submission_returns; [|done]; by rewrite preamble_fs].
    erewrite bind_returns; [|reflexivity].
    erewrite bind_raises; [by eexists|].
    unfold Uploader.normalize, bind, loads. by rewrite Hs. }
  apply (try_failure_exits_one a w (OtherError msg) w2); by eauto.
Qed.

(** *** Runs that do not look into the logical body *)

(** Without [--print-info] and with neither CI variable set (or set to the
    empty text) nothing reads the logical body: once the response is
    normalised the run exits with status 0 whatever the body is, having
    printed the "Uploading" line, sent the request and written the result
    file, and nothing more. *)
Theorem quiet_success_ignores_body a w bs v body :
  fs w !! file a = Some bs →
  http (endpoint a) (request_for path_name (api_key a) (role a) (file a) bs)
  = HttpJson v →
  (∀ w', normalize v w' = (inr body, w')) →
  print_info a = false →
  opt_truthy (getenv "GITHUB_OUTPUT") = false →
  opt_truthy (getenv "GITHUB_STEP_SUMMARY") = false →
  run_main a w
  = (0%Z,
     written result_file (json_dumps v)
       (posted (endpoint a)
          (request_for path_name (api_key a) (role a) (file a) bs)
          (emitted (line ("📤 Uploading " +:+ path_name (file a) +:+ " ("
                          +:+ pretty (List.length bs) +:+ " bytes)..."))
             (preamble str_upper path_str path_suffix a w)))).
Proof.
  intros Hfile Hhttp Hnorm Hinfo Hout Hsum.
  unfold Uploader.run_main. rewrite main_found by done.
  unfold try_except_Exception, try_except, Uploader.main_try.
  erewrite bind_returns;
    [|apply upload_submission_returns; [|done]; by rewrite preamble_fs].
  erewrite bind_returns; [|reflexivity].
  erewrite bind_returns; [|apply Hnorm].
  by rewrite Hinfo, Hout, Hsum.
Qed.

(** *** The file listing *)

Lemma for_each_append_eval {A} (l : list A) (p : string) (g : A → string) w :
  for_each l (λ x, append_text p (g x)) w
  = (inr () : exn + (), fold_left (λ w' x, appended p (g x) w') l w).
Proof.
  revert w. induction l as [|x l IH]; intros w; [done|].
  simpl. unfold bind at 1, append_text at 1. by rewrite IH.
Qed.

Lemma write_file_list_eval a sum w :
  (opt_truthy (file_list a) = true →
   ∀ bs, fs w !! default "" (file_list a) = Some bs →
         ∃ text, decode_text bs = inr text) →
  write_file_list a sum w = (inr (), with_listing a sum w).
Proof.
  intros Hread.
  unfold Uploader.write_file_list, Uploader.with_listing,
    Uploader.listed_files, listing_prefix.
  unfold bind at 1. destruct (opt_truthy (file_list a)); [|done].
  unfold path_exists.
  destruct (fs w !! default "" (file_list a)) as [bs|] eqn:Hfl.
  2: { by rewrite bool_decide_false by (by intros [? ?]). }
  rewrite bool_decide_true by done. unfold when at 1.
  unfold bind at 1, read_text, bind at 1, read_bytes. rewrite Hfl.
  destruct (Hread eq_refl bs eq_refl) as [text ->].
  cbv beta iota zeta delta [ret].
  destruct (List.filter str_truthy _) as [|file files] eqn:Hfiles.
  - by rewrite bool_decide_false by (by intros []).
  - rewrite bool_decide_true by done. unfold when.
    unfold bind at 1, append_text at 1.
    unfold bind at 1, append_text at 1.
    unfold bind at 1. rewrite for_each_append_eval. reflexivity.
Qed.

(** A file list that does not decode makes the listing raise before it
    appends anything. *)
Lemma write_file_list_raises a sum w msg :
  list_undecodable a msg w →
  write_file_list a sum w = (inl (OtherError msg), w).
Proof.
  intros (Hlist & bs & Hbs & Hdec).
  unfold Uploader.write_file_list. unfold bind at 1. rewrite Hlist.
  unfold path_exists. rewrite Hbs, bool_decide_true by done.
  unfold when at 1. unfold bind at 1, read_text, bind at 1, read_bytes.
  by rewrite Hbs, Hdec.
Qed.

(** Nothing is listed, and the summary is left as it is, when
    [--file-list] is absent or empty, names a file that does not exist, or
    names a file whose text has only blank lines. *)
Theorem nothing_to_list_leaves_summary a sum w :
  opt_truthy (file_list a) = false
  ∨ fs w !! default "" (file_list a) = None
  ∨ (∃ bs text,
       fs w !! default "" (file_list a) = Some bs
       ∧ decode_text bs = inr text
       ∧ Forall (λ l, l = "")
                (split_lines (str_strip (universal_newlines text)))) →
  write_file_list a sum w = (inr (), w).
Proof.
  intros Hcase. rewrite write_file_list_eval.
  - f_equal. unfold Uploader.with_listing, Uploader.listed_files.
    destruct Hcase as [->|[Hnone|(bs & text & Hbs & Hdec & Hblank)]];
      [done| |].
    + rewrite Hnone. by destruct (opt_truthy _).
    + rewrite Hbs, Hdec. destruct (opt_truthy _); [|done].
      replace (List.filter str_truthy _) with (@nil string); [done|].
      symmetry. induction Hblank as [|l ls -> _ IH]; [done|]. simpl. exact IH.
  - intros Hlist bs Hbs.
    destruct Hcase as [Hno|[Hnone|(bs' & text & Hbs' & Hdec & _)]].
    + by rewrite Hno in Hlist.
    + by rewrite Hnone in Hbs.
    + rewrite Hbs' in Hbs. injection Hbs as <-. by exists text.
Qed.

Lemma wrote_fold_appended {A} p s q (g : A → string) l w0 w :
  wrote p s w0 w →
  wrote p s w0 (fold_left (λ w' x, appended q (g x) w') l w).
Proof.
  revert w. induction l as [|x l IH]; intros w Hw; [done|].
  simpl. by apply IH, wrote_appended.
Qed.

Lemma wrote_fold_here {A} p (g : A → string) l x w0 w :
  extends p w0 w →
  x ∈ l →
  wrote p (g x) w0 (fold_left (λ w' x, appended p (g x) w') l w).
Proof.
  revert w. induction l as [|y l IH]; intros w Hw Hx.
  { by apply elem_of_nil in Hx. }
  apply elem_of_cons in Hx as [->|Hx]; simpl.
  - by apply wrote_fold_appended, wrote_here.
  - apply IH; [|done]. by apply extends_appended.
Qed.

(** Every non-empty line of the text of the file list is appended to
    the summary as one line, behind the submission path without its
    trailing slashes and one slash. The text is what [read_text] gives:
    the decoded bytes with every carriage return, alone or before a line
    feed, turned into the end of a line. *)
Theorem listed_file_is_written a sum w bs text file :
  opt_truthy (file_list a) = true →
  fs w !! default "" (file_list a) = Some bs →
  decode_text bs = inr text →
  file ∈ List.filter str_truthy
           (split_lines (str_strip (universal_newlines text))) →
  wrote sum (listing_prefix a +:+ "/" +:+ file +:+ nl) w
        (write_file_list a sum w).2.
Proof.
  intros Hlist Hbs Hdec Hfile.
  assert (listed_files a w
          = List.filter str_truthy
              (split_lines (str_strip (universal_newlines text)))) as Hl.
  { unfold Uploader.listed_files. by rewrite Hlist, Hbs, Hdec. }
  rewrite write_file_list_eval.
  2: { intros _ bs' Hbs'. rewrite Hbs in Hbs'. injection Hbs' as <-.
       by exists text. }
  simpl. unfold Uploader.with_listing. rewrite Hl.
  destruct (List.filter str_truthy _) as [|f fs'] eqn:Hfiles.
  { by apply elem_of_nil in Hfile. }
  apply wrote_appended.
  apply (wrote_fold_here sum
           (λ file, listing_prefix a +:+ "/" +:+ file +:+ nl)); [|done].
  eauto with world.
Qed.

(** *** The printed details *)

Lemma stable_printed (s : string) : stable (λ w, s ∈ stdout w).
Proof.
  intros w Hw. repeat split; try done.
  intros t. by apply printed_emitted.
Qed.

Lemma print_details_prints m w :
  role_ok m →
  spec (print_details py_repr str_upper str_capitalize error_text (JObj m)) w
    (λ _ w',
       line ("  Team: "
             +:+ py_str py_repr (default (JStr "Unknown") (m !! "team_name")))
       ∈ stdout w'
       ∧ line ("  Total Submissions: "
               +:+ py_str py_repr
                     (default (JStr "Unknown") (m !! "submission_number")))
         ∈ stdout w')
    (λ _ _, False).
Proof.
  intros Hrole. unfold role_ok in Hrole. unfold print_details.
  destruct (m !! "role") as [[]|] eqn:Hr; try done;
    repeat step; (split; eauto 60 with world).
Qed.

(** *** What a run leaves alone *)

Section Frame.
(** A property of the world kept by printing and by appending to the files
    [touch] accepts, to which the lemmas add, where they need it, being
    kept by replacing the result file and by sending a request. *)
Variable I : world → Prop.
Variable touch : string → Prop.
Hypothesis HIe : ∀ s w, I w → I (emitted s w).
Hypothesis HIa : ∀ p s w, touch p → I w → I (appended p s w).
Hypothesis HIw : ∀ s w, I w → I (written result_file s w).
Hypothesis HIp : ∀ url pl w, I w → I (posted url pl w).
Hypothesis Hout :
  opt_truthy (getenv "GITHUB_OUTPUT") = true →
  touch (default "" (getenv "GITHUB_OUTPUT")).
Hypothesis Hsum :
  opt_truthy (getenv "GITHUB_STEP_SUMMARY") = true →
  touch (default "" (getenv "GITHUB_STEP_SUMMARY")).

Ltac held :=
  cbv beta;
  repeat first [ assumption | apply HIe | apply HIa; [assumption|] ].

Lemma frame_print_details body w :
  I w →
  spec (print_details py_repr str_upper str_capitalize error_text body) w
    (λ _, I) (λ _, I).
Proof.
  intros Hw. unfold print_details.
  destruct body as [| | | | | |m]; try (repeat step; held).
  destruct (m !! "role") as [[]|] eqn:Hrole; repeat step; held.
Qed.

Lemma frame_write_outputs out body w :
  touch out → I w →
  spec (write_outputs py_repr error_text out body) w (λ _, I) (λ _, I).
Proof.
  intros Ht Hw. unfold write_outputs.
  destruct body as [| | | | | |m]; repeat step; held.
Qed.

Lemma frame_listing a sum w : touch sum → I w → I (with_listing a sum w).
Proof.
  intros Ht Hw. unfold Uploader.with_listing.
  destruct (listed_files a w) as [|file files]; [done|].
  apply HIa; [done|].
  assert (∀ (l : list string) w', I w' →
            I (fold_left
                 (λ w'' f, appended sum (listing_prefix a +:+ "/" +:+ f +:+ nl) w'')
                 l w')) as Hfold.
  { induction l as [|x l IH]; intros w' Hw'; [done|].
    simpl. apply IH. by apply HIa. }
  apply Hfold. held.
Qed.

Lemma frame_write_file_list a sum w :
  touch sum → I w → spec (write_file_list a sum) w (λ _, I) (λ _, I).
Proof.
  intros Ht Hw. unfold spec.
  destruct (opt_truthy (file_list a)) eqn:Hlist.
  2: { rewrite write_file_list_eval by (by rewrite Hlist).
       by apply frame_listing. }
  destruct (fs w !! default "" (file_list a)) as [bs|] eqn:Hbs.
  2: { rewrite write_file_list_eval by (intros _ bs; by rewrite Hbs).
       by apply frame_listing. }
  destruct (decode_text bs) as [msg|text] eqn:Hdec.
  - rewrite (write_file_list_raises a sum w msg); [done|].
    split; [done|]. by exists bs.
  - rewrite write_file_list_eval; [by apply frame_listing|].
    intros _ bs' Hbs'. rewrite Hbs in Hbs'. injection Hbs' as <-.
    by exists text.
Qed.

Lemma frame_write_summary a sum body w :
  touch sum → I w →
  spec (write_summary a sum body) w
    (λ _, I) (λ _, I).
Proof.
  intros Ht Hw. unfold Uploader.write_summary.
  destruct body as [| | | | | |m]; try (repeat step; held).
  destruct (m !! "role") as [[]|] eqn:Hrole;
    repeat step;
    first [ apply frame_write_file_list; [done|held] | held ].
Qed.

(** The summary of a well-formed body ends with the file listing, which
    it reaches having appended to the summary only. *)
Lemma write_summary_listing a sum m w (Q : () → world → Prop)
    (R : exn → world → Prop) :
  role_ok m → touch sum → I w →
  (∀ w', I w' → spec (write_file_list a sum) w' Q R) →
  spec (write_summary a sum (JObj m)) w Q R.
Proof.
  intros Hrole Ht Hw Hlisting. unfold Uploader.write_summary.
  unfold role_ok in Hrole.
  destruct (m !! "role") as [[]|] eqn:Hr; try done;
    repeat step; apply Hlisting; held.
Qed.

Lemma frame_main_except e w :
  I w → spec (main_except e) w (λ _, I) (λ _, I).
Proof.
  intros Hw. unfold Uploader.main_except.
  destruct (opt_truthy (getenv "GITHUB_OUTPUT")) eqn:Ho;
    destruct (opt_truthy (getenv "GITHUB_STEP_SUMMARY")) eqn:Hs;
    cbv zeta; repeat step;
    try (destruct (structured e) as [[title details]|]; repeat step);
    try specialize (Hout eq_refl); try specialize (Hsum eq_refl); held.
Qed.

Lemma frame_report a body w :
  I w → spec (report a body) w (λ _ : (), I) (λ _, I).
Proof.
  intros Hw. apply spec_bind.
  eapply spec_mono with (Q := λ _, I) (R := λ _, I); [|intros [] w1 Hw1|done].
  { destruct (print_info a); [by apply frame_print_details|done]. }
  apply spec_bind.
  eapply spec_mono with (Q := λ _, I) (R := λ _, I); [|intros [] w2 Hw2|done].
  { destruct (opt_truthy (getenv "GITHUB_OUTPUT")) eqn:Ho; [|done].
    by apply frame_write_outputs; [apply Hout|]. }
  apply spec_bind.
  eapply spec_mono with (Q := λ _, I) (R := λ _, I); [|intros [] w3 Hw3|done].
  { destruct (opt_truthy (getenv "GITHUB_STEP_SUMMARY")) eqn:Hs; [|done].
    by apply frame_write_summary; [apply Hsum|]. }
  done.
Qed.

(** The run from the normalisation of the response on. *)
Lemma frame_after_write a v w :
  I w →
  spec (let* body := normalize v in report a body) w (λ _ : (), I) (λ _, I).
Proof.
  intros Hw. apply spec_bind.
  eapply spec_mono; [by apply (normalize_spec I)| |by intros e w' [? _]].
  intros body w1 Hw1. by apply frame_report.
Qed.

(** The run from the writing of the result file on. *)
Lemma frame_after_upload a v w :
  I w →
  spec (write_text result_file (json_dumps v) >>
        let* body := normalize v in report a body) w (λ _ : (), I) (λ _, I).
Proof.
  intros Hw. apply spec_bind, spec_write. apply frame_after_write.
  by apply HIw.
Qed.

Ltac held' :=
  cbv beta;
  repeat first [ assumption | apply HIe | apply HIp ].

Lemma frame_upload api_key endpoint role file_path w :
  I w →
  spec (upload_submission api_key endpoint role file_path) w
    (λ _, I) (λ _, I).
Proof.
  intros Hw. unfold Uploader.upload_submission.
  apply spec_bind, spec_read_bytes; [intros bs _|done].
  cbv zeta. repeat step. apply spec_try, spec_requests_post.
  - intros v _. held'.
  - intros msg [r|] _; repeat step; [|held'].
    apply spec_try. unfold response_json.
    destruct (resp_json r) as [v|]; repeat step; [|held'].
    destruct v; repeat step; held'.
  - intros msg _. repeat step. held'.
Qed.

(** The [try] statement of [main] with its handler. *)
Lemma frame_try (m : M exn ()) w :
  spec m w (λ _, I) (λ _, I) →
  I (try_except_Exception m main_except w).2.
Proof.
  intros Hm. unfold spec in Hm. unfold try_except_Exception, try_except.
  destruct (m w) as [[e|[]] w1]; [|done].
  assert (∀ e', I (main_except e' w1).2) as Hexc.
  { intros e'. pose proof (frame_main_except e' w1 Hm) as Hexc.
    unfold spec in Hexc. set (res := main_except e' w1) in *.
    by destruct res as [[?|[]] ?]. }
  destruct e; try apply Hexc. done.
Qed.

Lemma frame_main_try a w :
  I w → spec (main_try a) w (λ _, I) (λ _, I).
Proof.
  intros Hw. unfold Uploader.main_try. apply spec_bind.
  eapply spec_mono; [by apply frame_upload| |done].
  intros v w1 Hw1. by apply frame_after_upload.
Qed.

Lemma frame_main a w : I w → I (run_main a w).2.
Proof.
  intros Hw. unfold Uploader.run_main.
  destruct (fs w !! file a) as [bs|] eqn:Hfile.
  - rewrite main_found by done.
    assert (I (preamble str_upper path_str path_suffix a w)) as Hw1.
    { unfold preamble. destruct (negb _); held. }
    pose proof (frame_try (main_try a) _ (frame_main_try a _ Hw1)) as Htry.
    by destruct (try_except_Exception _ _ _) as [r w2].
  - rewrite main_missing by done. simpl. by apply HIe.
Qed.
(** The run from the status lines on, for a well-formed body: the two
    files are written, the summary ends with the file listing, and the
    process exits with status 0 unless the listing raises. *)
Lemma outputs_listing a m w (R : exn → world → Prop) :
  role_ok m → I w →
  (opt_truthy (getenv "GITHUB_STEP_SUMMARY") = false →
   ∀ w', I w' → R (SystemExit 0) w') →
  (opt_truthy (getenv "GITHUB_STEP_SUMMARY") = true →
   ∀ w', I w' →
     spec (write_file_list a (default "" (getenv "GITHUB_STEP_SUMMARY"))) w'
       (λ _, R (SystemExit 0)) R) →
  spec (when (opt_truthy (getenv "GITHUB_OUTPUT"))
          (write_outputs py_repr error_text
             (default "" (getenv "GITHUB_OUTPUT")) (JObj m)) >>
        when (opt_truthy (getenv "GITHUB_STEP_SUMMARY"))
          (write_summary a (default "" (getenv "GITHUB_STEP_SUMMARY"))
             (JObj m)) >>
        sys_exit 0) w (λ (_ : ()) _, False) R.
Proof.
  intros Hrole Hw Hexit Hlisting. apply spec_bind.
  eapply spec_mono with (Q := λ _, I) (R := λ _ _, False).
  { destruct (opt_truthy (getenv "GITHUB_OUTPUT")) eqn:Ho; [|done].
    eapply spec_mono;
      [apply spec_and;
       [by apply (write_outputs_spec (λ _, True) stable_True)
       |by apply frame_write_outputs; [apply Hout|]]
      |by intros [] w' [_ ?]|].
    by intros e w' [(_ & _ & []) _]. }
  2: done.
  intros [] w1 Hw1. apply spec_bind.
  destruct (opt_truthy (getenv "GITHUB_STEP_SUMMARY")) eqn:Hs.
  - unfold when at 1.
    apply write_summary_listing; [done|by apply Hsum|done|].
    intros w2 Hw2.
    eapply spec_mono; [by apply Hlisting| |done].
    intros [] w3 Hw3. by apply spec_raise.
  - apply spec_ret, spec_raise. by apply Hexit.
Qed.

(** The same from the details on. *)
Lemma report_listing a m w (R : exn → world → Prop) :
  role_ok m → I w →
  (opt_truthy (getenv "GITHUB_STEP_SUMMARY") = false →
   ∀ w', I w' → R (SystemExit 0) w') →
  (opt_truthy (getenv "GITHUB_STEP_SUMMARY") = true →
   ∀ w', I w' →
     spec (write_file_list a (default "" (getenv "GITHUB_STEP_SUMMARY"))) w'
       (λ _, R (SystemExit 0)) R) →
  spec (report a (JObj m)) w (λ (_ : ()) _, False) R.
Proof.
  intros Hrole Hw Hexit Hlisting. apply spec_bind.
  eapply spec_mono with (Q := λ _, I) (R := λ _ _, False).
  { destruct (print_info a); [|done].
    eapply spec_mono;
      [apply spec_and;
       [by apply (print_details_spec (λ _, True) stable_True)
       |by apply frame_print_details]
      |by intros [] w' [_ ?]|].
    by intros e w' [(_ & _ & []) _]. }
  2: done.
  intros [] w1 Hw1. by apply outputs_listing.
Qed.

(** A file list that is left alone and can be read is listed without an
    error. *)
Lemma frame_listing_readable a sum w (R : exn → world → Prop) :
  touch sum → I w →
  (opt_truthy (file_list a) = true →
   ∀ bs, fs w !! default "" (file_list a) = Some bs →
         ∃ text, decode_text bs = inr text) →
  spec (write_file_list a sum) w (λ _, I) R.
Proof.
  intros Ht Hw Hread. unfold spec.
  rewrite write_file_list_eval by done. by apply frame_listing.
Qed.

(** The [try] block of [main] after a 2xx response with a well-formed
    body. *)
Lemma main_try_listing a w bs v m (R : exn → world → Prop) :
  fs w !! file a = Some bs →
  http (endpoint a) (request_for path_name (api_key a) (role a) (file a) bs)
  = HttpJson v →
  (∀ w', normalize v w' = (inr (JObj m), w')) →
  role_ok m → I w →
  (opt_truthy (getenv "GITHUB_STEP_SUMMARY") = false →
   ∀ w', I w' → R (SystemExit 0) w') →
  (opt_truthy (getenv "GITHUB_STEP_SUMMARY") = true →
   ∀ w', I w' →
     spec (write_file_list a (default "" (getenv "GITHUB_STEP_SUMMARY"))) w'
       (λ _, R (SystemExit 0)) R) →
  spec (main_try a) w (λ _ _, False) R.
Proof.
  intros Hfile Hhttp Hnorm Hrole Hw Hexit Hlisting.
  unfold Uploader.main_try, spec.
  erewrite bind_returns; [|by apply upload_submission_returns].
  erewrite bind_returns; [|reflexivity].
  erewrite bind_returns; [|apply Hnorm].
  apply (report_listing a m); [done| |done|done].
  apply HIw, HIp, HIe, Hw.
Qed.

End Frame.

(** *** Well-formed bodies *)

(** After a 2xx response with a well-formed body, and with a file list
    that can be read, the [try] block ends in [sys.exit(0)]. *)
Lemma main_try_exits_zero a w bs v m :
  fs w !! file a = Some bs →
  http (endpoint a) (request_for path_name (api_key a) (role a) (file a) bs)
  = HttpJson v →
  (∀ w', normalize v w' = (inr (JObj m), w')) →
  role_ok m →
  listing_readable a w →
  spec (main_try a) w (λ _ _, False) (λ e _, e = SystemExit 0).
Proof.
  intros Hfile Hhttp Hnorm Hrole Hread.
  destruct (opt_truthy (getenv "GITHUB_STEP_SUMMARY")) eqn:Hs.
  2: { apply (main_try_listing (λ _, True) (λ _, True)) with bs v m;
         try done. by rewrite Hs. }
  destruct (opt_truthy (file_list a)) eqn:Hl.
  2: { apply (main_try_listing (λ _, True) (λ _, True)) with bs v m;
         try done.
       intros _ w' _. unfold spec.
       rewrite write_file_list_eval by (by rewrite Hl). done. }
  destruct (Hread Hs Hl) as ((Hres & Hout & Hsum) & Hdec).
  set (list := default "" (file_list a)) in *.
  set (I := λ w', fs w' !! list = fs w !! list).
  set (touch := λ q : string, q ≠ list).
  assert (∀ s w', I w' → I (emitted s w')) as HIe by done.
  assert (∀ p s w', touch p → I w' → I (appended p s w')) as HIa.
  { intros p s w' Hp Hw'. unfold I. simpl. by rewrite lookup_insert_ne. }
  assert (∀ s w', I w' → I (written result_file s w')) as HIw.
  { intros s w' Hw'. unfold I. simpl. by rewrite lookup_insert_ne. }
  assert (∀ url pl w', I w' → I (posted url pl w')) as HIp by done.
  assert (opt_truthy (getenv "GITHUB_OUTPUT") = true →
          touch (default "" (getenv "GITHUB_OUTPUT"))) as Hout' by done.
  assert (opt_truthy (getenv "GITHUB_STEP_SUMMARY") = true →
          touch (default "" (getenv "GITHUB_STEP_SUMMARY"))) as Hsum' by done.
  apply (main_try_listing I touch) with bs v m; try done.
  intros _ w' Hw'.
  eapply spec_mono with (Q := λ _, I) (R := λ _ _, False); [|done|done].
  apply (frame_listing_readable I touch); try done; try (by apply Hsum').
  intros _ bs' Hbs'. apply Hdec. unfold I in Hw'. rewrite <- Hw'. exact Hbs'.
Qed.


(** A file list that does not decode fails the run after the upload has
    succeeded: with the summary to be written, a well-formed body and the
    list apart from the files the run writes, reading the list raises, the
    run prints the decoder's message as its error and exits with status
    1. *)
Theorem undecodable_file_list_exits_one a w bs v m msg :
  fs w !! file a = Some bs →
  http (endpoint a) (request_for path_name (api_key a) (role a) (file a) bs)
  = HttpJson v →
  (∀ w', normalize v w' = (inr (JObj m), w')) →
  role_ok m →
  opt_truthy (getenv "GITHUB_STEP_SUMMARY") = true →
  list_apart a →
  list_undecodable a msg w →
  (run_main a w).1 = 1%Z
  ∧ line ("  Error: " +:+ msg) ∈ stdout (run_main a w).2.
Proof.
  intros Hfile Hhttp Hnorm Hrole Hs (Hres & Hout & Hsum) (Hl & lbs & Hlbs & Hdec).
  set (w1 := preamble str_upper path_str path_suffix a w).
  set (list := default "" (file_list a)) in *.
  set (I := λ w', fs w' !! list = fs w !! list).
  set (touch := λ q : string, q ≠ list).
  assert (∀ s w', I w' → I (emitted s w')) as HIe by done.
  assert (∀ p s w', touch p → I w' → I (appended p s w')) as HIa.
  { intros p s w' Hp Hw'. unfold I. simpl. by rewrite lookup_insert_ne. }
  assert (∀ s w', I w' → I (written result_file s w')) as HIw.
  { intros s w' Hw'. unfold I. simpl. by rewrite lookup_insert_ne. }
  assert (∀ url pl w', I w' → I (posted url pl w')) as HIp by done.
  assert (opt_truthy (getenv "GITHUB_OUTPUT") = true →
          touch (default "" (getenv "GITHUB_OUTPUT"))) as Hout' by done.
  assert (opt_truthy (getenv "GITHUB_STEP_SUMMARY") = true →
          touch (default "" (getenv "GITHUB_STEP_SUMMARY"))) as Hsum' by done.
  assert (spec (main_try a) w1 (λ _ _, False) (λ e _, e = OtherError msg))
    as Htry.
  { apply (main_try_listing I touch) with bs v m; try done.
    - unfold w1. by rewrite preamble_fs.
    - unfold I, w1. by rewrite preamble_fs.
    - by rewrite Hs.
    - intros _ w' Hw'. unfold spec.
      rewrite (write_file_list_raises a _ w' msg); [done|].
      split; [done|]. exists lbs. split; [|done].
      exact (eq_trans Hw' Hlbs). }
  unfold spec in Htry.
  destruct (main_try a w1) as [[e|[]] w2] eqn:Hrun; [|done]. subst e.
  by apply (try_failure_exits_one a w (OtherError msg) w2).
Qed.



(** A run changes no file but the result file and the files the two CI
    variables name: any other path, the archive included, holds afterwards
    exactly what it held before, on every outcome. A variable that is unset
    or empty names no file. *)
Theorem other_files_are_untouched a w p :
  p ≠ result_file →
  (opt_truthy (getenv "GITHUB_OUTPUT") = true →
   default "" (getenv "GITHUB_OUTPUT") ≠ p) →
  (opt_truthy (getenv "GITHUB_STEP_SUMMARY") = true →
   default "" (getenv "GITHUB_STEP_SUMMARY") ≠ p) →
  fs (run_main a w).2 !! p = fs w !! p.
Proof.
  intros Hp Hout Hsum.
  apply (frame_main (λ w', fs w' !! p = fs w !! p) (λ q, q ≠ p)); try done.
  - intros q s w' Hq Hw'. simpl. by rewrite lookup_insert_ne.
  - intros s w' Hw'. simpl. by rewrite lookup_insert_ne.
Qed.

(** For an archive that exists, a run sends exactly one request, the one
    that carries the archive, whether the upload succeeds or fails: there
    is no second attempt. *)
Theorem one_request_per_run a w bs :
  fs w !! file a = Some bs →
  posts (run_main a w).2
  = posts w ++ [(endpoint a,
                 request_for path_name (api_key a) (role a) (file a) bs)].
Proof.
  intros Hfile. unfold Uploader.run_main. rewrite main_found by done.
  set (w1 := preamble str_upper path_str path_suffix a w).
  set (req := (endpoint a,
               request_for path_name (api_key a) (role a) (file a) bs)).
  set (I := λ w', posts w' = posts w ++ [req]).
  assert (I (try_except_Exception (main_try a) main_except w1).2) as Htry.
  { apply (frame_try I (λ _, True)); try done.
    unfold Uploader.main_try. apply spec_bind. unfold spec at 1.
    pose proof (upload_submission_posts (api_key a) (endpoint a) (role a)
                  (file a) w1 bs) as Hposts.
    assert (fs w1 !! file a = Some bs) as Hw1
      by (unfold w1; by rewrite preamble_fs).
    specialize (Hposts Hw1).
    destruct (upload_submission _ _ _ _ w1) as [[e|v] w2]; simpl in Hposts.
    - unfold I. rewrite Hposts. unfold w1, preamble. by destruct (negb _).
    - apply (frame_after_upload I (λ _, True)); try done.
      unfold I. rewrite Hposts. unfold w1, preamble. by destruct (negb _). }
  by destruct (try_except_Exception _ _ _) as [r w3].
Qed.

(** After a 2xx response the result file holds the raw response as
    [json.dumps] writes it, whatever happens afterwards (also when the
    response cannot be normalised or reported and the run exits with
    status 1), provided neither CI variable names the result file. *)
Theorem result_file_holds_raw_response a w bs v :
  fs w !! file a = Some bs →
  http (endpoint a) (request_for path_name (api_key a) (role a) (file a) bs)
  = HttpJson v →
  (opt_truthy (getenv "GITHUB_OUTPUT") = true →
   default "" (getenv "GITHUB_OUTPUT") ≠ result_file) →
  (opt_truthy (getenv "GITHUB_STEP_SUMMARY") = true →
   default "" (getenv "GITHUB_STEP_SUMMARY") ≠ result_file) →
  fs (run_main a w).2 !! result_file
  = Some (list_byte_of_string (json_dumps v)).
Proof.
  intros Hfile Hhttp Hout Hsum.
  unfold Uploader.run_main. rewrite main_found by done.
  set (w1 := preamble str_upper path_str path_suffix a w).
  set (I := λ w', fs w' !! result_file
                  = Some (list_byte_of_string (json_dumps v))).
  assert (I (try_except_Exception (main_try a) main_except w1).2) as Htry.
  { apply (frame_try I (λ q, q ≠ result_file)); try done.
    { intros q s w' Hq Hw'. unfold I. simpl. by rewrite lookup_insert_ne. }
    unfold Uploader.main_try, spec.
    erewrite bind_returns;
      [|apply upload_submission_returns; [|done];
        unfold w1; by rewrite preamble_fs].
    erewrite bind_returns; [|reflexivity].
    apply (frame_after_write I (λ q, q ≠ result_file)); try done.
    { intros q s w' Hq Hw'. unfold I. simpl. by rewrite lookup_insert_ne. }
    unfold I. simpl. by rewrite lookup_insert_eq. }
  by destruct (try_except_Exception _ _ _) as [r w3].
Qed.

(** The [except] clause explains the failure in both files of the CI
    runner and exits with status 1: the output file gets the message line
    with [str(e)]; the summary gets the same text, or, for a
    [SubmissionError] that has details, its title and then the details in
    a code fence. *)
Theorem failure_is_explained e w :
  opt_truthy (getenv "GITHUB_OUTPUT") = true →
  opt_truthy (getenv "GITHUB_STEP_SUMMARY") = true →
  let out := default "" (getenv "GITHUB_OUTPUT") in
  let sum := default "" (getenv "GITHUB_STEP_SUMMARY") in
  ∃ w',
    main_except e w = (inl (SystemExit 1), w')
    ∧ wrote out ("message=Submission failed: " +:+ exn_str py_repr e +:+ nl)
            w w'
    ∧ match structured e with
      | Some (title, details) =>
          wrote sum ("**Error:** " +:+ py_str py_repr title +:+ nl +:+ nl)
                w w'
          ∧ wrote sum ("```" +:+ nl +:+ details +:+ nl +:+ "```" +:+ nl) w w'
      | None => wrote sum ("**Error:** " +:+ exn_str py_repr e +:+ nl) w w'
      end.
Proof.
  intros Hout Hsum out sum.
  assert (spec (main_except e) w (λ _ _, False)
            (λ e' w',
               e' = SystemExit 1
               ∧ wrote out ("message=Submission failed: "
                            +:+ exn_str py_repr e +:+ nl) w w'
               ∧ match structured e with
                 | Some (title, details) =>
                     wrote sum ("**Error:** " +:+ py_str py_repr title
                                +:+ nl +:+ nl) w w'
                     ∧ wrote sum ("```" +:+ nl +:+ details +:+ nl +:+ "```"
                                  +:+ nl) w w'
                 | None =>
                     wrote sum ("**Error:** " +:+ exn_str py_repr e +:+ nl)
                           w w'
                 end)) as Hspec.
  { unfold Uploader.main_except. rewrite Hout, Hsum.
    fold out sum. cbv zeta. repeat step.
    destruct (structured e) as [[title details]|]; repeat step;
      repeat split; eauto 40 with world. }
  unfold spec in Hspec.
  destruct (main_except e w) as [[e'|[]] w']; [|done].
  destruct Hspec as (-> & ? & ?). by exists w'.
Qed.

(** For an archive that exists, the output of a run starts with the
    banner, whatever follows; a file name that does not end in [.zip] puts
    one warning line before the banner and stops nothing. *)
Theorem output_starts_with_banner a w bs :
  fs w !! file a = Some bs →
  (stdout w
   ++ (if String.eqb (path_suffix (file a)) ".zip" then []
       else [line ("⚠️  Warning: File does not have .zip extension: "
                   +:+ path_str (file a))])
   ++ [line bar;
       line ("🚀 Competition Submission Upload (" +:+ str_upper (role a)
             +:+ ")");
       line bar;
       line ""])
  `prefix_of` stdout (run_main a w).2.
Proof.
  intros Hfile. unfold Uploader.run_main. rewrite main_found by done.
  set (w1 := preamble str_upper path_str path_suffix a w).
  set (I := λ w', stdout w1 `prefix_of` stdout w').
  assert (I (try_except_Exception (main_try a) main_except w1).2) as Htry.
  { assert (∀ s w', I w' → I (emitted s w')) as HIe.
    { intros s w' Hw'. unfold I. simpl. by apply prefix_app_r. }
    apply (frame_try I (λ _, True)); try done.
    apply (frame_main_try I (λ _, True)); try done. by unfold I. }
  assert (stdout w1
          = stdout w
            ++ (if String.eqb (path_suffix (file a)) ".zip" then []
                else [line ("⚠️  Warning: File does not have .zip extension: "
                            +:+ path_str (file a))])
            ++ [line bar;
                line ("🚀 Competition Submission Upload ("
                      +:+ str_upper (role a) +:+ ")");
                line bar;
                line ""]) as <-.
  { unfold w1, preamble.
    destruct (String.eqb (path_suffix (file a)) ".zip"); simpl;
      by rewrite <- ?app_assoc. }
  by destruct (try_except_Exception _ _ _) as [r w3].
Qed.

(** When the HTTP stage fails, [upload_submission] raises. *)
Lemma upload_submission_raises api_key endpoint role file_path w bs :
  fs w !! file_path = Some bs →
  (∀ v, http endpoint (request_for path_name api_key role file_path bs)
        ≠ HttpJson v) →
  spec (upload_submission api_key endpoint role file_path) w
    (λ _ _, False) (λ _ w', fs w' = fs w).
Proof.
  intros Hfile Hhttp. unfold Uploader.upload_submission.
  apply spec_bind. unfold spec at 1, read_bytes. rewrite Hfile.
  cbv zeta. repeat step. apply spec_try, spec_requests_post.
  - intros v Hv. by destruct (Hhttp v).
  - intros msg [r|] _; repeat step; [|done].
    apply spec_try. unfold response_json.
    destruct (resp_json r) as [v|]; repeat step; [|done].
    destruct v; by repeat step.
  - intros msg _. by repeat step.
Qed.

(** When the upload fails, the result file is not written: it holds
    afterwards what it held before, or is still missing (provided neither
    CI variable names it). *)
Theorem failed_upload_leaves_result_file a w bs :
  fs w !! file a = Some bs →
  (∀ v, http (endpoint a)
             (request_for path_name (api_key a) (role a) (file a) bs)
        ≠ HttpJson v) →
  (opt_truthy (getenv "GITHUB_OUTPUT") = true →
   default "" (getenv "GITHUB_OUTPUT") ≠ result_file) →
  (opt_truthy (getenv "GITHUB_STEP_SUMMARY") = true →
   default "" (getenv "GITHUB_STEP_SUMMARY") ≠ result_file) →
  fs (run_main a w).2 !! result_file = fs w !! result_file.
Proof.
  intros Hfile Hhttp Hout Hsum.
  unfold Uploader.run_main. rewrite main_found by done.
  set (w1 := preamble str_upper path_str path_suffix a w).
  set (I := λ w', fs w' !! result_file = fs w !! result_file).
  assert (I (try_except_Exception (main_try a) main_except w1).2) as Htry.
  { apply (frame_try I (λ q, q ≠ result_file)); try done.
    { intros q s w' Hq Hw'. unfold I. simpl. by rewrite lookup_insert_ne. }
    unfold Uploader.main_try. apply spec_bind.
    eapply spec_mono;
      [apply (upload_submission_raises _ _ _ _ _ bs); [|done]|done|].
    - unfold w1. by rewrite preamble_fs.
    - intros e w' Hw'. unfold I. rewrite Hw'. unfold w1.
      by rewrite preamble_fs. }
  by destruct (try_except_Exception _ _ _) as [r w3].
Qed.

End Script.

Lemma missing_file_exits_without_result_witness :
  Sample.upload (λ _ _, HttpJson (JObj ∅)) Sample.ci_env Sample.missing_args
                Sample.world0
  = (1%Z, emitted (line "❌ Error: File not found: gone.zip") Sample.world0)
  ∧ fs (Sample.upload (λ _ _, HttpJson (JObj ∅)) Sample.ci_env
          Sample.missing_args Sample.world0).2 = fs Sample.world0
  ∧ posts (Sample.upload (λ _ _, HttpJson (JObj ∅)) Sample.ci_env
             Sample.missing_args Sample.world0).2 = posts Sample.world0.
Proof.
  apply (missing_file_exits_without_result (λ _ _, HttpJson (JObj ∅))
           Sample.ci_env Sample.loads_empty Sample.dumps Sample.repr Sample.upper
           Sample.capitalize id id id (λ _, ".zip") Sample.error_text Sample.decode
           Sample.missing_args Sample.world0).
  reflexivity.
Defined.

(** A server that answers with an HTML page: the detail of the error
    raised is not the raw text of the response. *)
Lemma invalid_json_detail_is_not_response_text :
  ∃ details,
    (Sample.submit Sample.http_not_found Sample.world0).1
    = inl (SubmissionError (JStr "API endpoint not found.") (Some details))
    ∧ details ≠ resp_text Sample.not_found_page.
Proof. eexists. split; [by vm_compute|]. by vm_compute. Qed.

Lemma invalid_json_is_endpoint_not_found_witness :
  (Sample.submit Sample.http_not_found Sample.world0).1
  = inl (SubmissionError
           (JStr "API endpoint not found.")
           (Some ("404 Client Error: Not Found for url: https://example.test/submit"
                  +:+ nl +:+ nl
                  +:+ "Please check the submission_endpoint is correct.")))
  ∧ line ("   Server response: " +:+ resp_text Sample.not_found_page)
    ∈ stdout (Sample.submit Sample.http_not_found Sample.world0).2.
Proof.
  apply (invalid_json_is_endpoint_not_found Sample.http_not_found Sample.dumps
           id Sample.error_text "key" "https://example.test/submit" "attacker"
           "sub.zip" Sample.world0 Sample.archive
           "404 Client Error: Not Found for url: https://example.test/submit"
           Sample.not_found_page); reflexivity.
Defined.

Lemma server_error_is_failure_title_witness :
  (Sample.submit Sample.http_invalid_role Sample.world0).1
  = inl (SubmissionError
           (JStr "invalid role")
           (Some "400 Client Error: Bad Request for url: https://example.test/submit"))
  ∧ (Sample.upload Sample.http_invalid_role Sample.no_env
       (Sample.upload_args false) Sample.world0).1 = 1%Z
  ∧ line ("  Error: " +:+ "invalid role")
    ∈ stdout (Sample.upload Sample.http_invalid_role Sample.no_env
                (Sample.upload_args false) Sample.world0).2.
Proof.
  apply (server_error_is_failure_title Sample.http_invalid_role Sample.no_env
           Sample.loads_empty Sample.dumps Sample.repr Sample.upper Sample.capitalize
           id id id (λ _, ".zip") Sample.error_text Sample.decode (Sample.upload_args false)
           Sample.world0 Sample.archive
           "400 Client Error: Bad Request for url: https://example.test/submit"
           (Response (Some (JObj Sample.invalid_role)) "{...}")
           Sample.invalid_role (JStr "invalid role")); reflexivity.
Defined.

Lemma normalize_shapes_witness :
  normalize Sample.loads_empty Sample.error_text (JStr "{}") Sample.world0
  = unwrap_body Sample.loads_empty Sample.error_text (JObj ∅) Sample.world0
  ∧ normalize Sample.loads_empty Sample.error_text
      (JObj {[ "body" := JStr "{}" ]}) Sample.world0
    = loads Sample.loads_empty "{}" Sample.world0
  ∧ normalize Sample.loads_empty Sample.error_text
      (JObj {[ "body" := JObj ∅ ]}) Sample.world0
    = (inr (JObj ∅), Sample.world0).
Proof.
  apply (normalize_shapes Sample.loads_empty Sample.error_text Sample.world0
           "{}" ∅ {[ "body" := JStr "{}" ]} "{}" {[ "body" := JObj ∅ ]} ∅);
    reflexivity.
Defined.





Lemma payload_file_round_trip_witness :
  ∃ pl,
    posts (Sample.submit (λ _ _, HttpJson (JObj ∅)) Sample.world0).2
    = posts Sample.world0 ++ [("https://example.test/submit", pl)]
    ∧ p_file pl = Base64.b64encode Sample.archive
    ∧ Base64.b64decode (p_file pl) = Some Sample.archive.
Proof.
  apply (payload_file_round_trip (λ _ _, HttpJson (JObj ∅)) Sample.dumps id
           Sample.error_text "key" "https://example.test/submit" "attacker"
           "sub.zip" Sample.world0 Sample.archive).
  reflexivity.
Defined.

(** *** The further properties at sample runs *)

Lemma no_response_is_endpoint_not_found_witness :
  (Sample.submit Sample.http_unreachable Sample.world0).1
  = inl (SubmissionError (JStr "API endpoint not found.")
                         (Some (endpoint_hint "Connection refused")))
  ∧ (Sample.upload Sample.http_unreachable Sample.no_env
       (Sample.upload_args false) Sample.world0).1 = 1%Z
  ∧ line "  Error: API endpoint not found."
    ∈ stdout (Sample.upload Sample.http_unreachable Sample.no_env
                (Sample.upload_args false) Sample.world0).2.
Proof.
  apply (no_response_is_endpoint_not_found Sample.http_unreachable
           Sample.no_env Sample.loads_empty Sample.dumps Sample.repr
           Sample.upper Sample.capitalize id id id (λ _, ".zip")
           Sample.error_text Sample.decode (Sample.upload_args false) Sample.world0
           Sample.archive "Connection refused"); reflexivity.
Defined.

Lemma error_body_without_error_field_witness :
  (Sample.submit (Sample.http_rejects (JObj ∅) "{}") Sample.world0).1
  = inl (SubmissionError
           (JStr "500 Server Error: Internal Server Error for url: https://example.test/submit")
           (Some "500 Server Error: Internal Server Error for url: https://example.test/submit"))
  ∧ (Sample.upload (Sample.http_rejects (JObj ∅) "{}") Sample.no_env
       (Sample.upload_args false) Sample.world0).1 = 1%Z
  ∧ line ("  Error: "
          +:+ "500 Server Error: Internal Server Error for url: https://example.test/submit")
    ∈ stdout (Sample.upload (Sample.http_rejects (JObj ∅) "{}")
                Sample.no_env (Sample.upload_args false) Sample.world0).2.
Proof.
  refine (error_body_without_error_field
            (Sample.http_rejects (JObj ∅) "{}")
            Sample.no_env Sample.loads_empty Sample.dumps Sample.repr
            Sample.upper Sample.capitalize id id id (λ _, ".zip")
            Sample.error_text Sample.decode (Sample.upload_args false) Sample.world0
            Sample.archive
            "500 Server Error: Internal Server Error for url: https://example.test/submit"
            (Response (Some (JObj ∅)) "{}") ∅ _ _ _ _); reflexivity.
Defined.

Lemma error_body_not_an_object_witness :
  (Sample.submit (Sample.http_rejects (JArr []) "[]") Sample.world0).1
  = inl (SubmissionError
           (JStr "API endpoint not found.")
           (Some (endpoint_hint
                    "500 Server Error: Internal Server Error for url: https://example.test/submit")))
  ∧ line ("   Server response: " +:+ Sample.dumps (JArr []))
    ∈ stdout (Sample.submit (Sample.http_rejects (JArr []) "[]")
                Sample.world0).2
  ∧ line ("   Server response: " +:+ "[]")
    ∈ stdout (Sample.submit (Sample.http_rejects (JArr []) "[]")
                Sample.world0).2.
Proof.
  apply (error_body_not_an_object (Sample.http_rejects (JArr []) "[]")
           Sample.no_env Sample.loads_empty Sample.dumps
           Sample.upper Sample.capitalize id id id (λ _, ".zip")
           Sample.error_text Sample.decode "key" "https://example.test/submit" "attacker"
           "sub.zip" Sample.world0 Sample.archive
           "500 Server Error: Internal Server Error for url: https://example.test/submit"
           (Response (Some (JArr [])) "[]") (JArr []));
    [reflexivity..|]. intros m Hm. discriminate Hm.
Defined.

Lemma other_exception_propagates_witness :
  Sample.submit Sample.http_crash Sample.world0
  = (inl (OtherError "Expecting value: line 1 column 1 (char 0)"),
     posted "https://example.test/submit"
       (request_for id "key" "attacker" "sub.zip" Sample.archive)
       (emitted (line ("📤 Uploading " +:+ "sub.zip" +:+ " ("
                       +:+ pretty (List.length Sample.archive)
                       +:+ " bytes)..."))
          Sample.world0))
  ∧ (Sample.upload Sample.http_crash Sample.no_env
       (Sample.upload_args false) Sample.world0).1 = 1%Z
  ∧ line ("  Error: " +:+ "Expecting value: line 1 column 1 (char 0)")
    ∈ stdout (Sample.upload Sample.http_crash Sample.no_env
                (Sample.upload_args false) Sample.world0).2.
Proof.
  apply (other_exception_propagates Sample.http_crash Sample.no_env
           Sample.loads_empty Sample.dumps Sample.repr Sample.upper
           Sample.capitalize id id id (λ _, ".zip") Sample.error_text Sample.decode
           (Sample.upload_args false) Sample.world0 Sample.archive
           "Expecting value: line 1 column 1 (char 0)"); reflexivity.
Defined.

Lemma scalar_response_exits_one_witness :
  (Sample.upload (Sample.http_ok (JInt 7)) Sample.no_env
     (Sample.upload_args false) Sample.world0).1 = 1%Z
  ∧ line ("  Error: " +:+ Sample.error_text "in" (JInt 7))
    ∈ stdout (Sample.upload (Sample.http_ok (JInt 7)) Sample.no_env
                (Sample.upload_args false) Sample.world0).2.
Proof.
  apply (scalar_response_exits_one (Sample.http_ok (JInt 7)) Sample.no_env
           Sample.loads_empty Sample.dumps Sample.repr Sample.upper
           Sample.capitalize id id id (λ _, ".zip") Sample.error_text Sample.decode
           (Sample.upload_args false) Sample.world0 Sample.archive (JInt 7));
    [reflexivity..|exact I].
Defined.

Lemma undecodable_string_response_exits_one_witness :
  (Sample.upload (Sample.http_ok (JStr "accepted")) Sample.no_env
     (Sample.upload_args false) Sample.world0).1 = 1%Z
  ∧ line ("  Error: " +:+ "Expecting value: line 1 column 1 (char 0)")
    ∈ stdout (Sample.upload (Sample.http_ok (JStr "accepted")) Sample.no_env
                (Sample.upload_args false) Sample.world0).2.
Proof.
  apply (undecodable_string_response_exits_one
           (Sample.http_ok (JStr "accepted")) Sample.no_env
           Sample.loads_empty Sample.dumps Sample.repr Sample.upper
           Sample.capitalize id id id (λ _, ".zip") Sample.error_text Sample.decode
           (Sample.upload_args false) Sample.world0 Sample.archive
           "accepted" "Expecting value: line 1 column 1 (char 0)");
    reflexivity.
Defined.

(** A response that is a list, which has no fields to report: with
    nothing to report to, the run succeeds. *)
Lemma quiet_success_ignores_body_witness :
  Sample.upload (Sample.http_ok (JArr [])) Sample.no_env
    (Sample.upload_args false) Sample.world0
  = (0%Z,
     written result_file (Sample.dumps (JArr []))
       (posted "https://example.test/submit"
          (request_for id "key" "attacker" "sub.zip" Sample.archive)
          (emitted (line ("📤 Uploading " +:+ "sub.zip" +:+ " ("
                          +:+ pretty (List.length Sample.archive)
                          +:+ " bytes)..."))
             (preamble Sample.upper id (λ _, ".zip")
                (Sample.upload_args false) Sample.world0)))).
Proof.
  apply (quiet_success_ignores_body (Sample.http_ok (JArr [])) Sample.no_env
           Sample.loads_empty Sample.dumps Sample.repr Sample.upper
           Sample.capitalize id id id (λ _, ".zip") Sample.error_text Sample.decode
           (Sample.upload_args false) Sample.world0 Sample.archive
           (JArr []) (JArr [])); try reflexivity.
Defined.

(** The command line names no file list. *)
Lemma nothing_to_list_leaves_summary_witness :
  write_file_list id Sample.decode (Sample.upload_args false) "summary.md"
    Sample.world0
  = (inr (), Sample.world0).
Proof.
  apply (nothing_to_list_leaves_summary id Sample.decode
           (Sample.upload_args false) "summary.md" Sample.world0).
  left. reflexivity.
Defined.

(** The first file of a list whose lines end in a carriage return and a
    line feed, and which has an empty line in it, under a submission path
    given with its trailing slash: the name is written without the
    carriage return. *)
Lemma listed_file_is_written_witness :
  wrote "summary.md" ("sub" +:+ "/" +:+ "agent.py" +:+ nl)
        Sample.crlf_world
        (write_file_list id Sample.decode Sample.listing_args "summary.md"
           Sample.crlf_world).2.
Proof.
  apply (listed_file_is_written id Sample.decode Sample.listing_args
           "summary.md" Sample.crlf_world
           (list_byte_of_string
              ("agent.py" +:+ Sample.cr +:+ nl +:+ Sample.cr +:+ nl
               +:+ "README.md" +:+ Sample.cr +:+ nl))
           ("agent.py" +:+ Sample.cr +:+ nl +:+ Sample.cr +:+ nl
            +:+ "README.md" +:+ Sample.cr +:+ nl)
           "agent.py").
  - reflexivity.
  - reflexivity.
  - vm_compute. reflexivity.
  - vm_compute. apply list_elem_of_here.
Defined.


(** The archive is what it was after a run in the CI environment. *)
Lemma other_files_are_untouched_witness :
  fs (Sample.upload (Sample.http_ok (JObj ∅)) Sample.ci_env
        (Sample.upload_args true) Sample.world0).2 !! "sub.zip"
  = fs Sample.world0 !! "sub.zip".
Proof.
  apply (other_files_are_untouched (Sample.http_ok (JObj ∅)) Sample.ci_env
           Sample.loads_empty Sample.dumps Sample.repr Sample.upper
           Sample.capitalize id id id (λ _, ".zip") Sample.error_text Sample.decode
           (Sample.upload_args true) Sample.world0 "sub.zip");
    intros; discriminate.
Defined.

Lemma one_request_per_run_witness :
  posts (Sample.upload Sample.http_not_found Sample.ci_env
           (Sample.upload_args false) Sample.world0).2
  = posts Sample.world0
    ++ [("https://example.test/submit",
         request_for id "key" "attacker" "sub.zip" Sample.archive)].
Proof.
  apply (one_request_per_run Sample.http_not_found Sample.ci_env
           Sample.loads_empty Sample.dumps Sample.repr Sample.upper
           Sample.capitalize id id id (λ _, ".zip") Sample.error_text Sample.decode
           (Sample.upload_args false) Sample.world0 Sample.archive).
  reflexivity.
Defined.

(** The response is a number: the run fails, and the result file holds
    the number. *)
Lemma result_file_holds_raw_response_witness :
  fs (Sample.upload (Sample.http_ok (JInt 7)) Sample.ci_env
        (Sample.upload_args false) Sample.world0).2 !! result_file
  = Some (list_byte_of_string (Sample.dumps (JInt 7))).
Proof.
  apply (result_file_holds_raw_response (Sample.http_ok (JInt 7))
           Sample.ci_env Sample.loads_empty Sample.dumps Sample.repr
           Sample.upper Sample.capitalize id id id (λ _, ".zip")
           Sample.error_text Sample.decode (Sample.upload_args false) Sample.world0
           Sample.archive (JInt 7)); try reflexivity; intros; discriminate.
Defined.

Lemma failed_upload_leaves_result_file_witness :
  fs (Sample.upload Sample.http_not_found Sample.ci_env
        (Sample.upload_args false) Sample.world0).2 !! result_file
  = fs Sample.world0 !! result_file.
Proof.
  apply (failed_upload_leaves_result_file Sample.http_not_found
           Sample.ci_env Sample.loads_empty Sample.dumps Sample.repr
           Sample.upper Sample.capitalize id id id (λ _, ".zip")
           Sample.error_text Sample.decode (Sample.upload_args false) Sample.world0
           Sample.archive); try reflexivity; intros; discriminate.
Defined.

(** An archive named with another suffix than [.zip]. *)
Lemma output_starts_with_banner_witness :
  ([] ++ [line ("⚠️  Warning: File does not have .zip extension: "
                +:+ "sub.zip")]
      ++ [line bar;
          line ("🚀 Competition Submission Upload (" +:+ "ATTACKER" +:+ ")");
          line bar;
          line ""])
  `prefix_of`
  stdout (run_main (Sample.http_ok (JObj ∅)) Sample.no_env
            Sample.loads_empty Sample.dumps Sample.repr Sample.upper
            Sample.capitalize id id id (λ _, ".gz") Sample.error_text
            Sample.decode (Sample.upload_args false) Sample.world0).2.
Proof.
  apply (output_starts_with_banner (Sample.http_ok (JObj ∅)) Sample.no_env
           Sample.loads_empty Sample.dumps Sample.repr Sample.upper
           Sample.capitalize id id id (λ _, ".gz") Sample.error_text Sample.decode
           (Sample.upload_args false) Sample.world0 Sample.archive).
  reflexivity.
Defined.

(** A rejected role, with both files of the CI runner named. *)
Lemma failure_is_explained_witness :
  ∃ w',
    main_except Sample.ci_env Sample.repr
      (SubmissionError (JStr "invalid role") (Some "400 Client Error"))
      Sample.world0
    = (inl (SystemExit 1), w')
    ∧ wrote "out.txt"
            ("message=Submission failed: " +:+ "invalid role" +:+ nl)
            Sample.world0 w'
    ∧ wrote "summary.md" ("**Error:** " +:+ "invalid role" +:+ nl +:+ nl)
            Sample.world0 w'
    ∧ wrote "summary.md"
            ("```" +:+ nl +:+ "400 Client Error" +:+ nl +:+ "```" +:+ nl)
            Sample.world0 w'.
Proof.
  apply (failure_is_explained Sample.ci_env Sample.repr
           (SubmissionError (JStr "invalid role") (Some "400 Client Error"))
           Sample.world0); reflexivity.
Defined.


(** The file list is no text: its one byte is 255. The upload succeeds
    and the run fails. *)
Lemma undecodable_file_list_exits_one_witness :
  (Sample.upload (Sample.http_ok (JObj ∅)) Sample.ci_env
     Sample.listing_args Sample.binary_list_world).1 = 1%Z
  ∧ line ("  Error: "
          +:+ "'utf-8' codec can't decode byte 0xff in position 0: invalid start byte")
    ∈ stdout (Sample.upload (Sample.http_ok (JObj ∅)) Sample.ci_env
                Sample.listing_args Sample.binary_list_world).2.
Proof.
  apply (undecodable_file_list_exits_one (Sample.http_ok (JObj ∅))
           Sample.ci_env Sample.loads_empty Sample.dumps Sample.repr
           Sample.upper Sample.capitalize id id id (λ _, ".zip")
           Sample.error_text Sample.decode Sample.listing_args
           Sample.binary_list_world Sample.archive (JObj ∅) ∅
           "'utf-8' codec can't decode byte 0xff in position 0: invalid start byte").
  - reflexivity.
  - reflexivity.
  - intros w'. reflexivity.
  - exact Logic.I.
  - reflexivity.
  - repeat split; [discriminate|intros _; discriminate..].
  - split; [reflexivity|]. exists [Byte.xff]. split; reflexivity.
Defined.

End UploaderFacts.

(** ** Source validator *)

Module ValidatorFacts.
Import Validator.

Section Script.
Variable exists_path : string → bool.
Variable rglob_py : string → list string.
Variable relative_to : string → string → string.
Variable has_requirements : string → bool.
Variable path_str : string → string.
Variable compile_source : string → list byte → option exn.
Variable compile_error_text : exn → string → string.
Variable utf8_error : list byte → option string.
Variable ast_parse : string → option exn.

Abbreviation py_compile_compile :=
  (py_compile_compile compile_source compile_error_text).
Abbreviation parse_file := (parse_file utf8_error ast_parse).
Abbreviation validate_python_syntax :=
  (validate_python_syntax compile_source compile_error_text utf8_error
                          ast_parse).
Abbreviation verdict :=
  (verdict compile_source compile_error_text utf8_error ast_parse).
Abbreviation file_error :=
  (file_error compile_source compile_error_text utf8_error ast_parse).
Abbreviation failures :=
  (failures relative_to compile_source compile_error_text utf8_error
            ast_parse).
Abbreviation checked :=
  (checked relative_to compile_source compile_error_text utf8_error ast_parse).
Abbreviation check_files :=
  (check_files relative_to compile_source compile_error_text utf8_error
               ast_parse).
Abbreviation passes :=
  (passes compile_source compile_error_text utf8_error ast_parse).
Abbreviation main :=
  (main exists_path rglob_py relative_to has_requirements path_str
        compile_source compile_error_text utf8_error ast_parse).
Abbreviation run_main :=
  (run_main exists_path rglob_py relative_to has_requirements path_str
            compile_source compile_error_text utf8_error ast_parse).

(** The per-file check never raises and leaves the world as it is. *)
Lemma validate_eval {E} p w :
  validate_python_syntax p w
  = (inr (verdict (fs w) p) : E + bool * string, w).
Proof.
  unfold Validator.validate_python_syntax, Validator.verdict,
    Validator.file_error, Validator.py_compile_compile,
    Validator.parse_file, read_bytes, try_except, bind, raise, ret.
  cbv beta.
  destruct (fs w !! p) as [bs|] eqn:Hfs; [|done].
  destruct (compile_source p bs); [done|].
  cbv beta iota. rewrite Hfs.
  destruct (utf8_error bs); [done|].
  by destruct (ast_parse _) as [[]|].
Qed.

Lemma passes_verdict w p : passes w p ↔ (verdict (fs w) p).1 = true.
Proof.
  unfold Validator.passes, Validator.verdict, Validator.file_error,
    Validator.py_compile_compile, Validator.parse_file, read_bytes, bind,
    raise, ret.
  cbv beta.
  destruct (fs w !! p) as [bs|] eqn:Hfs; simpl; [|by split; [intros []|]].
  destruct (compile_source p bs); simpl; [by split; [intros []|]|].
  destruct (utf8_error bs); simpl; [by split; [intros []|]|].
  destruct (ast_parse _) as [[]|]; simpl; split; try done; by intros [].
Qed.

Lemma fs_checked sp files w : fs (checked sp files w) = fs w.
Proof.
  revert w. induction files as [|p files IH]; intros w; [done|].
  simpl. by rewrite IH.
Qed.

Lemma failures_cons files sp p l :
  failures files sp (p :: l)
  = (if (verdict files p).1 then []
     else [(relative_to p sp, (verdict files p).2)])
    ++ failures files sp l.
Proof. unfold Validator.failures. simpl. by destruct (verdict files p).1. Qed.

Lemma check_files_eval sp files errors w :
  check_files sp files errors w
  = (inr (errors ++ failures (fs w) sp files), checked sp files w).
Proof.
  revert errors w. induction files as [|p files IH]; intros errors w.
  - simpl. by rewrite app_nil_r.
  - simpl Validator.check_files. unfold bind at 1, print_end, emit.
    unfold bind at 1. rewrite validate_eval.
    change (fs (emitted _ w)) with (fs w).
    rewrite failures_cons. simpl Validator.checked.
    destruct (verdict (fs w) p) as [[|] error_msg]; cbn [fst snd];
      unfold bind at 1, print, emit; rewrite IH; [done|].
    by rewrite <- app_assoc.
Qed.

Lemma failures_nil files sp python_files :
  failures files sp python_files = []
  ↔ Forall (λ p, (verdict files p).1 = true) python_files.
Proof.
  unfold Validator.failures.
  induction python_files as [|p l IH]; simpl; [done|].
  rewrite Forall_cons. destruct (verdict files p).1; simpl.
  - rewrite IH. tauto.
  - split; [done|]. by intros [? _].
Qed.

Ltac vstep :=
  cbv beta;
  lazymatch goal with
  | |- spec (bind _ _) _ _ _ => apply spec_bind
  | |- spec (ret _) _ _ _ => apply spec_ret
  | |- spec (raise _) _ _ _ => apply spec_raise
  | |- spec (sys_exit _) _ _ _ => apply spec_raise
  | |- spec (print _) _ _ _ => apply spec_emit
  | |- spec (when true _) _ _ _ => unfold when at 1
  | |- spec (when false _) _ _ _ => apply spec_ret
  end.

(** The exit code of [main] once a submission path is given. *)
Lemma main_exit prog p rest w :
  spec (main (prog :: p :: rest)) w (λ _ _, False)
    (λ code _,
       code = if exists_path p
                 && negb (bool_decide (rglob_py p = []))
                 && bool_decide (failures (fs w) p (rglob_py p) = [])
              then 0%Z else 1%Z).
Proof.
  unfold Validator.main. apply spec_bind.
  destruct (exists_path p); simpl negb; cbv iota; [|by repeat vstep].
  repeat vstep. unfold check_required_structure.
  case_bool_decide as Hfiles; simpl.
  { by repeat vstep. }
  assert (∀ w1, fs w1 = fs w →
    spec (let python_files := rglob_py p in
          print ("📝 Found " +:+ pretty (List.length python_files)
                 +:+ " Python file(s)") >>
          print "" >>
          let* errors := check_files p python_files [] in
          print "" >>
          print (str_repeat "=" 60) >>
          if bool_decide (errors ≠ []) then
            print ("❌ Validation failed with " +:+ pretty (List.length errors)
                   +:+ " error(s):") >>
            print "" >>
            for_each errors
              (λ '(file_path, error_msg),
                print ("  " +:+ file_path +:+ ":") >>
                print ("    " +:+ error_msg)) >>
            sys_exit 1
          else
            print "✅ All Python files validated successfully!" >>
            print ("   " +:+ pretty (List.length python_files)
                   +:+ " file(s) checked") >>
            sys_exit 0)
      w1 (λ (_ : ()) _, False)
      (λ code _, code = if bool_decide (failures (fs w) p (rglob_py p) = [])
                        then 0%Z else 1%Z)) as Hloop.
  { intros w1 Hw1. cbv zeta. repeat vstep.
    unfold spec at 1. rewrite check_files_eval. simpl app.
    change (fs (emitted _ (emitted _ w1))) with (fs w1). rewrite Hw1.
    repeat vstep. case_bool_decide as Herr.
    - rewrite bool_decide_false by done. repeat vstep.
      eapply spec_mono;
        [apply (spec_for_each _ _ (λ _, True) (λ _ _, False)); [done|]|
        |done].
      + intros [file_path error_msg] w' _. repeat vstep. by cbv beta.
      + intros [] w' _. repeat vstep. by cbv beta.
    - rewrite bool_decide_true by (by destruct (failures _ _ _)).
      by repeat vstep. }
  destruct (has_requirements p); cbn [negb app]; cbv beta iota.
  - do 2 vstep. rewrite bool_decide_false by (by intros []).
    repeat first [by apply Hloop | vstep].
  - do 2 vstep. rewrite bool_decide_true by done. cbn [for_each].
    repeat first [by apply Hloop | vstep].
Qed.

(** With no source file the run ends after three lines of output, none
    of them a per-file result. *)
Lemma main_no_files prog p rest w :
  exists_path p = true →
  rglob_py p = [] →
  run_main (prog :: p :: rest) w
  = (1%Z,
     emitted (line "  - No Python files found in submission")
       (emitted (line "❌ Validation failed:")
          (emitted (line ("📁 Path: " +:+ path_str p)) w))).
Proof.
  intros Hex Hfiles.
  unfold Validator.run_main, Validator.main, check_required_structure.
  rewrite Hex, Hfiles. reflexivity.
Qed.

(** C5. The exit code is 0 exactly when a path is given that exists,
    at least one source file is found under it, and every file found
    passes both the compile check and the parse; it is 1 otherwise. With no
    source file the run fails at once, before any per-file result. *)
Theorem exit_code_zero_iff_all_files_pass argv w :
  ((run_main argv w).1 = 0%Z
   ↔ ∃ prog p rest,
       argv = prog :: p :: rest
       ∧ exists_path p = true
       ∧ rglob_py p ≠ []
       ∧ Forall (passes w) (rglob_py p))
  ∧ ((run_main argv w).1 = 0%Z ∨ (run_main argv w).1 = 1%Z)
  ∧ (∀ prog p rest,
       argv = prog :: p :: rest →
       exists_path p = true →
       rglob_py p = [] →
       run_main argv w
       = (1%Z,
          emitted (line "  - No Python files found in submission")
            (emitted (line "❌ Validation failed:")
               (emitted (line ("📁 Path: " +:+ path_str p)) w)))).
Proof.
  split; [|split].
  - destruct argv as [|prog [|p rest]].
    + split; [done|]. by intros (? & ? & ? & ? & _).
    + split; [done|]. by intros (? & ? & ? & ? & _).
    + pose proof (main_exit prog p rest w) as Hexit. unfold spec in Hexit.
      unfold Validator.run_main.
      destruct (main (prog :: p :: rest) w) as [[code|[]] w']; [|done].
      simpl. subst code. split.
      * intros Hcode. exists prog, p, rest.
        destruct (exists_path p); [|done].
        case_bool_decide as Hfiles; [done|].
        case_bool_decide as Hall; [|done].
        apply failures_nil in Hall. repeat split; [done|].
        eapply Forall_impl; [exact Hall|]. intros f. by apply passes_verdict.
      * intros (prog' & p' & rest' & [= <- <- <-] & -> & Hfiles & Hall).
        rewrite bool_decide_false by done.
        rewrite bool_decide_true; [done|]. apply failures_nil.
        eapply Forall_impl; [exact Hall|]. intros f. by apply passes_verdict.
  - destruct argv as [|prog [|p rest]]; [by right..|].
    pose proof (main_exit prog p rest w) as Hexit. unfold spec in Hexit.
    unfold Validator.run_main.
    destruct (main (prog :: p :: rest) w) as [[code|[]] w']; [|done].
    simpl. subst code. destruct (_ && _ && _); auto.
  - intros prog p rest -> Hex Hfiles. by apply main_no_files.
Qed.

(** *** Syntax errors *)

(** A syntax error found by [py_compile.compile] reaches the handlers as
    a [PyCompileError]: the clause for [SyntaxError] is passed over and the
    message has the ["Error: ..."] form of the general clause. *)
Lemma compile_syntax_error_is_wrapped {E} p w bs lineno msg :
  fs w !! p = Some bs →
  compile_source p bs = Some (SyntaxError lineno msg) →
  validate_python_syntax p w
  = (inr (false, "Error: " +:+ compile_error_text (SyntaxError lineno msg) p)
       : E + bool * string, w)
  ∧ "Error: " +:+ compile_error_text (SyntaxError lineno msg) p
    ≠ syntax_error_message lineno msg.
Proof.
  intros Hfile Hcompile. split; [|done].
  rewrite validate_eval. unfold Validator.verdict, Validator.file_error.
  by rewrite Hfile, Hcompile.
Qed.

(** The ["Syntax error at line N: msg"] form is what a [SyntaxError]
    raised by [ast.parse] gives, once the file has compiled. *)
Lemma parse_syntax_error_is_reported {E} p w bs lineno msg :
  fs w !! p = Some bs →
  compile_source p bs = None →
  utf8_error bs = None →
  ast_parse (string_of_list_byte bs) = Some (SyntaxError lineno msg) →
  validate_python_syntax p w
  = (inr (false, syntax_error_message lineno msg) : E + bool * string, w).
Proof.
  intros Hfile Hcompile Hutf Hparse.
  rewrite validate_eval. unfold Validator.verdict, Validator.file_error.
  by rewrite Hfile, Hcompile, Hutf, Hparse.
Qed.

(** One file's failure does not stop the loop: every discovered file gets
    its "Checking" chunk, and every failing one its entry in the list of
    errors. *)
Lemma stdout_checked sp files w s :
  s ∈ stdout w → s ∈ stdout (checked sp files w).
Proof.
  revert w. induction files as [|p files IH]; intros w Hs; [done|].
  simpl. apply IH. simpl. rewrite !elem_of_app. auto.
Qed.

Lemma every_file_is_checked sp files w p :
  p ∈ files →
  ("  Checking " +:+ relative_to p sp +:+ "...") +:+ " "
  ∈ stdout (checked sp files w).
Proof.
  revert w. induction files as [|q files IH]; intros w Hp.
  { by apply elem_of_nil in Hp. }
  apply elem_of_cons in Hp as [<-|Hp]; [|by apply IH].
  simpl. apply stdout_checked. simpl. rewrite !elem_of_app.
  left. right. by apply list_elem_of_singleton.
Qed.

Lemma every_failure_is_listed files sp python_files p :
  p ∈ python_files →
  (verdict files p).1 = false →
  (relative_to p sp, (verdict files p).2) ∈ failures files sp python_files.
Proof.
  intros Hp Hv. unfold Validator.failures. apply list_elem_of_omap.
  exists p. split; [done|]. by rewrite Hv.
Qed.

(** *** The output of a run *)

Lemma for_each_report_eval (errors : list (string * string)) w :
  for_each errors
    (λ '(file_path, error_msg),
       print ("  " +:+ file_path +:+ ":") >>
       print ("    " +:+ error_msg)) w
  = (inr () : Z + (),
     fold_left (λ w' '(file_path, error_msg),
                  emitted (line ("    " +:+ error_msg))
                    (emitted (line ("  " +:+ file_path +:+ ":")) w'))
               errors w).
Proof.
  revert w. induction errors as [|[file_path error_msg] errors IH];
    intros w; [done|].
  cbn [for_each fold_left]. unfold bind at 1. unfold bind at 1.
  unfold print at 1, emit at 1. unfold print at 1, emit at 1.
  by rewrite IH.
Qed.

Lemma stdout_fold_report (errors : list (string * string)) w :
  stdout (fold_left (λ w' '(file_path, error_msg),
                       emitted (line ("    " +:+ error_msg))
                         (emitted (line ("  " +:+ file_path +:+ ":")) w'))
                    errors w)
  = stdout w
    ++ flat_map (λ '(file_path, error_msg),
                   [line ("  " +:+ file_path +:+ ":");
                    line ("    " +:+ error_msg)]) errors.
Proof.
  revert w. induction errors as [|[file_path error_msg] errors IH];
    intros w; cbn [fold_left flat_map]; [by rewrite app_nil_r|].
  rewrite IH. simpl. by rewrite <- !app_assoc.
Qed.

Lemma fs_fold_report (errors : list (string * string)) w :
  fs (fold_left (λ w' '(file_path, error_msg),
                   emitted (line ("    " +:+ error_msg))
                     (emitted (line ("  " +:+ file_path +:+ ":")) w'))
                errors w)
  = fs w.
Proof.
  revert w. induction errors as [|[file_path error_msg] errors IH];
    intros w; cbn [fold_left]; [done|]. by rewrite IH.
Qed.

Lemma stdout_checked_eq sp files w :
  stdout (checked sp files w)
  = stdout w
    ++ flat_map (λ p, [("  Checking " +:+ relative_to p sp +:+ "...") +:+ " ";
                       line (if (verdict (fs w) p).1 then "✅" else "❌")])
                files.
Proof.
  revert w. induction files as [|p files IH]; intros w;
    cbn [Validator.checked flat_map]; [by rewrite app_nil_r|].
  rewrite IH. simpl. by rewrite <- !app_assoc.
Qed.

(** The whole run once a path is given that exists and holds a source
    file: the exit code, and the output line by line. *)
Lemma main_output prog p rest w :
  exists_path p = true →
  rglob_py p ≠ [] →
  ∃ w',
    run_main (prog :: p :: rest) w
    = (if bool_decide (failures (fs w) p (rglob_py p) = [])
       then 0%Z else 1%Z, w')
    ∧ fs w' = fs w
    ∧ stdout w'
      = stdout w
        ++ [line ("📁 Path: " +:+ path_str p)]
        ++ (if has_requirements p then []
            else [line "⚠️  Warnings:";
                  line "  - No requirements.txt found - make sure all dependencies are documented";
                  line ""])
        ++ [line ("📝 Found " +:+ pretty (List.length (rglob_py p))
                  +:+ " Python file(s)");
            line ""]
        ++ flat_map
             (λ f, [("  Checking " +:+ relative_to f p +:+ "...") +:+ " ";
                    line (if (verdict (fs w) f).1 then "✅" else "❌")])
             (rglob_py p)
        ++ [line ""; line (str_repeat "=" 60)]
        ++ (if bool_decide (failures (fs w) p (rglob_py p) = [])
            then [line "✅ All Python files validated successfully!";
                  line ("   " +:+ pretty (List.length (rglob_py p))
                        +:+ " file(s) checked")]
            else [line ("❌ Validation failed with "
                        +:+ pretty (List.length
                                      (failures (fs w) p (rglob_py p)))
                        +:+ " error(s):");
                  line ""]
                 ++ flat_map (λ '(file_path, error_msg),
                                [line ("  " +:+ file_path +:+ ":");
                                 line ("    " +:+ error_msg)])
                             (failures (fs w) p (rglob_py p))).
Proof.
  intros Hex Hfiles.
  unfold Validator.run_main, Validator.main, check_required_structure.
  rewrite Hex. rewrite bool_decide_false by done.
  cbn [negb]. cbv iota. unfold bind at 1. unfold ret at 1.
  unfold bind at 1. unfold print at 1, emit at 1.
  set (w1 := emitted (line ("📁 Path: " +:+ path_str p)) w).
  assert (∀ w2, fs w2 = fs w →
    ∃ w',
      (let (r, w3) :=
         ((let python_files := rglob_py p in
          print ("📝 Found " +:+ pretty (List.length python_files)
                 +:+ " Python file(s)") >>
          print "" >>
          let* errors := check_files p python_files [] in
          print "" >>
          print (str_repeat "=" 60) >>
          if bool_decide (errors ≠ []) then
            print ("❌ Validation failed with " +:+ pretty (List.length errors)
                   +:+ " error(s):") >>
            print "" >>
            for_each errors
              (λ '(file_path, error_msg),
                print ("  " +:+ file_path +:+ ":") >>
                print ("    " +:+ error_msg)) >>
            sys_exit 1
          else
            print "✅ All Python files validated successfully!" >>
            print ("   " +:+ pretty (List.length python_files)
                   +:+ " file(s) checked") >>
            sys_exit 0) : M Z ()) w2 in
       match r with
       | inl code => (code, w3)
       | inr _ => (0%Z, w3)
       end)
      = (if bool_decide (failures (fs w) p (rglob_py p) = [])
         then 0%Z else 1%Z, w')
      ∧ fs w' = fs w
      ∧ stdout w'
        = stdout w2
          ++ [line ("📝 Found " +:+ pretty (List.length (rglob_py p))
                    +:+ " Python file(s)");
              line ""]
          ++ flat_map
               (λ f, [("  Checking " +:+ relative_to f p +:+ "...") +:+ " ";
                      line (if (verdict (fs w) f).1 then "✅" else "❌")])
               (rglob_py p)
          ++ [line ""; line (str_repeat "=" 60)]
          ++ (if bool_decide (failures (fs w) p (rglob_py p) = [])
              then [line "✅ All Python files validated successfully!";
                    line ("   " +:+ pretty (List.length (rglob_py p))
                          +:+ " file(s) checked")]
              else [line ("❌ Validation failed with "
                          +:+ pretty (List.length
                                        (failures (fs w) p (rglob_py p)))
                          +:+ " error(s):");
                    line ""]
                   ++ flat_map (λ '(file_path, error_msg),
                                  [line ("  " +:+ file_path +:+ ":");
                                   line ("    " +:+ error_msg)])
                               (failures (fs w) p (rglob_py p)))) as Hloop.
  { intros w2 Hw2. cbv zeta.
    unfold bind at 1. unfold print at 1, emit at 1.
    unfold bind at 1. unfold print at 1, emit at 1.
    unfold bind at 1. rewrite check_files_eval. cbn [app].
    change (fs (emitted _ (emitted _ w2))) with (fs w2). rewrite Hw2.
    unfold bind at 1. unfold print at 1, emit at 1.
    unfold bind at 1. unfold print at 1, emit at 1.
    case_bool_decide as Herr.
    - rewrite bool_decide_false by done.
      unfold bind at 1. unfold print at 1, emit at 1.
      unfold bind at 1. unfold print at 1, emit at 1.
      unfold bind at 1. rewrite for_each_report_eval.
      unfold sys_exit, raise. eexists. split; [reflexivity|].
      split.
      + rewrite fs_fold_report. cbn [fs emitted]. by rewrite fs_checked.
      + rewrite stdout_fold_report. cbn [stdout emitted].
        rewrite stdout_checked_eq. cbn [stdout emitted fs]. rewrite Hw2.
        by rewrite <- !app_assoc.
    - rewrite bool_decide_true by (by destruct (failures _ _ _)).
      unfold bind at 1. unfold print at 1, emit at 1.
      unfold bind at 1. unfold print at 1, emit at 1.
      unfold sys_exit, raise. eexists. split; [reflexivity|].
      split.
      + cbn [fs emitted]. by rewrite fs_checked.
      + cbn [stdout emitted].
        rewrite stdout_checked_eq. cbn [stdout emitted fs]. rewrite Hw2.
        by rewrite <- !app_assoc. }
  destruct (has_requirements p); cbn [negb app]; cbv iota.
  - unfold bind at 1. unfold ret at 1.
    rewrite bool_decide_false by (by intros []).
    unfold bind at 1. unfold when at 1. unfold ret at 1.
    destruct (Hloop w1 eq_refl) as (w' & Hrun & Hfs & Hout).
    exists w'. split; [exact Hrun|]. split; [done|].
    rewrite Hout. unfold w1. cbn [stdout emitted]. by rewrite <- !app_assoc.
  - unfold bind at 1. unfold ret at 1.
    rewrite bool_decide_true by done.
    unfold bind at 1. unfold when at 1.
    unfold bind at 1. unfold print at 1, emit at 1.
    unfold bind at 1. cbn [for_each].
    unfold bind at 1. unfold print at 1, emit at 1. unfold ret at 1.
    unfold print at 1, emit at 1.
    set (w2 := emitted (line "") (emitted _ (emitted _ w1))).
    destruct (Hloop w2 eq_refl) as (w' & Hrun & Hfs & Hout).
    exists w'. split; [exact Hrun|]. split; [done|].
    rewrite Hout. unfold w2, w1. cbn [stdout emitted].
    by rewrite <- !app_assoc.
Qed.

(** What the per-file check returns inside the loop of [main]. *)
Abbreviation check_result f w :=
  ((validate_python_syntax f w).1 : Z + bool * string).

Lemma failures_length files sp python_files :
  List.length (failures files sp python_files)
  = List.length (List.filter (λ f, negb (verdict files f).1) python_files).
Proof.
  unfold Validator.failures.
  induction python_files as [|f l IH]; [done|].
  cbn [omap list_omap List.filter]. destruct (verdict files f).1; simpl;
    by rewrite IH.
Qed.

(** The per-file check always returns: whatever goes wrong inside it is
    turned into the answer. The file is valid exactly when both the compile
    check and the parse raise nothing, and the message is empty exactly
    for a valid file. *)
Theorem validate_always_returns {E} p w :
  ∃ ok msg,
    (validate_python_syntax p w).1 = (inr (ok, msg) : E + bool * string)
    ∧ (ok = true ↔ passes w p)
    ∧ (ok = true ↔ msg = "").
Proof.
  rewrite validate_eval.
  exists (verdict (fs w) p).1, (verdict (fs w) p).2.
  split; [by destruct (verdict _ _)|].
  split; [symmetry; apply passes_verdict|].
  unfold Validator.verdict.
  destruct (file_error (fs w) p) as [[lineno msg|msg|msg]|]; cbn [fst snd];
    split; try done; unfold syntax_error_message;
    rewrite str_app_cons; done.
Qed.

(** The message has the form "Syntax error at line N: msg" exactly when
    the file is there, compiles, decodes as UTF-8, and it is [ast.parse]
    that raises a [SyntaxError]: an error of the compile step never gives
    that form. *)
Theorem syntax_error_form_only_from_parser {E} p w :
  (∃ lineno msg,
     (validate_python_syntax p w).1
     = (inr (false, syntax_error_message lineno msg) : E + bool * string))
  ↔ (∃ bs lineno msg,
       fs w !! p = Some bs
       ∧ compile_source p bs = None
       ∧ utf8_error bs = None
       ∧ ast_parse (string_of_list_byte bs) = Some (SyntaxError lineno msg)).
Proof.
  split.
  - intros (lineno & msg & Hv). rewrite validate_eval in Hv.
    unfold Validator.verdict, Validator.file_error in Hv. cbn [fst] in Hv.
    destruct (fs w !! p) as [bs|]; [|by rewrite str_app_cons in Hv].
    destruct (compile_source p bs) eqn:Hcompile;
      [by rewrite str_app_cons in Hv|].
    destruct (utf8_error bs) eqn:Hutf; [by rewrite str_app_cons in Hv|].
    destruct (ast_parse _) as [[lineno' msg'|msg'|msg']|] eqn:Hparse;
      try (by rewrite str_app_cons in Hv); [|done].
    by exists bs, lineno', msg'.
  - intros (bs & lineno & msg & Hfile & Hcompile & Hutf & Hparse).
    exists lineno, msg.
    by rewrite (parse_syntax_error_is_reported p w bs lineno msg).
Qed.

(** The loop prints, for each discovered file in order, one "Checking"
    chunk and then one mark, the green one exactly for a file the check
    accepts, and nothing else; a failing file does not stop it. The list it
    returns is the list it was given followed, in the same order, by one
    entry for each failing file: its relative path and its message. *)
Theorem loop_prints_one_result_per_file sp files errors w :
  stdout (check_files sp files errors w).2
  = stdout w
    ++ flat_map
         (λ f, [("  Checking " +:+ relative_to f sp +:+ "...") +:+ " ";
                line (match check_result f w with
                      | inr (true, _) => "✅"
                      | _ => "❌"
                      end)])
         files
  ∧ (check_files sp files errors w).1
    = inr (errors
           ++ omap (λ f, match check_result f w with
                         | inr (false, msg) => Some (relative_to f sp, msg)
                         | _ => None
                         end)
                   files).
Proof.
  rewrite check_files_eval. cbn [fst snd]. split.
  - rewrite stdout_checked_eq. f_equal. apply flat_map_ext. intros f.
    rewrite validate_eval. cbn [fst]. by destruct (verdict (fs w) f) as [[] ?].
  - do 2 f_equal. unfold Validator.failures.
    induction files as [|f l IH]; [done|]. cbn [omap list_omap].
    rewrite IH, validate_eval. cbn [fst].
    by destruct (verdict (fs w) f) as [[] ?].
Qed.

(** A run in which every discovered file passes exits with status 0, and
    its output is, line by line: the path, the warning about
    [requirements.txt] if that file is missing, the number of files, one
    "Checking ... ✅" per file in order, the ruler, and the two closing
    lines. *)
Theorem clean_run_output prog p rest w :
  exists_path p = true →
  rglob_py p ≠ [] →
  Forall (passes w) (rglob_py p) →
  (run_main (prog :: p :: rest) w).1 = 0%Z
  ∧ stdout (run_main (prog :: p :: rest) w).2
    = stdout w
      ++ [line ("📁 Path: " +:+ path_str p)]
      ++ (if has_requirements p then []
          else [line "⚠️  Warnings:";
                line "  - No requirements.txt found - make sure all dependencies are documented";
                line ""])
      ++ [line ("📝 Found " +:+ pretty (List.length (rglob_py p))
                +:+ " Python file(s)");
          line ""]
      ++ flat_map
           (λ f, [("  Checking " +:+ relative_to f p +:+ "...") +:+ " ";
                  line "✅"])
           (rglob_py p)
      ++ [line ""; line (str_repeat "=" 60);
          line "✅ All Python files validated successfully!";
          line ("   " +:+ pretty (List.length (rglob_py p))
                +:+ " file(s) checked")].
Proof.
  intros Hex Hfiles Hall.
  destruct (main_output prog p rest w Hex Hfiles) as (w' & Hrun & _ & Hout).
  assert (Forall (λ f, (verdict (fs w) f).1 = true) (rglob_py p)) as Hv.
  { eapply Forall_impl; [exact Hall|]. intros f. by apply passes_verdict. }
  rewrite bool_decide_true in Hrun, Hout by (by apply failures_nil).
  rewrite Hrun. split; [done|]. cbn [snd]. rewrite Hout.
  do 3 f_equal.
  assert (∀ l, Forall (λ f, (verdict (fs w) f).1 = true) l →
    flat_map
      (λ f, [("  Checking " +:+ relative_to f p +:+ "...") +:+ " ";
             line (if (verdict (fs w) f).1 then "✅" else "❌")]) l
    = flat_map
        (λ f, [("  Checking " +:+ relative_to f p +:+ "...") +:+ " ";
               line "✅"]) l) as Hmarks.
  { induction 1 as [|f l Hf _ IH]; [done|].
    cbn [flat_map]. by rewrite Hf, IH. }
  by rewrite Hmarks.
Qed.

(** A discovered file that fails makes the run exit with status 1, and
    the closing report holds the count of failing files and, for that
    file, its relative path and the message of its check. *)
Theorem failing_file_is_reported prog p rest w f :
  exists_path p = true →
  f ∈ rglob_py p →
  ¬ passes w f →
  (run_main (prog :: p :: rest) w).1 = 1%Z
  ∧ line ("❌ Validation failed with "
          +:+ pretty (List.length
                        (List.filter
                           (λ f, match check_result f w
                                 with
                                 | inr (true, _) => false
                                 | _ => true
                                 end)
                           (rglob_py p)))
          +:+ " error(s):")
    ∈ stdout (run_main (prog :: p :: rest) w).2
  ∧ ∃ msg,
      check_result f w = inr (false, msg)
      ∧ line ("  " +:+ relative_to f p +:+ ":")
        ∈ stdout (run_main (prog :: p :: rest) w).2
      ∧ line ("    " +:+ msg)
        ∈ stdout (run_main (prog :: p :: rest) w).2.
Proof.
  intros Hex Hf Hfail.
  assert (rglob_py p ≠ []) as Hfiles.
  { intros Hnil. rewrite Hnil in Hf. by apply elem_of_nil in Hf. }
  destruct (main_output prog p rest w Hex Hfiles) as (w' & Hrun & _ & Hout).
  assert ((verdict (fs w) f).1 = false) as Hv.
  { destruct (verdict (fs w) f).1 eqn:Hok; [|done].
    destruct Hfail. by apply passes_verdict. }
  pose proof (every_failure_is_listed (fs w) p _ f Hf Hv) as Hin.
  rewrite bool_decide_false in Hrun, Hout
    by (intros Hnil; rewrite Hnil in Hin; by apply elem_of_nil in Hin).
  rewrite Hrun. cbn [fst snd]. split; [done|].
  assert (∀ s, s ∈ [line ("  " +:+ relative_to f p +:+ ":");
                    line ("    " +:+ (verdict (fs w) f).2)] →
               s ∈ stdout w') as Hreport.
  { intros s Hs. rewrite Hout, !elem_of_app. repeat right.
    apply list_elem_of_In, in_flat_map.
    exists (relative_to f p, (verdict (fs w) f).2).
    split; by apply list_elem_of_In. }
  split.
  - rewrite Hout, !elem_of_app. do 6 right. left.
    rewrite failures_length.
    rewrite (filter_ext _ (λ f0, negb (verdict (fs w) f0).1)).
    + apply list_elem_of_here.
    + intros f0. rewrite validate_eval. cbn [fst].
      by destruct (verdict (fs w) f0) as [[] ?].
  - exists (verdict (fs w) f).2. split.
    + rewrite validate_eval. cbn [fst]. destruct (verdict (fs w) f).
      cbn [fst snd] in *. by subst.
    + split; apply Hreport.
      * apply list_elem_of_here.
      * apply list_elem_of_further, list_elem_of_here.
Qed.

(** Run without a path, or with a path that does not exist, the script
    prints one error line and exits with status 1; no other output
    follows. *)
Theorem bad_invocation_exits_one argv w :
  ((List.length argv < 2)%nat →
   run_main argv w
   = (1%Z, emitted (line "❌ Error: No submission path provided") w))
  ∧ (∀ p, argv !! 1%nat = Some p →
          exists_path p = false →
          run_main argv w
          = (1%Z,
             emitted (line ("❌ Error: Submission path does not exist: "
                            +:+ path_str p)) w)).
Proof.
  split.
  - intros Hlen. destruct argv as [|prog [|p rest]]; [done..|].
    simpl in Hlen. lia.
  - intros p Hp Hex. destruct argv as [|prog [|q rest]]; [done..|].
    injection Hp as ->.
    unfold Validator.run_main, Validator.main. by rewrite Hex.
Qed.
End Script.

(** A missing [requirements.txt] is a warning only: the run prints the
    three lines of the warning after the path and is otherwise, line for
    line and in its exit code, the run of the same submission with the
    file present. *)
Theorem missing_requirements_only_warns
    (exists_path : string → bool) (rglob_py : string → list string)
    (relative_to : string → string → string)
    (has_requirements : string → bool) (path_str : string → string)
    (compile_source : string → list byte → option exn)
    (compile_error_text : exn → string → string)
    (utf8_error : list byte → option string)
    (ast_parse : string → option exn) prog p rest w :
  exists_path p = true →
  rglob_py p ≠ [] →
  has_requirements p = false →
  let run has_requirements :=
    run_main exists_path rglob_py relative_to has_requirements path_str
             compile_source compile_error_text utf8_error ast_parse
             (prog :: p :: rest) w in
  (run has_requirements).1 = (run (λ _, true)).1
  ∧ ∃ tail,
      stdout (run (λ _, true)).2
      = stdout w ++ [line ("📁 Path: " +:+ path_str p)] ++ tail
      ∧ stdout (run has_requirements).2
        = stdout w ++ [line ("📁 Path: " +:+ path_str p)]
          ++ [line "⚠️  Warnings:";
              line "  - No requirements.txt found - make sure all dependencies are documented";
              line ""]
          ++ tail.
Proof.
  intros Hex Hfiles Hreq run.
  destruct (main_output exists_path rglob_py relative_to has_requirements
              path_str compile_source compile_error_text utf8_error
              ast_parse prog p rest w Hex Hfiles)
    as (w1 & Hrun1 & _ & Hout1).
  destruct (main_output exists_path rglob_py relative_to (λ _, true)
              path_str compile_source compile_error_text utf8_error
              ast_parse prog p rest w Hex Hfiles)
    as (w2 & Hrun2 & _ & Hout2).
  unfold run. rewrite Hrun1, Hrun2. cbn [fst snd]. split; [done|].
  rewrite Hreq in Hout1. cbv beta iota in Hout2.
  eexists. split; [exact Hout2|]. exact Hout1.
Qed.

(** C2, at a file with a syntax error. The submission holds [bad.py],
    whose text the compiler rejects at line 1 with "invalid syntax", and
    [good.py]. The check of [bad.py] fails, but its message is the one of
    [PyCompileError] under ["Error: "], not ["Syntax error at line 1:
    invalid syntax"]; the loop goes on to [good.py] and the run exits with
    status 1. *)
Lemma syntax_error_reported_as_compile_error :
  Sample.validate "sub/bad.py" Sample.submission
  = (inr (false,
          "Error: " +:+ "  File " +:+ Sample.dq +:+ "sub/bad.py" +:+ Sample.dq
          +:+ ", line 1" +:+ nl +:+ "SyntaxError: invalid syntax" +:+ nl),
     Sample.submission)
  ∧ (Sample.validate "sub/bad.py" Sample.submission).1
    ≠ inr (false, "Syntax error at line 1: invalid syntax")
  ∧ (Sample.validator ["validate_python.py"; "sub"] Sample.submission).1 = 1%Z
  ∧ "  Checking good.py... "
    ∈ stdout (Sample.validator ["validate_python.py"; "sub"]
                Sample.submission).2.
Proof.
  split; [by vm_compute|]. split; [by vm_compute|]. split; [by vm_compute|].
  vm_compute. repeat first [apply list_elem_of_here | apply list_elem_of_further].
Qed.

(** The broken file of the sample submission, checked with a compiler that
    lets it through: the parser's error has the "Syntax error" form. *)
Lemma syntax_error_form_only_from_parser_witness :
  ∃ lineno msg,
    (Sample.validate_parsing "sub/bad.py" Sample.submission).1
    = inr (false, syntax_error_message lineno msg).
Proof.
  apply (syntax_error_form_only_from_parser (λ _ _, None)
           Sample.compile_error_text (λ _, None) Sample.ast_parse
           "sub/bad.py" Sample.submission).
  exists (list_byte_of_string Sample.bad_source), (Some 1%Z),
         "invalid syntax".
  repeat split; reflexivity.
Defined.

(** The sample submission under a compiler and a parser that accept both
    of its files. *)
Lemma clean_run_output_witness :
  (Sample.lenient_validator ["validate_python.py"; "sub"]
     Sample.submission).1 = 0%Z
  ∧ stdout (Sample.lenient_validator ["validate_python.py"; "sub"]
              Sample.submission).2
    = [] ++ [line ("📁 Path: " +:+ "sub")]
      ++ [line "⚠️  Warnings:";
          line "  - No requirements.txt found - make sure all dependencies are documented";
          line ""]
      ++ [line ("📝 Found " +:+ "2" +:+ " Python file(s)"); line ""]
      ++ flat_map
           (λ f, [("  Checking " +:+ Sample.relative_to f "sub" +:+ "...")
                  +:+ " ";
                  line "✅"])
           ["sub/bad.py"; "sub/good.py"]
      ++ [line ""; line (str_repeat "=" 60);
          line "✅ All Python files validated successfully!";
          line ("   " +:+ "2" +:+ " file(s) checked")].
Proof.
  apply (clean_run_output (λ p, String.eqb p "sub") Sample.rglob_py
           Sample.relative_to (λ _, false) id (λ _ _, None)
           Sample.compile_error_text (λ _, None) (λ _, None)
           "validate_python.py" "sub" [] Sample.submission);
    [reflexivity|discriminate|].
  repeat constructor.
Defined.

(** The broken file of the sample submission. *)
Lemma failing_file_is_reported_witness :
  (Sample.validator ["validate_python.py"; "sub"] Sample.submission).1 = 1%Z
  ∧ line ("❌ Validation failed with "
          +:+ pretty (List.length
                        (List.filter
                           (λ f, match (Sample.validate f Sample.submission).1
                                 with
                                 | inr (true, _) => false
                                 | _ => true
                                 end)
                           (Sample.rglob_py "sub")))
          +:+ " error(s):")
    ∈ stdout (Sample.validator ["validate_python.py"; "sub"]
                Sample.submission).2
  ∧ ∃ msg,
      (Sample.validate "sub/bad.py" Sample.submission).1 = inr (false, msg)
      ∧ line ("  " +:+ Sample.relative_to "sub/bad.py" "sub" +:+ ":")
        ∈ stdout (Sample.validator ["validate_python.py"; "sub"]
                    Sample.submission).2
      ∧ line ("    " +:+ msg)
        ∈ stdout (Sample.validator ["validate_python.py"; "sub"]
                    Sample.submission).2.
Proof.
  apply (failing_file_is_reported (λ p, String.eqb p "sub") Sample.rglob_py
           Sample.relative_to (λ _, false) id Sample.compile_source
           Sample.compile_error_text (λ _, None) Sample.ast_parse
           "validate_python.py" "sub" [] Sample.submission "sub/bad.py").
  - reflexivity.
  - apply list_elem_of_here.
  - intros [Hcompile _]. discriminate Hcompile.
Defined.

(** No argument; and a path that is not there. *)
Lemma bad_invocation_exits_one_witness :
  Sample.validator ["validate_python.py"] Sample.submission
  = (1%Z,
     emitted (line "❌ Error: No submission path provided") Sample.submission)
  ∧ Sample.validator ["validate_python.py"; "gone"] Sample.submission
    = (1%Z,
       emitted (line ("❌ Error: Submission path does not exist: "
                      +:+ "gone")) Sample.submission).
Proof.
  split.
  - apply (bad_invocation_exits_one (λ p, String.eqb p "sub")
             Sample.rglob_py Sample.relative_to (λ _, false) id
             Sample.compile_source Sample.compile_error_text (λ _, None)
             Sample.ast_parse ["validate_python.py"] Sample.submission).
    simpl. lia.
  - apply (bad_invocation_exits_one (λ p, String.eqb p "sub")
             Sample.rglob_py Sample.relative_to (λ _, false) id
             Sample.compile_source Sample.compile_error_text (λ _, None)
             Sample.ast_parse ["validate_python.py"; "gone"]
             Sample.submission); reflexivity.
Defined.

(** The sample submission, which has no [requirements.txt]. *)
Lemma missing_requirements_only_warns_witness :
  (Sample.validator ["validate_python.py"; "sub"] Sample.submission).1
  = (run_main (λ p, String.eqb p "sub") Sample.rglob_py Sample.relative_to
       (λ _, true) id Sample.compile_source Sample.compile_error_text
       (λ _, None) Sample.ast_parse ["validate_python.py"; "sub"]
       Sample.submission).1
  ∧ ∃ tail,
      stdout (run_main (λ p, String.eqb p "sub") Sample.rglob_py
                Sample.relative_to (λ _, true) id Sample.compile_source
                Sample.compile_error_text (λ _, None) Sample.ast_parse
                ["validate_python.py"; "sub"] Sample.submission).2
      = [] ++ [line ("📁 Path: " +:+ "sub")] ++ tail
      ∧ stdout (Sample.validator ["validate_python.py"; "sub"]
                  Sample.submission).2
        = [] ++ [line ("📁 Path: " +:+ "sub")]
          ++ [line "⚠️  Warnings:";
              line "  - No requirements.txt found - make sure all dependencies are documented";
              line ""]
          ++ tail.
Proof.
  apply (missing_requirements_only_warns (λ p, String.eqb p "sub")
           Sample.rglob_py Sample.relative_to (λ _, false) id
           Sample.compile_source Sample.compile_error_text (λ _, None)
           Sample.ast_parse "validate_python.py" "sub" []
           Sample.submission); [reflexivity|discriminate|reflexivity].
Defined.

End ValidatorFacts.
